(** * clean_data.py: the STIX bundle partitioner, the technique resolver and
      the per-folder output accumulator, embedded in Rocq.

    The script reads JSON files, so every value it touches is a parsed JSON
    value handled with Python's dynamic operations.  The embedding keeps that:
    values are [json] trees, the Python operations used by the script
    ([.get], [in], iteration, [len], slicing, truthiness, [sort]) are
    functions on [json] that raise where Python raises, and the script's
    functions are written over them in an exception monad.

    Scope of the value model.
    - Python [int] is [Z]; JSON numbers with a fraction or an exponent
      (Python [float]) are outside the model.
    - A Python [str] is a Stdlib [string]; one [ascii] stands for one code
      point below 256.  [len], slicing, comparison, [split], [startswith],
      [in], [lower] and [strip] agree with Python on such text; [title]
      agrees with Python on ASCII text.
    - All handlers of the script are [except Exception] and none inspects
      the exception, so a raised exception is the single outcome [Raise].
    - Reading an input file is a function from its path to the parsed value
      or [Raise]; the output file is a value passed in and out, and opening
      and writing it succeed.  Console output is not modelled.

    The file has three parts: the Python value layer, the functions of
    clean_data.py in source order, and the vocabulary and sample inputs of
    the statements; the lemmas and theorems follow. *)

From Stdlib Require Import String Ascii List ZArith NArith Bool Lia.
From Stdlib Require Import Sorted Permutation.
Import ListNotations.

Set Warnings "-register-all".

Local Open Scope string_scope.
Local Open Scope list_scope.

(** ** Exceptions *)

Inductive result (A : Type) : Type :=
| Ok (a : A)
| Raise.

Arguments Ok {A} a.
Arguments Raise {A}.

Definition bind {A B : Type} (m : result A) (k : A -> result B) : result B :=
  match m with
  | Ok a => k a
  | Raise => Raise
  end.

Notation "x <- m ;; k" := (bind m (fun x => k))
  (at level 61, m at next level, right associativity).

(** ** Parsed JSON values *)

(** The value [json.load] returns.  A [JObj] lists the items of the parsed
    [dict] in insertion order; [json.load] leaves each key once. *)
Inductive json : Type :=
| JNull
| JBool (b : bool)
| JNum (z : Z)
| JStr (s : string)
| JArr (l : list json)
| JObj (d : list (string * json)).

(** Python truthiness ([if x], [not x]). *)
Definition truthy (v : json) : bool :=
  match v with
  | JNull => false
  | JBool b => b
  | JNum z => negb (z =? 0)%Z
  | JStr s => negb (s =? "")
  | JArr l => match l with [] => false | _ => true end
  | JObj d => match d with [] => false | _ => true end
  end.

(** [v == s] for a string literal [s]. *)
Definition eq_str (v : json) (s : string) : bool :=
  match v with
  | JStr t => (t =? s)
  | _ => false
  end.

(** *** Dictionaries with string keys (JSON objects) *)

Fixpoint dict_get (d : list (string * json)) (k : string) : option json :=
  match d with
  | [] => None
  | (k', v) :: rest => if (k' =? k) then Some v else dict_get rest k
  end.

Fixpoint dict_keys (d : list (string * json)) (seen : list string) : list string :=
  match d with
  | [] => []
  | (k, _) :: rest =>
      if existsb (String.eqb k) seen then dict_keys rest seen
      else k :: dict_keys rest (k :: seen)
  end.

(** [v.get(k, default)]: only a [dict] has [.get]. *)
Definition py_get (v : json) (k : string) (default : json) : result json :=
  match v with
  | JObj d => Ok (match dict_get d k with Some x => x | None => default end)
  | _ => Raise
  end.

(** [k in v] and [v[k]] for a [v] already known to be a [dict]. *)
Definition has_key (v : json) (k : string) : bool :=
  match v with
  | JObj d => match dict_get d k with Some _ => true | None => false end
  | _ => false
  end.

Definition subscript (v : json) (k : string) : result json :=
  match v with
  | JObj d => match dict_get d k with Some x => Ok x | None => Raise end
  | _ => Raise
  end.

(** *** Strings *)

Fixpoint chars (s : string) : list ascii :=
  match s with
  | EmptyString => []
  | String c s' => c :: chars s'
  end.

Fixpoint str_map (f : ascii -> ascii) (s : string) : string :=
  match s with
  | EmptyString => EmptyString
  | String c s' => String (f c) (str_map f s')
  end.

Definition in_range (lo hi : N) (c : ascii) : bool :=
  let n := N_of_ascii c in ((lo <=? n) && (n <=? hi))%N.

Definition is_upper (c : ascii) : bool :=
  in_range 65 90 c || (in_range 192 222 c && negb (N_of_ascii c =? 215)%N).

Definition is_lower_letter (c : ascii) : bool :=
  in_range 97 122 c || (in_range 224 254 c && negb (N_of_ascii c =? 247)%N).

Definition lower_char (c : ascii) : ascii :=
  if is_upper c then ascii_of_N (N_of_ascii c + 32) else c.

Definition upper_char (c : ascii) : ascii :=
  if is_lower_letter c then ascii_of_N (N_of_ascii c - 32) else c.

(** [s.lower()]. *)
Definition lower (s : string) : string := str_map lower_char s.

(** [sub in s] for strings. *)
Fixpoint contains (sub s : string) : bool :=
  String.prefix sub s ||
  match s with
  | EmptyString => false
  | String _ s' => contains sub s'
  end.

(** [s.startswith(p)]. *)
Definition startswith (s p : string) : bool := String.prefix p s.

(** [s[:n]]. *)
Fixpoint str_take (n : nat) (s : string) : string :=
  match n, s with
  | O, _ => EmptyString
  | _, EmptyString => EmptyString
  | S n', String c s' => String c (str_take n' s')
  end.

(** [s.split(sep)] for a one-character separator: the fragments between the
    separators, empty ones included; always at least one fragment. *)
Fixpoint split (sep : ascii) (s : string) : list string :=
  match s with
  | EmptyString => [EmptyString]
  | String c s' =>
      if Ascii.eqb c sep then EmptyString :: split sep s'
      else match split sep s' with
           | [] => [String c EmptyString]
           | frag :: rest => String c frag :: rest
           end
  end.

(** [c.isspace()]. *)
Definition is_space (c : ascii) : bool :=
  in_range 9 13 c || in_range 28 32 c ||
  (N_of_ascii c =? 133)%N || (N_of_ascii c =? 160)%N.

Fixpoint lstrip (s : string) : string :=
  match s with
  | EmptyString => EmptyString
  | String c s' => if is_space c then lstrip s' else s
  end.

Fixpoint rstrip (s : string) : string :=
  match s with
  | EmptyString => EmptyString
  | String c s' =>
      match rstrip s' with
      | EmptyString => if is_space c then EmptyString else String c EmptyString
      | r => String c r
      end
  end.

(** [s.strip()]. *)
Definition strip (s : string) : string := rstrip (lstrip s).

(** [s.replace(a, b)] for one-character [a] and [b]. *)
Definition replace (a b : ascii) (s : string) : string :=
  str_map (fun c => if Ascii.eqb c a then b else c) s.

Definition is_cased (c : ascii) : bool :=
  is_upper c || is_lower_letter c ||
  (N_of_ascii c =? 170)%N || (N_of_ascii c =? 181)%N ||
  (N_of_ascii c =? 186)%N || (N_of_ascii c =? 223)%N || (N_of_ascii c =? 255)%N.

(** [s.title()]: a character that follows a cased character is lowered,
    any other is title-cased. *)
Fixpoint title_from (previous_is_cased : bool) (s : string) : string :=
  match s with
  | EmptyString => EmptyString
  | String c s' =>
      String (if previous_is_cased then lower_char c else upper_char c)
             (title_from (is_cased c) s')
  end.

Definition title (s : string) : string := title_from false s.

(** *** Iteration *)

(** [for x in v]: the elements of a list, the keys of a dict, the characters
    of a string; anything else is not iterable. *)
Definition py_iter (v : json) : result (list json) :=
  match v with
  | JArr l => Ok l
  | JObj d => Ok (map JStr (dict_keys d []))
  | JStr s => Ok (map (fun c => JStr (String c EmptyString)) (chars s))
  | _ => Raise
  end.

(** *** Dictionaries and sets keyed by hashable values *)

Definition hashable (v : json) : bool :=
  match v with
  | JArr _ | JObj _ => false
  | _ => true
  end.

(** The integer a [bool] or [int] counts as ([True == 1]). *)
Definition num_value (v : json) : option Z :=
  match v with
  | JBool b => Some (if b then 1 else 0)%Z
  | JNum z => Some z
  | _ => None
  end.

(** Python [==] between hashable values, as [dict] and [set] lookups use it. *)
Definition key_eqb (a b : json) : bool :=
  match a, b with
  | JNull, JNull => true
  | JStr s, JStr t => (s =? t)
  | _, _ =>
      match num_value a, num_value b with
      | Some x, Some y => (x =? y)%Z
      | _, _ => false
      end
  end.

(** A [dict] whose keys are hashable JSON values: its items in insertion
    order. *)
Definition pydict (V : Type) : Type := list (json * V).

Fixpoint lookup {V : Type} (d : pydict V) (k : json) : option V :=
  match d with
  | [] => None
  | (k', v) :: rest => if key_eqb k' k then Some v else lookup rest k
  end.

(** [d[k] = v]: an existing key keeps its place, a new key goes last. *)
Fixpoint dict_set {V : Type} (d : pydict V) (k : json) (v : V) : pydict V :=
  match d with
  | [] => [(k, v)]
  | (k', v') :: rest =>
      if key_eqb k' k then (k', v) :: rest else (k', v') :: dict_set rest k v
  end.

(** [k in d]: hashes [k] first. *)
Definition contains_key {V : Type} (d : pydict V) (k : json) : result bool :=
  if hashable k
  then Ok (match lookup d k with Some _ => true | None => false end)
  else Raise.

(** [a | b]. *)
Definition dict_union {V : Type} (a b : pydict V) : pydict V :=
  fold_left (fun acc kv => dict_set acc (fst kv) (snd kv)) b a.

Definition values {V : Type} (d : pydict V) : list V := map snd d.

(** A [set] of hashable values. *)
Definition pyset : Type := list json.

Definition set_mem (s : pyset) (k : json) : result bool :=
  if hashable k then Ok (existsb (fun k' => key_eqb k' k) s) else Raise.

Definition set_add (s : pyset) (k : json) : pyset :=
  if existsb (fun k' => key_eqb k' k) s then s else s ++ [k].

(** * clean_data.py *)

(** ** extract_technique_id *)

Fixpoint extract_technique_id_loop (refs : list json) : result json :=
  match refs with
  | [] => Ok JNull
  | ref :: rest =>
      source_name <- py_get ref "source_name" JNull ;;
      if eq_str source_name "mitre-attack" && has_key ref "external_id"
      then subscript ref "external_id"
      else extract_technique_id_loop rest
  end.

(** The result is the [external_id] found, or [JNull] for Python's [None]. *)
Definition extract_technique_id (external_refs : json) : result json :=
  refs <- py_iter external_refs ;;
  extract_technique_id_loop refs.

(** ** extract_tactics *)

Fixpoint extract_tactics_loop (phases : list json) (tactics : list string)
  : result (list string) :=
  match phases with
  | [] => Ok tactics
  | phase :: rest =>
      chain <- py_get phase "kill_chain_name" JNull ;;
      if eq_str chain "mitre-attack" then
        phase_name <- py_get phase "phase_name" (JStr "") ;;
        match phase_name with
        | JStr s =>
            let tactic := title (replace "-" " " s) in
            extract_tactics_loop rest
              (if (tactic =? "") then tactics else tactics ++ [tactic])
        | _ => Raise
        end
      else extract_tactics_loop rest tactics
  end.

Definition extract_tactics (kill_chain_phases : json) : result (list string) :=
  phases <- py_iter kill_chain_phases ;;
  extract_tactics_loop phases [].

(** ** extract_external_references *)

Record reference : Type := {
  ref_source_name : json;
  ref_description : json;
  ref_url : json
}.

Fixpoint extract_external_references_loop (refs : list json)
  (references : list reference) : result (list reference) :=
  match refs with
  | [] => Ok references
  | ref :: rest =>
      source_name <- py_get ref "source_name" JNull ;;
      if eq_str source_name "mitre-attack"
      then extract_external_references_loop rest references
      else
        sn <- py_get ref "source_name" (JStr "") ;;
        ds <- py_get ref "description" (JStr "") ;;
        url <- py_get ref "url" (JStr "") ;;
        extract_external_references_loop rest
          (references ++
             [{| ref_source_name := sn; ref_description := ds; ref_url := url |}])
  end.

Definition extract_external_references (external_refs : json)
  : result (list reference) :=
  refs <- py_iter external_refs ;;
  extract_external_references_loop refs [].

(** ** find_relationships *)

(** The entry appended to ['mitigations'], ['groups'] or ['software']. *)
Record brief : Type := {
  brief_name : json;
  brief_description : json;
  brief_id : json
}.

Record relationships_data : Type := {
  res_mitigations : list brief;
  res_groups : list brief;
  res_software : list brief
}.

(** [d[:200] + '...' if len(d) > 200 else d] for [d] a string. *)
Definition truncate (s : string) : string :=
  if (200 <? String.length s)%nat then (str_take 200 s ++ "...")%string else s.

(** The same expression on whatever [.get('description', '')] returned:
    [len] needs a sized value, and a long list or dict cannot take the
    slice-and-concatenate branch. *)
Definition truncate_description (d : json) : result json :=
  match d with
  | JStr s => Ok (JStr (truncate s))
  | JArr l => if (200 <? List.length l)%nat then Raise else Ok d
  | JObj o => if (200 <? List.length (dict_keys o []))%nat then Raise else Ok d
  | _ => Raise
  end.

(** The dict literal the source writes three times, once per bucket. *)
Definition brief_of (obj : json) : result brief :=
  name <- py_get obj "name" (JStr "") ;;
  d <- py_get obj "description" (JStr "") ;;
  description <- truncate_description d ;;
  refs <- py_get obj "external_references" (JArr []) ;;
  id <- extract_technique_id refs ;;
  Ok {| brief_name := name; brief_description := description; brief_id := id |}.

(** [k in d] followed by [d[k]]. *)
Definition find_key {V : Type} (d : pydict V) (k : json) : result (option V) :=
  if hashable k then Ok (lookup d k) else Raise.

(** [target_ref.startswith(p)]: only a [str] has [startswith]. *)
Definition py_startswith (v : json) (p : string) : result bool :=
  match v with
  | JStr s => Ok (startswith s p)
  | _ => Raise
  end.

Definition add_mitigation (r : relationships_data) (b : brief) :=
  {| res_mitigations := res_mitigations r ++ [b];
     res_groups := res_groups r; res_software := res_software r |}.

Definition add_group (r : relationships_data) (b : brief) :=
  {| res_mitigations := res_mitigations r;
     res_groups := res_groups r ++ [b]; res_software := res_software r |}.

Definition add_software (r : relationships_data) (b : brief) :=
  {| res_mitigations := res_mitigations r;
     res_groups := res_groups r; res_software := res_software r ++ [b] |}.

(** The branch on [relationship_type] taken for an edge that passed the
    prefix test. *)
Definition relate (mitigations groups software : pydict json)
  (r : relationships_data) (source_ref relationship_type : json)
  : result relationships_data :=
  m <- (if eq_str relationship_type "mitigates"
        then find_key mitigations source_ref else Ok None) ;;
  match m with
  | Some mitigation => b <- brief_of mitigation ;; Ok (add_mitigation r b)
  | None =>
      if eq_str relationship_type "uses" then
        g <- find_key groups source_ref ;;
        match g with
        | Some group => b <- brief_of group ;; Ok (add_group r b)
        | None =>
            s <- find_key software source_ref ;;
            match s with
            | Some sw => b <- brief_of sw ;; Ok (add_software r b)
            | None => Ok r
            end
        end
      else Ok r
  end.

Fixpoint find_relationships_loop (relationships : list json)
  (mitigations groups software : pydict json) (r : relationships_data)
  : result relationships_data :=
  match relationships with
  | [] => Ok r
  | rel :: rest =>
      target_ref <- py_get rel "target_ref" (JStr "") ;;
      targets_attack_pattern <- py_startswith target_ref "attack-pattern--" ;;
      if targets_attack_pattern then
        source_ref <- py_get rel "source_ref" (JStr "") ;;
        relationship_type <- py_get rel "relationship_type" (JStr "") ;;
        r' <- relate mitigations groups software r source_ref relationship_type ;;
        find_relationships_loop rest mitigations groups software r'
      else find_relationships_loop rest mitigations groups software r
  end.

(** [technique_id] is a parameter of the source function; its body never
    reads it. *)
Definition find_relationships (technique_id : json) (relationships : list json)
  (mitigations groups software : pydict json) : result relationships_data :=
  find_relationships_loop relationships mitigations groups software
    {| res_mitigations := []; res_groups := []; res_software := [] |}.

(** ** process_stix_data *)

Record bundle : Type := {
  attack_patterns : pydict json;
  mitigations : pydict json;
  groups : pydict json;
  software : pydict json;
  relationships : list json
}.

(** [objects_by_type.get(t, {})]. *)
Definition bucket (objects_by_type : pydict (pydict json)) (t : json)
  : pydict json :=
  match lookup objects_by_type t with
  | Some b => b
  | None => []
  end.

(** One turn of the loop over ['objects'].  [objects_by_type] is a
    [defaultdict(dict)]: subscripting it hashes the type, and storing under
    the identifier hashes the identifier. *)
Definition partition_step (st : pydict (pydict json) * list json) (obj : json)
  : result (pydict (pydict json) * list json) :=
  let '(objects_by_type, rels) := st in
  obj_type <- py_get obj "type" JNull ;;
  obj_id <- py_get obj "id" JNull ;;
  if eq_str obj_type "relationship" then Ok (objects_by_type, rels ++ [obj])
  else if truthy obj_id then
    if hashable obj_type && hashable obj_id
    then Ok (dict_set objects_by_type obj_type
               (dict_set (bucket objects_by_type obj_type) obj_id obj), rels)
    else Raise
  else Ok st.

Fixpoint partition_loop (objs : list json) (st : pydict (pydict json) * list json)
  : result (pydict (pydict json) * list json) :=
  match objs with
  | [] => Ok st
  | obj :: rest => st' <- partition_step st obj ;; partition_loop rest st'
  end.

Definition process_stix_data (stix_data : json) : result bundle :=
  objects <- py_get stix_data "objects" (JArr []) ;;
  objs <- py_iter objects ;;
  st <- partition_loop objs ([], []) ;;
  let '(objects_by_type, rels) := st in
  Ok {| attack_patterns := bucket objects_by_type (JStr "attack-pattern");
        mitigations := bucket objects_by_type (JStr "course-of-action");
        groups := bucket objects_by_type (JStr "intrusion-set");
        software := dict_union (bucket objects_by_type (JStr "malware"))
                               (bucket objects_by_type (JStr "tool"));
        relationships := rels |}.

(** ** extract_technique_data *)

Record tag_bundle : Type := {
  is_subtechnique : json;
  deprecated : json;
  domains : json
}.

Record technique : Type := {
  technique_id : json;
  name : json;
  description : string;
  tactics : list string;
  platforms : json;
  detection : json;
  tech_mitigations : list brief;
  data_sources : json;
  procedure_examples : list string;
  related_groups : list brief;
  related_software : list brief;
  external_references : list reference;
  tags : tag_bundle;
  version : json;
  created : json;
  modified : json;
  permissions_required : json;
  impact_type : json;
  system_requirements : json;
  defense_bypassed : json;
  remote_support : json
}.

Definition keywords : list string :=
  ["example"; "observed"; "used by"; "employed by"].

(** [any(keyword in sentence.lower() for keyword in [...])]. *)
Definition mentions_keyword (sentence : string) : bool :=
  existsb (fun keyword => contains keyword (lower sentence)) keywords.

(** The loop over [description.split('.')], appending as it goes. *)
Fixpoint collect_examples (sentences : list string)
  (procedure_examples : list string) : list string :=
  match sentences with
  | [] => procedure_examples
  | sentence :: rest =>
      collect_examples rest
        (if mentions_keyword sentence
         then procedure_examples ++ [(strip sentence ++ ".")%string]
         else procedure_examples)
  end.

Definition extract_procedure_examples (description : string) : list string :=
  if contains "example" (lower description)
     || contains "observed" (lower description)
  then collect_examples (split "." description) []
  else [].

(** [description.lower()]: only a [str] has [lower]. *)
Definition as_str (v : json) : result string :=
  match v with
  | JStr s => Ok s
  | _ => Raise
  end.

(** [attack_pattern.get(k, default)] once [attack_pattern] has answered a
    [.get] and so is a [dict]. *)
Definition field (attack_pattern : json) (k : string) (default : json) : json :=
  match attack_pattern with
  | JObj d => match dict_get d k with Some x => x | None => default end
  | _ => default
  end.

(** [None] is the source's [return None]. *)
Definition extract_technique_data (attack_pattern : json) (processed_data : bundle)
  : result (option technique) :=
  refs <- py_get attack_pattern "external_references" (JArr []) ;;
  tid <- extract_technique_id refs ;;
  if negb (truthy tid) then Ok None
  else
    ap_id <- py_get attack_pattern "id" (JStr "") ;;
    relationships_data <-
      find_relationships ap_id (relationships processed_data)
        (mitigations processed_data) (groups processed_data)
        (software processed_data) ;;
    d <- py_get attack_pattern "description" (JStr "") ;;
    description <- as_str d ;;
    phases <- py_get attack_pattern "kill_chain_phases" (JArr []) ;;
    tactics <- extract_tactics phases ;;
    references <- extract_external_references refs ;;
    let get := field attack_pattern in
    Ok (Some
      {| technique_id := tid;
         name := get "name" (JStr "");
         description := description;
         tactics := tactics;
         platforms := get "x_mitre_platforms" (JArr []);
         detection := get "x_mitre_detection" (JStr "");
         tech_mitigations := res_mitigations relationships_data;
         data_sources := get "x_mitre_data_sources" (JArr []);
         procedure_examples := extract_procedure_examples description;
         related_groups := res_groups relationships_data;
         related_software := res_software relationships_data;
         external_references := references;
         tags := {| is_subtechnique := get "x_mitre_is_subtechnique" (JBool false);
                    deprecated := get "x_mitre_deprecated" (JBool false);
                    domains := get "x_mitre_domains" (JArr []) |};
         version := get "x_mitre_version" (JStr "");
         created := get "created" (JStr "");
         modified := get "modified" (JStr "");
         permissions_required := get "x_mitre_permissions_required" (JArr []);
         impact_type := get "x_mitre_impact_type" (JArr []);
         system_requirements := get "x_mitre_system_requirements" (JArr []);
         defense_bypassed := get "x_mitre_defense_bypassed" (JArr []);
         remote_support := get "x_mitre_remote_support" (JBool false) |}).

(** ** Sorting *)

(** [list.sort] is stable and compares with [<] only.  Sorting a list [l]
    from its right end, [x] is put before the first element that is not
    smaller, so it stays in front of its equals. *)
Fixpoint insert {A : Type} (ltb : A -> A -> bool) (x : A) (l : list A) : list A :=
  match l with
  | [] => [x]
  | y :: l' => if ltb y x then y :: insert ltb x l' else x :: l
  end.

Definition stable_sort {A : Type} (ltb : A -> A -> bool) (l : list A) : list A :=
  fold_right (insert ltb) [] l.

(** [a < b] is defined between two strings and between two numbers
    ([bool] counts as a number); every other pair raises [TypeError]. *)
Definition comparable (a b : json) : bool :=
  match a, b with
  | JStr _, JStr _ => true
  | _, _ =>
      match num_value a, num_value b with
      | Some _, Some _ => true
      | _, _ => false
      end
  end.

Definition key_ltb (a b : json) : bool :=
  match a, b with
  | JStr s, JStr t => (s <? t)%string
  | _, _ =>
      match num_value a, num_value b with
      | Some x, Some y => (x <? y)%Z
      | _, _ => false
      end
  end.

(** [techniques.sort(key=lambda x: x['technique_id'])].  The keys that reach
    this call have passed a set-membership test, so they are hashable:
    strings, numbers, booleans.  A list of fewer than two records is not
    compared at all.  Otherwise a comparison sort has to compare every
    record with some neighbour of the result, so it raises as soon as two
    keys of the list cannot be compared. *)
Definition sort_by_technique_id (l : list technique) : result (list technique) :=
  match l with
  | [] => Ok l
  | [_] => Ok l
  | x :: _ =>
      if forallb (fun y => comparable (technique_id x) (technique_id y)) l
      then Ok (stable_sort
                 (fun a b => key_ltb (technique_id a) (technique_id b)) l)
      else Raise
  end.

(** ** The output document *)

Record metadata : Type := {
  source : string;
  extraction_date : string;
  total_techniques : nat;
  meta_description : string;
  processed_files : list string
}.

Record document : Type := {
  doc_metadata : metadata;
  techniques : list technique
}.

(** ** append_techniques_to_file *)

(** The output file is read, extended, sorted and written back inside one
    [try]; when the sort raises, the handler prints a warning and the file
    keeps its content.  [data] is the content of the file. *)
Definition append_techniques_to_file (data : document)
  (new_techniques : list technique) : document :=
  match sort_by_technique_id (techniques data ++ new_techniques) with
  | Ok sorted => {| doc_metadata := doc_metadata data; techniques := sorted |}
  | Raise => data
  end.

(** ** update_metadata *)

Definition update_metadata (data : document) (total : nat)
  (files : list string) : document :=
  {| doc_metadata :=
       {| source := source (doc_metadata data);
          extraction_date := extraction_date (doc_metadata data);
          total_techniques := total;
          meta_description := meta_description (doc_metadata data);
          processed_files := files |};
     techniques := techniques data |}.

(** ** process_folder *)

(** What the loop over the files carries from one file to the next: the
    local variables of [process_folder] and the content of the output file. *)
Record progress : Type := {
  all_technique_ids : pyset;
  total : nat;
  processed : list string;
  on_disk : document
}.

(** The loop over [attack_patterns.values()].  An exception leaves the loop
    while [all_technique_ids], which lives outside the [try], keeps the
    identifiers added so far: the set is returned in both cases. *)
Fixpoint resolve_attack_patterns (aps : list json) (processed_data : bundle)
  (ids : pyset) (file_techniques : list technique)
  : pyset * result (list technique) :=
  match aps with
  | [] => (ids, Ok file_techniques)
  | attack_pattern :: rest =>
      match extract_technique_data attack_pattern processed_data with
      | Raise => (ids, Raise)
      | Ok None => resolve_attack_patterns rest processed_data ids file_techniques
      | Ok (Some technique_data) =>
          match set_mem ids (technique_id technique_data) with
          | Raise => (ids, Raise)
          | Ok true =>
              resolve_attack_patterns rest processed_data ids file_techniques
          | Ok false =>
              resolve_attack_patterns rest processed_data
                (set_add ids (technique_id technique_data))
                (file_techniques ++ [technique_data])
          end
      end
  end.

(** [os.path.basename]. *)
Definition basename (path : string) : string := last (split "/" path) "".

(** The body of the loop over [json_files]; [read] is [open] followed by
    [json.load].  Any exception skips the rest of the body. *)
Definition process_file (read : string -> result json) (st : progress)
  (json_file : string) : progress :=
  let filename := basename json_file in
  match (stix_data <- read json_file ;; process_stix_data stix_data) with
  | Raise => st
  | Ok processed_data =>
      let '(ids, outcome) :=
        resolve_attack_patterns (values (attack_patterns processed_data))
          processed_data (all_technique_ids st) [] in
      match outcome with
      | Raise =>
          {| all_technique_ids := ids; total := total st;
             processed := processed st; on_disk := on_disk st |}
      | Ok file_techniques =>
          match file_techniques with
          | [] =>
              {| all_technique_ids := ids; total := total st;
                 processed := processed st ++ [filename];
                 on_disk := on_disk st |}
          | _ =>
              {| all_technique_ids := ids;
                 total := total st + List.length file_techniques;
                 processed := processed st ++ [filename];
                 on_disk :=
                   append_techniques_to_file (on_disk st) file_techniques |}
          end
      end
  end.

Definition initial_data (folder_path : string) : document :=
  let label := last (split "/" folder_path) "" in
  {| doc_metadata :=
       {| source := "MITRE ATT&CK " ++ label;
          extraction_date := "2025-07-29";
          total_techniques := 0;
          meta_description :=
            "Comprehensive technique data extracted from " ++ label
            ++ " MITRE ATT&CK framework";
          processed_files := [] |};
     techniques := [] |}%string.

(** [folder_exists] is [os.path.exists(folder_path)], [json_files] what
    [glob] returns, in whatever order, and [output_file] the content of the
    output file before the call, if it exists.  The result is its content
    after the call.  Opening and writing the output file succeed. *)
Definition process_folder (folder_exists : bool) (folder_path : string)
  (json_files : list string) (read : string -> result json)
  (output_file : option document) : option document :=
  if negb folder_exists then output_file
  else
    match json_files with
    | [] => output_file
    | _ =>
        let json_files := stable_sort String.ltb json_files in
        let st :=
          fold_left (process_file read) json_files
            {| all_technique_ids := []; total := 0; processed := [];
               on_disk := initial_data folder_path |} in
        Some (update_metadata (on_disk st) (total st) (processed st))
    end.

(** ** os.path, as POSIX has it *)

(** [s.endswith('/')]. *)
Fixpoint ends_with_slash (s : string) : bool :=
  match s with
  | EmptyString => false
  | String c s' =>
      match s' with
      | EmptyString => Ascii.eqb c "/"
      | String _ _ => ends_with_slash s'
      end
  end.

(** [os.path.join(a, b)]. *)
Definition path_join (a b : string) : string :=
  if startswith b "/" then b
  else if (a =? "") || ends_with_slash a then a ++ b
  else a ++ String "/" b.

(** [p[:p.rfind('/') + 1]]. *)
Fixpoint head_part (p : string) : string :=
  match p with
  | EmptyString => EmptyString
  | String c p' =>
      if contains "/" p' then String c (head_part p')
      else if Ascii.eqb c "/" then String c EmptyString
      else EmptyString
  end.

(** [head == '/' * len(head)]. *)
Fixpoint all_slashes (s : string) : bool :=
  match s with
  | EmptyString => true
  | String c s' => Ascii.eqb c "/" && all_slashes s'
  end.

(** [head.rstrip('/')]. *)
Fixpoint rstrip_slashes (s : string) : string :=
  match s with
  | EmptyString => EmptyString
  | String c s' =>
      match rstrip_slashes s' with
      | EmptyString =>
          if Ascii.eqb c "/" then EmptyString else String c EmptyString
      | r => String c r
      end
  end.

(** [os.path.dirname(p)]. *)
Definition dirname (p : string) : string :=
  let head := head_part p in
  if negb (head =? "") && negb (all_slashes head)
  then rstrip_slashes head
  else head.

(** The [output_path] of [process_folder]. *)
Definition output_path (folder_path output_filename : string) : string :=
  path_join (dirname folder_path) output_filename.

(** ** main *)

Definition folders_to_process : list (string * string) :=
  [("attack-stix-data/enterprise-attack", "enterprise-attack.json");
   ("attack-stix-data/ics-attack", "ics-attack.json");
   ("attack-stix-data/mobile-attack", "mobile-attack.json")].

(** The output files, by path; [write] replaces the content of one. *)
Definition write (files : string -> option document) (path : string)
  (content : option document) : string -> option document :=
  fun p => if (p =? path) then content else files p.

(** The first loop of [main]: [script_dir] is the directory of the script,
    [path_exists] and [glob] answer for the input folders, [files] holds
    the output files before the run; the result holds them after it. *)
Definition main (script_dir : string) (path_exists : string -> bool)
  (glob : string -> list string) (read : string -> result json)
  (files : string -> option document) : string -> option document :=
  fold_left
    (fun files entry =>
       let folder_path := path_join script_dir (fst entry) in
       let out := output_path folder_path (snd entry) in
       write files out
         (process_folder (path_exists folder_path) folder_path
            (glob folder_path) read (files out)))
    folders_to_process files.

(** The paths the second loop of [main] looks at to report the files
    created. *)
Definition reported_paths (script_dir : string) : list string :=
  map (fun entry => path_join script_dir (snd entry)) folders_to_process.

(** * Vocabulary of the statements *)

(** The representation invariant of a Python dict: no two of its keys are
    equal. *)
Inductive wf_dict {V : Type} : pydict V -> Prop :=
| wf_nil : wf_dict []
| wf_cons k v d : lookup d k = None -> wf_dict d -> wf_dict ((k, v) :: d).

Definition obj_type (obj : json) : json := field obj "type" JNull.
Definition obj_id (obj : json) : json := field obj "id" JNull.

Definition is_relationship (obj : json) : bool :=
  eq_str (obj_type obj) "relationship".

(** The objects the loop of [process_stix_data] visits. *)
Definition objects_of (stix_data : json) : result (list json) :=
  objects <- py_get stix_data "objects" (JArr []) ;;
  py_iter objects.

(** What one object does to the bucket of type [t]. *)
Definition store (t : json) (b : pydict json) (obj : json) : pydict json :=
  if negb (is_relationship obj) && truthy (obj_id obj)
     && key_eqb (obj_type obj) t
  then dict_set b (obj_id obj) obj
  else b.

(** The [type] values the partitioner acts on. *)
Definition recognized (t : json) : bool :=
  existsb (eq_str t)
    ["attack-pattern"; "course-of-action"; "intrusion-set"; "malware"; "tool";
     "relationship"].

Definition in_a_bucket (pd : bundle) (obj : json) : Prop :=
  In obj (values (attack_patterns pd)) \/ In obj (values (mitigations pd)) \/
  In obj (values (groups pd)) \/ In obj (values (software pd)).

(** An object is dropped when neither a bucket nor the edge sequence has it. *)
Definition dropped (pd : bundle) (obj : json) : Prop :=
  ~ in_a_bucket pd obj /\ ~ In obj (relationships pd).

(** ** Sample objects *)

Definition mitre_ref (id : string) : json :=
  JObj [("source_name", JStr "mitre-attack"); ("external_id", JStr id)].

Definition sample_technique_a : json :=
  JObj [("type", JStr "attack-pattern"); ("id", JStr "attack-pattern--a");
        ("external_references", JArr [mitre_ref "T1001"]);
        ("description",
         JStr "Adversaries use X. It was observed in the wild.")].

Definition sample_technique_b : json :=
  JObj [("type", JStr "attack-pattern"); ("id", JStr "attack-pattern--b");
        ("external_references", JArr [mitre_ref "T1002"])].

Definition sample_mitigation : json :=
  JObj [("type", JStr "course-of-action"); ("id", JStr "course-of-action--m");
        ("name", JStr "Patch"); ("description", JStr "Patch it.");
        ("external_references", JArr [mitre_ref "M1051"])].

(** A [mitigates] edge from the mitigation to technique b; it carries no
    [id]. *)
Definition sample_edge : json :=
  JObj [("type", JStr "relationship"); ("relationship_type", JStr "mitigates");
        ("source_ref", JStr "course-of-action--m");
        ("target_ref", JStr "attack-pattern--b")].

Definition sample_bundle : json :=
  JObj [("type", JStr "bundle");
        ("objects",
         JArr [sample_technique_a; sample_technique_b; sample_mitigation;
               sample_edge])].

Definition sample_malware : json :=
  JObj [("type", JStr "malware"); ("id", JStr "software--x");
        ("name", JStr "X as malware"); ("description", JStr "malware text")].

Definition sample_tool : json :=
  JObj [("type", JStr "tool"); ("id", JStr "software--x");
        ("name", JStr "X as tool"); ("description", JStr "tool text")].

Definition sample_software_bundle : json :=
  JObj [("objects", JArr [sample_tool; sample_malware])].


(** The procedure-example rule in the words of the specification: the
    retained fragments themselves, each with a period appended. *)
Definition procedure_examples_as_specified (description : string) : list string :=
  if contains "example" (lower description)
     || contains "observed" (lower description)
  then map (fun fragment => (fragment ++ ".")%string)
           (filter (fun fragment =>
                      contains "example" (lower fragment)
                      || contains "observed" (lower fragment)
                      || contains "used by" (lower fragment)
                      || contains "employed by" (lower fragment))
                   (split "." description))
  else [].

(** A description of 201 characters. *)
Definition long_text : string :=
  String "x" (String.concat "" (repeat "0123456789" 20)).

Definition sample_long_mitigation : json :=
  JObj [("type", JStr "course-of-action"); ("id", JStr "course-of-action--l");
        ("name", JStr "Long"); ("description", JStr long_text)].

Definition empty_bundle : bundle :=
  {| attack_patterns := []; mitigations := []; groups := []; software := [];
     relationships := [] |}.

(** The partition of [sample_bundle]. *)
Definition sample_processed : bundle :=
  Eval vm_compute in
    match process_stix_data sample_bundle with
    | Ok pd => pd
    | Raise => empty_bundle
    end.

(** Where the entries of the three lists come from. *)
Definition made_from (bucket : pydict json) (b : brief) : Prop :=
  exists obj, In obj (values bucket) /\ brief_of obj = Ok b.

Definition briefs_from (m g s : pydict json) (r : relationships_data) : Prop :=
  Forall (made_from m) (res_mitigations r) /\
  Forall (made_from g) (res_groups r) /\
  Forall (made_from s) (res_software r).

(** ** Vocabulary for the folder run *)

(** Membership in [all_technique_ids], once the key is known hashable. *)
Definition mem (ids : pyset) (k : json) : bool :=
  existsb (fun k' => key_eqb k' k) ids.

(** Ascending order of the records of a document, by [technique_id]. *)
Definition id_lt (a b : technique) : Prop :=
  key_ltb (technique_id a) (technique_id b) = true.

(** No record occurs twice, and no two records carry identifiers equal for
    Python ([==], under which [True == 1]). *)
Definition distinct_ids (l : list technique) : Prop :=
  NoDup l /\
  forall a b, In a l -> In b l ->
    key_eqb (technique_id a) (technique_id b) = true -> a = b.

(** What the deduplication keeps true of the set and a list of records:
    the identifiers are hashable, pairwise different, and all in the set. *)
Definition tracked (ids : pyset) (l : list technique) : Prop :=
  distinct_ids l /\
  Forall (fun t => hashable (technique_id t) = true /\
                   mem ids (technique_id t) = true) l.

(** [t] is the record resolved from an attack pattern of one of the files. *)
Definition resolved_from (json_files : list string)
  (read : string -> result json) (t : technique) : Prop :=
  exists path stix_data pd attack_pattern,
    In path json_files /\ read path = Ok stix_data /\
    process_stix_data stix_data = Ok pd /\
    In attack_pattern (values (attack_patterns pd)) /\
    extract_technique_data attack_pattern pd = Ok (Some t).

(** The external-reference entry [d] is the MITRE one and carries an
    [external_id]. *)
Definition carries_mitre_id (d : list (string * json)) : Prop :=
  dict_get d "source_name" = Some (JStr "mitre-attack") /\
  exists x, dict_get d "external_id" = Some x.


(** The identifier [k] was registered for a record resolved from the files. *)
Definition registered_from (json_files : list string)
  (read : string -> result json) (k : json) : Prop :=
  exists t, resolved_from json_files read t /\ technique_id t = k.

(** What holds between two files of the loop of [process_folder], [done]
    being the files visited so far. *)
Definition folder_inv (done : list string) (read : string -> result json)
  (st : progress) : Prop :=
  tracked (all_technique_ids st) (techniques (on_disk st)) /\
  StronglySorted id_lt (techniques (on_disk st)) /\
  Forall (resolved_from done read) (techniques (on_disk st)) /\
  Forall (registered_from done read) (all_technique_ids st).


(** ** Sample folders *)

(** An attack pattern whose [description] is JSON [null]. *)
Definition sample_broken_technique : json :=
  JObj [("type", JStr "attack-pattern"); ("id", JStr "attack-pattern--z");
        ("external_references", JArr [mitre_ref "T1003"]);
        ("description", JNull)].

Definition sample_failing_bundle : json :=
  JObj [("objects", JArr [sample_technique_a; sample_broken_technique])].

(** Another attack pattern with the external identifier of technique a. *)
Definition sample_technique_a2 : json :=
  JObj [("type", JStr "attack-pattern"); ("id", JStr "attack-pattern--a2");
        ("name", JStr "Second"); ("external_references", JArr [mitre_ref "T1001"])].

Definition sample_second_bundle : json :=
  JObj [("objects", JArr [sample_technique_a2])].

(** A folder whose first file fails after technique a is registered. *)
Definition read_failing_folder (path : string) : result json :=
  if (path =? "data/a.json") then Ok sample_failing_bundle
  else if (path =? "data/b.json") then Ok sample_second_bundle
  else Raise.

(** A folder of two sound files that share an external identifier. *)
Definition read_sound_folder (path : string) : result json :=
  if (path =? "data/a.json") then Ok sample_bundle
  else if (path =? "data/b.json") then Ok sample_second_bundle
  else Raise.

Definition sample_record_a : technique :=
  Eval vm_compute in
    match extract_technique_data sample_technique_a sample_processed with
    | Ok (Some t) => t
    | _ =>
        {| technique_id := JNull; name := JNull; description := "";
           tactics := []; platforms := JNull; detection := JNull;
           tech_mitigations := []; data_sources := JNull;
           procedure_examples := []; related_groups := [];
           related_software := []; external_references := [];
           tags := {| is_subtechnique := JNull; deprecated := JNull;
                      domains := JNull |};
           version := JNull; created := JNull; modified := JNull;
           permissions_required := JNull; impact_type := JNull;
           system_requirements := JNull; defense_bypassed := JNull;
           remote_support := JNull |}
    end.

(** An object the partitioner can file: a JSON object whose [type] and [id],
    when present, can be hashed. *)
Definition plain_object (obj : json) : Prop :=
  (exists d, obj = JObj d) /\
  hashable (obj_type obj) = true /\ hashable (obj_id obj) = true.

(** ** Vocabulary for the further properties *)

(** The name [extract_tactics] makes of a phase name. *)
Definition tactic_name (s : string) : string := title (replace "-" " " s).

(** The phase name of a kill-chain phase, when it is a string. *)
Definition phase_name_of (d : list (string * json)) : string :=
  match field (JObj d) "phase_name" (JStr "") with
  | JStr s => s
  | _ => ""
  end.

Definition in_mitre_chain (d : list (string * json)) : bool :=
  eq_str (field (JObj d) "kill_chain_name" JNull) "mitre-attack".

(** The entry [extract_external_references] makes of a reference. *)
Definition reference_of (d : list (string * json)) : reference :=
  {| ref_source_name := field (JObj d) "source_name" (JStr "");
     ref_description := field (JObj d) "description" (JStr "");
     ref_url := field (JObj d) "url" (JStr "") |}.

Definition is_mitre_entry (d : list (string * json)) : bool :=
  eq_str (field (JObj d) "source_name" JNull) "mitre-attack".

(** The edge test of [find_relationships]. *)
Definition targets_attack_pattern (rel : json) : bool :=
  match field rel "target_ref" (JStr "") with
  | JStr t => startswith t "attack-pattern--"
  | _ => false
  end.

(** [rel.get('relationship_type', '') == s]. *)
Definition has_relationship_type (s : string) (rel : json) : bool :=
  eq_str (field rel "relationship_type" (JStr "")) s.

(** An edge object whose [target_ref], when present, is a string: the
    prefix test does not raise on it. *)
Definition well_targeted (rel : json) : Prop :=
  (exists d, rel = JObj d) /\
  exists t, field rel "target_ref" (JStr "") = JStr t.

(** Every value of the bucket is filed under its own identifier. *)
Definition keyed_by_id (b : pydict json) : Prop :=
  Forall (fun kv => key_eqb (fst kv) (obj_id (snd kv)) = true) b.

(** The source's [type] value of each typed bucket. *)
Definition typed_bucket (pd : bundle) (t : string) : option (pydict json) :=
  if (t =? "attack-pattern") then Some (attack_patterns pd)
  else if (t =? "course-of-action") then Some (mitigations pd)
  else if (t =? "intrusion-set") then Some (groups pd)
  else None.

(** ** Input that follows the STIX layout *)

(** A list of reference objects in which an [external_id], where present,
    is a string. *)
Definition sound_references (v : json) : Prop :=
  exists refs, v = JArr (map JObj refs) /\
    Forall (fun r => forall x, dict_get r "external_id" = Some x ->
                     exists s, x = JStr s) refs.

(** A list of kill-chain phases whose phase names, in the MITRE chain, are
    strings. *)
Definition sound_phases (v : json) : Prop :=
  exists phases, v = JArr (map JObj phases) /\
    Forall (fun d => in_mitre_chain d = true ->
                     exists s, field (JObj d) "phase_name" (JStr "") = JStr s)
           phases.

(** An object of a bundle whose fields, where present, have the types the
    script relies on: [type] and [id] hashable, [description] and
    [target_ref] strings, [source_ref] hashable, references and phases
    lists of objects. *)
Definition sound_object (obj : json) : Prop :=
  (exists d, obj = JObj d) /\
  hashable (obj_type obj) = true /\ hashable (obj_id obj) = true /\
  (exists s, field obj "description" (JStr "") = JStr s) /\
  (exists t, field obj "target_ref" (JStr "") = JStr t) /\
  hashable (field obj "source_ref" (JStr "")) = true /\
  sound_references (field obj "external_references" (JArr [])) /\
  sound_phases (field obj "kill_chain_phases" (JArr [])).

(** A parsed file all of whose objects are sound. *)
Definition sound_file (stix_data : json) : Prop :=
  exists objs, objects_of stix_data = Ok objs /\ Forall sound_object objs.

(** ** Vocabulary for the run over a folder *)

(** No attack pattern of the bundle makes the loop of [process_folder]
    raise: each resolves, and to a hashable identifier when to a record. *)
Definition resolves_cleanly (pd : bundle) : bool :=
  forallb (fun ap =>
             match extract_technique_data ap pd with
             | Raise => false
             | Ok None => true
             | Ok (Some t) => hashable (technique_id t)
             end)
          (values (attack_patterns pd)).

(** The body of the [try] of [process_folder] runs to its end on the file. *)
Definition file_succeeds (read : string -> result json) (path : string) : bool :=
  match (stix_data <- read path ;; process_stix_data stix_data) with
  | Ok pd => resolves_cleanly pd
  | Raise => false
  end.

(** Every file of the folder parses and follows the STIX layout. *)
Definition sound_folder (json_files : list string)
  (read : string -> result json) : Prop :=
  forall path, In path json_files ->
    exists stix_data, read path = Ok stix_data /\ sound_file stix_data.

(** The document written for the sound sample folder. *)
Definition sample_document : document :=
  Eval vm_compute in
    match process_folder true "data" ["data/b.json"; "data/a.json"]
            read_sound_folder None with
    | Some doc => doc
    | None => initial_data ""
    end.

(** What holds between two files of the loop when every file so far was
    sound: the set and the output file hold the same identifiers, every
    identifier resolved so far is in the set, and the counters agree with
    the output file. *)
Definition sound_inv (done : list string) (read : string -> result json)
  (st : progress) : Prop :=
  (forall k, mem (all_technique_ids st) k = true ->
     exists t, In t (techniques (on_disk st)) /\
               key_eqb (technique_id t) k = true) /\
  (forall t, resolved_from done read t ->
     mem (all_technique_ids st) (technique_id t) = true) /\
  total st = List.length (techniques (on_disk st)) /\
  processed st = map basename done.

(** Ascending order in the wide sense: no record is followed by one with a
    smaller identifier. *)
Definition id_le (a b : technique) : Prop :=
  key_ltb (technique_id b) (technique_id a) = false.

(** What [os.path.join] puts in front of a relative name: the directory,
    followed by "/" unless it is empty or ends with one. *)
Definition dir_prefix (dir : string) : string :=
  if (dir =? "") || ends_with_slash dir then dir else (dir ++ "/")%string.

Definition corpus_names : list string :=
  ["enterprise-attack"; "ics-attack"; "mobile-attack"].

(** A file system for [main]: the enterprise folder holds the sound sample
    folder's two files, the other folders are missing. *)
Definition sample_exists (path : string) : bool :=
  (path =? "/srv/attack-stix-data/enterprise-attack").

Definition sample_glob (path : string) : list string :=
  if (path =? "/srv/attack-stix-data/enterprise-attack")
  then ["data/b.json"; "data/a.json"] else [].

(** * Properties of the value layer *)

Section Keys.

Lemma key_eqb_sym (a b : json) : key_eqb a b = key_eqb b a.
Proof.
  destruct a, b; simpl; try reflexivity;
    try apply String.eqb_sym; try apply Z.eqb_sym;
    repeat match goal with |- context [if ?c then _ else _] => destruct c end;
    reflexivity.
Qed.

Lemma key_eqb_trans (a b c : json) :
  key_eqb a b = true -> key_eqb b c = true -> key_eqb a c = true.
Proof.
  destruct a, b; simpl; try discriminate; destruct c; simpl;
    try discriminate; try congruence;
    rewrite ?Z.eqb_eq, ?String.eqb_eq; congruence.
Qed.

Lemma key_eqb_refl (a : json) : hashable a = true -> key_eqb a a = true.
Proof.
  destruct a; simpl; try discriminate; intros _;
    rewrite ?Z.eqb_refl, ?String.eqb_refl; reflexivity.
Qed.

Lemma key_eqb_hashable (a b : json) : key_eqb a b = true -> hashable b = true.
Proof. destruct a, b; simpl; congruence. Qed.

Lemma key_eqb_str (a : json) (s : string) : key_eqb a (JStr s) = eq_str a s.
Proof. destruct a; reflexivity. Qed.

(** Keys equal for Python look alike to every lookup. *)
Lemma key_eqb_eqv (a b c : json) :
  key_eqb a b = true -> key_eqb a c = key_eqb b c.
Proof.
  intros Hab. destruct (key_eqb b c) eqn:Hbc.
  - eapply key_eqb_trans; eassumption.
  - destruct (key_eqb a c) eqn:Hac; [|reflexivity].
    rewrite key_eqb_sym in Hab.
    rewrite (key_eqb_trans _ _ _ Hab Hac) in Hbc. discriminate.
Qed.

Context {V : Type}.

Lemma lookup_dict_set_same (d : pydict V) (k k' : json) (v : V) :
  key_eqb k k' = true -> lookup (dict_set d k v) k' = Some v.
Proof.
  intros Hk. induction d as [|[k0 v0] d IH]; simpl.
  - rewrite Hk. reflexivity.
  - destruct (key_eqb k0 k) eqn:H0; simpl.
    + rewrite (key_eqb_trans _ _ _ H0 Hk). reflexivity.
    + destruct (key_eqb k0 k') eqn:H1; [|exact IH].
      rewrite key_eqb_sym in Hk.
      rewrite (key_eqb_trans _ _ _ H1 Hk) in H0. discriminate.
Qed.

Lemma lookup_dict_set_other (d : pydict V) (k k' : json) (v : V) :
  key_eqb k k' = false -> lookup (dict_set d k v) k' = lookup d k'.
Proof.
  intros Hk. induction d as [|[k0 v0] d IH]; simpl.
  - rewrite Hk. reflexivity.
  - destruct (key_eqb k0 k) eqn:H0; simpl.
    + rewrite (key_eqb_eqv _ _ k' H0), Hk. reflexivity.
    + destruct (key_eqb k0 k'); [reflexivity|exact IH].
Qed.

Lemma lookup_dict_set (d : pydict V) (k k' : json) (v : V) :
  lookup (dict_set d k v) k' = if key_eqb k k' then Some v else lookup d k'.
Proof.
  destruct (key_eqb k k') eqn:Hk.
  - apply lookup_dict_set_same, Hk.
  - apply lookup_dict_set_other, Hk.
Qed.

Lemma lookup_eqv (d : pydict V) (k k' : json) :
  key_eqb k k' = true -> lookup d k = lookup d k'.
Proof.
  intros Hk. induction d as [|[k0 v0] d IH]; simpl; [reflexivity|].
  assert (key_eqb k0 k = key_eqb k0 k') as ->.
  { rewrite (key_eqb_sym k0 k), (key_eqb_sym k0 k'). apply key_eqb_eqv, Hk. }
  rewrite IH. reflexivity.
Qed.

Lemma wf_dict_set (d : pydict V) (k : json) (v : V) :
  wf_dict d -> wf_dict (dict_set d k v).
Proof.
  induction 1 as [|k0 v0 d Hk0 Hd IH]; simpl.
  - constructor; [reflexivity|constructor].
  - destruct (key_eqb k0 k) eqn:H0.
    + constructor; assumption.
    + constructor; [|exact IH].
      rewrite lookup_dict_set_other; [exact Hk0|].
      rewrite key_eqb_sym. exact H0.
Qed.

Lemma lookup_dict_union (a b : pydict V) (k : json) :
  wf_dict b ->
  lookup (dict_union a b) k =
  match lookup b k with
  | Some v => Some v
  | None => lookup a k
  end.
Proof.
  unfold dict_union. intros Hb. revert a.
  induction Hb as [|k0 v0 b Hk0 Hb IH]; intros a; simpl; [reflexivity|].
  rewrite IH, lookup_dict_set.
  destruct (key_eqb k0 k) eqn:H0; [|reflexivity].
  rewrite <- (lookup_eqv b _ _ H0), Hk0. reflexivity.
Qed.

Lemma lookup_In (d : pydict V) (k : json) (v : V) :
  lookup d k = Some v -> In v (values d).
Proof.
  induction d as [|[k0 v0] d IH]; simpl; [discriminate|].
  destruct (key_eqb k0 k); [intros [= ->]; now left | intros H; right; auto].
Qed.

(** Every value of a dict after a store is the stored one or was there. *)
Lemma values_dict_set (d : pydict V) (k : json) (v x : V) :
  In x (values (dict_set d k v)) -> x = v \/ In x (values d).
Proof.
  induction d as [|[k0 v0] d IH]; simpl.
  - intros [H|[]]; auto.
  - destruct (key_eqb k0 k); simpl.
    + intros [H|H]; auto.
    + intros [H|H]; auto. destruct (IH H); auto.
Qed.

Lemma values_dict_union (a b : pydict V) (x : V) :
  In x (values (dict_union a b)) -> In x (values a) \/ In x (values b).
Proof.
  unfold dict_union. revert a.
  induction b as [|[k0 v0] b IH]; intros a; simpl; [auto|].
  intros H. destruct (IH _ H) as [H1|H1]; [|auto].
  destruct (values_dict_set _ _ _ _ H1); subst; auto.
Qed.

End Keys.

(** * The bundle partitioner *)

Lemma py_get_field (obj : json) (k : string) (default v : json) :
  py_get obj k default = Ok v -> v = field obj k default.
Proof. destruct obj; simpl; congruence. Qed.

Lemma bucket_dict_set (obt : pydict (pydict json)) (ty t : json) (b : pydict json) :
  bucket (dict_set obt ty b) t = if key_eqb ty t then b else bucket obt t.
Proof.
  unfold bucket. rewrite lookup_dict_set.
  destruct (key_eqb ty t); reflexivity.
Qed.

Lemma bucket_eqv (obt : pydict (pydict json)) (ty t : json) :
  key_eqb ty t = true -> bucket obt ty = bucket obt t.
Proof. intros H. unfold bucket. rewrite (lookup_eqv obt _ _ H). reflexivity. Qed.

Lemma partition_step_spec obt rels obj obt' rels' :
  partition_step (obt, rels) obj = Ok (obt', rels') ->
  (forall t, bucket obt' t = store t (bucket obt t) obj) /\
  rels' = rels ++ (if is_relationship obj then [obj] else []).
Proof.
  unfold partition_step, store, is_relationship, obj_type, obj_id.
  destruct (py_get obj "type" JNull) as [ty|] eqn:Hty; [|discriminate].
  destruct (py_get obj "id" JNull) as [id|] eqn:Hid; [|discriminate].
  apply py_get_field in Hty, Hid. subst ty id. simpl bind.
  destruct (eq_str (field obj "type" JNull) "relationship").
  { intros [= ? ?]; subst. split; [reflexivity|reflexivity]. }
  destruct (truthy (field obj "id" JNull)); simpl.
  2:{ intros [= ? ?]; subst. split; [reflexivity|]. now rewrite app_nil_r. }
  destruct (hashable _ && hashable _); [|discriminate].
  intros [= ? ?]; subst. split; [|now rewrite app_nil_r].
  intros t. rewrite bucket_dict_set.
  destruct (key_eqb (field obj "type" JNull) t) eqn:Ht; [|reflexivity].
  rewrite (bucket_eqv _ _ _ Ht). reflexivity.
Qed.

Lemma partition_loop_spec objs : forall obt rels obt' rels',
  partition_loop objs (obt, rels) = Ok (obt', rels') ->
  (forall t, bucket obt' t = fold_left (store t) objs (bucket obt t)) /\
  rels' = rels ++ filter is_relationship objs.
Proof.
  induction objs as [|obj objs IH]; intros obt rels obt' rels';
    cbn [partition_loop fold_left filter].
  - intros [= ? ?]; subst. split; [reflexivity|now rewrite app_nil_r].
  - destruct (partition_step (obt, rels) obj) as [[obt1 rels1]|] eqn:Hstep;
      cbn [bind]; [|discriminate].
    intros Hloop.
    apply partition_step_spec in Hstep as [Hb Hr].
    apply IH in Hloop as [Hb' Hr']. split.
    + intros t. rewrite Hb', Hb. reflexivity.
    + rewrite Hr', Hr, <- app_assoc. f_equal.
      destruct (is_relationship obj); reflexivity.
Qed.

(** The bundle, read off the list of objects. *)
Lemma process_stix_data_spec stix_data pd :
  process_stix_data stix_data = Ok pd ->
  exists objs,
    objects_of stix_data = Ok objs /\
    attack_patterns pd = fold_left (store (JStr "attack-pattern")) objs [] /\
    mitigations pd = fold_left (store (JStr "course-of-action")) objs [] /\
    groups pd = fold_left (store (JStr "intrusion-set")) objs [] /\
    software pd =
      dict_union (fold_left (store (JStr "malware")) objs [])
                 (fold_left (store (JStr "tool")) objs []) /\
    relationships pd = filter is_relationship objs.
Proof.
  unfold process_stix_data, objects_of.
  destruct (py_get stix_data "objects" (JArr [])) as [objects|]; [|discriminate].
  simpl. destruct (py_iter objects) as [objs|]; [|discriminate].
  simpl. destruct (partition_loop objs ([], [])) as [[obt rels]|] eqn:Hloop;
    [|discriminate].
  simpl. intros [= ?]; subst. exists objs.
  apply partition_loop_spec in Hloop as [Hb Hr]. simpl.
  rewrite !Hb. simpl in Hr. subst rels. repeat split; reflexivity.
Qed.

(** What a bucket can hold. *)
Lemma store_values t objs : forall b v,
  In v (values (fold_left (store t) objs b)) ->
  In v (values b) \/
  (In v objs /\ key_eqb (obj_type v) t = true /\
   truthy (obj_id v) = true /\ is_relationship v = false).
Proof.
  induction objs as [|obj objs IH]; simpl; intros b v Hv; [auto|].
  destruct (IH _ _ Hv) as [H|(H1 & H2)]; [|now right; split; auto].
  unfold store in H.
  destruct (is_relationship obj) eqn:Hrel; simpl in H; [auto|].
  destruct (truthy (obj_id obj)) eqn:Hid; simpl in H; [|auto].
  destruct (key_eqb (obj_type obj) t) eqn:Ht; [|auto].
  destruct (values_dict_set _ _ _ _ H) as [->|];
    [right; repeat split; auto | auto].
Qed.

Lemma store_wf t objs : forall b,
  wf_dict b -> wf_dict (fold_left (store t) objs b).
Proof.
  induction objs as [|obj objs IH]; simpl; intros b Hb; [exact Hb|].
  apply IH. unfold store.
  destruct (_ && _); [apply wf_dict_set|]; exact Hb.
Qed.

(** The last object stored under an identifier is the one found there. *)
Lemma store_last t pre obj post : forall b k,
  is_relationship obj = false -> truthy (obj_id obj) = true ->
  key_eqb (obj_type obj) t = true ->
  key_eqb (obj_id obj) k = true ->
  Forall (fun o => key_eqb (obj_type o) t = true ->
                   key_eqb (obj_id o) k = false) post ->
  lookup (fold_left (store t) (pre ++ obj :: post) b) k = Some obj.
Proof.
  intros b k Hrel Hid Ht Hk Hpost.
  rewrite fold_left_app. simpl.
  set (b1 := store t (fold_left (store t) pre b) obj).
  assert (Hb1 : lookup b1 k = Some obj).
  { unfold b1, store. rewrite Hrel, Hid, Ht. simpl.
    apply lookup_dict_set_same, Hk. }
  clearbody b1. revert b1 Hb1.
  induction Hpost as [|o post Ho Hpost IH]; simpl; intros b1 Hb1; [exact Hb1|].
  apply IH. unfold store.
  destruct (negb (is_relationship o) && truthy (obj_id o)); simpl; [|exact Hb1].
  destruct (key_eqb (obj_type o) t) eqn:Hot; [|exact Hb1].
  rewrite lookup_dict_set_other; [exact Hb1|]. apply Ho. reflexivity.
Qed.

Lemma eq_str_recognized (t : json) (s : string) :
  In s ["attack-pattern"; "course-of-action"; "intrusion-set"; "malware";
        "tool"; "relationship"] ->
  eq_str t s = true -> recognized t = true.
Proof.
  intros Hs Ht. unfold recognized. apply existsb_exists. exists s. auto.
Qed.

Lemma bucket_values_typed (s : string) objs v :
  In v (values (fold_left (store (JStr s)) objs [])) ->
  In v objs /\ eq_str (obj_type v) s = true /\ truthy (obj_id v) = true.
Proof.
  intros H. apply store_values in H as [[]|(H1 & H2 & H3 & _)].
  rewrite key_eqb_str in H2. auto.
Qed.

(** What the four buckets and the edge sequence hold. *)
Lemma bundle_members stix_data pd obj :
  process_stix_data stix_data = Ok pd ->
  (in_a_bucket pd obj ->
   recognized (obj_type obj) = true /\ truthy (obj_id obj) = true) /\
  (In obj (relationships pd) -> recognized (obj_type obj) = true).
Proof.
  intros Hpd.
  destruct (process_stix_data_spec _ _ Hpd)
    as (objs & _ & Hap & Hmit & Hgr & Hsw & Hrel).
  split.
  - unfold in_a_bucket. rewrite Hap, Hmit, Hgr, Hsw.
    intros [H|[H|[H|H]]];
      [| | |apply values_dict_union in H as [H|H]];
      apply bucket_values_typed in H as (_ & Ht & Hid);
      (split; [|exact Hid]);
      (eapply eq_str_recognized; [|exact Ht]); simpl; auto 10.
  - rewrite Hrel. intros H. apply filter_In in H as [_ H].
    eapply eq_str_recognized; [|exact H]. simpl; auto 10.
Qed.

Lemma partition_loop_total objs : forall st,
  Forall plain_object objs -> exists st', partition_loop objs st = Ok st'.
Proof.
  induction objs as [|obj objs IH]; intros [obt rels] Hall;
    cbn [partition_loop]; [eauto|].
  inversion Hall as [|? ? ([d ->] & Hty & Hid) Hall']; subst.
  unfold partition_step. cbn [py_get bind].
  unfold obj_type, obj_id in Hty, Hid. cbn [field] in Hty, Hid.
  destruct (eq_str _ "relationship"); [apply IH, Hall'|].
  destruct (truthy _); [|apply IH, Hall'].
  rewrite Hty, Hid. cbn [andb bind]. apply IH, Hall'.
Qed.

Lemma process_stix_data_total stix_data objs :
  objects_of stix_data = Ok objs -> Forall plain_object objs ->
  exists pd, process_stix_data stix_data = Ok pd.
Proof.
  unfold objects_of, process_stix_data. intros Hobjs Hall.
  destruct (py_get stix_data "objects" (JArr [])) as [objects|];
    [|discriminate].
  cbn [bind] in *. rewrite Hobjs. cbn [bind].
  destruct (partition_loop_total objs ([], []) Hall) as [[obt rels] ->].
  cbn [bind]. eauto.
Qed.

(** C8, as amended: the partitioner returns a bundle whenever every object
    of the input is a JSON object whose [type] and [id] can be hashed.  In
    the bundle it returns, an object whose [type] is none of the recognized
    values is in none of the four buckets and not in the edge sequence; an
    object without an identifier (absent, or falsy) is in none of the four
    buckets; a [relationship] object of the input is in the edge sequence,
    with or without an identifier. *)
Theorem partitioner_drops stix_data :
  (forall objs,
     objects_of stix_data = Ok objs -> Forall plain_object objs ->
     exists pd, process_stix_data stix_data = Ok pd) /\
  (forall pd obj,
     process_stix_data stix_data = Ok pd ->
     (recognized (obj_type obj) = false -> dropped pd obj) /\
     (truthy (obj_id obj) = false -> ~ in_a_bucket pd obj) /\
     (is_relationship obj = true ->
      forall objs, objects_of stix_data = Ok objs -> In obj objs ->
      In obj (relationships pd))).
Proof.
  split; [intros objs; apply process_stix_data_total|].
  intros pd obj Hpd. destruct (bundle_members _ _ obj Hpd) as [Hb Hr].
  split; [|split].
  - intros Hty. split; intros H.
    + apply Hb in H as [H _]. congruence.
    + apply Hr in H. congruence.
  - intros Hid H. apply Hb in H as [_ H]. congruence.
  - intros Hrel objs Hobjs Hin.
    destruct (process_stix_data_spec _ _ Hpd) as (objs' & Hobjs' & H).
    rewrite Hobjs in Hobjs'. injection Hobjs' as <-.
    destruct H as (_ & _ & _ & _ & ->).
    apply filter_In. auto.
Qed.

Lemma partitioner_drops_witness :
  (exists pd, process_stix_data sample_bundle = Ok pd) /\
  dropped sample_processed
    (JObj [("type", JStr "identity"); ("id", JStr "identity--i")]) /\
  In sample_edge (relationships sample_processed).
Proof.
  split; [|split].
  - apply (proj1 (partitioner_drops sample_bundle)
             [sample_technique_a; sample_technique_b; sample_mitigation;
              sample_edge] eq_refl).
    repeat constructor; eexists; reflexivity.
  - refine (proj1 (proj2 (partitioner_drops sample_bundle)
                     sample_processed _ eq_refl) _).
    reflexivity.
  - refine (proj2 (proj2 (proj2 (partitioner_drops sample_bundle)
                     sample_processed sample_edge eq_refl)) eq_refl _ eq_refl _).
    simpl. auto.
Defined.

(** C8, as stated, fails: a [relationship] object without an identifier is
    not dropped, it is in the edge sequence. *)
Lemma relationship_without_id_is_kept :
  exists pd, process_stix_data sample_bundle = Ok pd /\
    objects_of sample_bundle =
      Ok [sample_technique_a; sample_technique_b; sample_mitigation; sample_edge] /\
    truthy (obj_id sample_edge) = false /\
    ~ dropped pd sample_edge.
Proof.
  eexists. split; [reflexivity|]. split; [reflexivity|]. split; [reflexivity|].
  intros [_ H]. apply H. simpl. left. reflexivity.
Qed.

(** C5: when a bundle holds a tool object and a malware object under the
    same identifier, the software bucket maps the identifier to the tool
    object itself (the last tool object of that identifier), not to the
    malware object, and a [uses] edge from that identifier, when no group
    has it, emits the brief reference built from the tool object. *)
Theorem tool_replaces_malware stix_data pd pre tool post malware k :
  process_stix_data stix_data = Ok pd ->
  objects_of stix_data = Ok (pre ++ tool :: post) ->
  eq_str (obj_type tool) "tool" = true ->
  truthy (obj_id tool) = true ->
  key_eqb (obj_id tool) k = true ->
  Forall (fun o => eq_str (obj_type o) "tool" = true ->
                   key_eqb (obj_id o) k = false) post ->
  In malware (pre ++ post) ->
  eq_str (obj_type malware) "malware" = true ->
  key_eqb (obj_id malware) k = true ->
  lookup (software pd) k = Some tool /\
  lookup (software pd) k <> Some malware /\
  (lookup (groups pd) k = None ->
   forall r,
     relate (mitigations pd) (groups pd) (software pd) r k (JStr "uses") =
     (b <- brief_of tool ;; Ok (add_software r b))).
Proof.
  intros Hpd Hobjs Hty Hid Hk Hpost _ Hmty _.
  destruct (process_stix_data_spec _ _ Hpd) as (objs & Hobjs' & H).
  rewrite Hobjs in Hobjs'. injection Hobjs' as <-.
  destruct H as (_ & _ & _ & Hsw & _).
  assert (Hrel : is_relationship tool = false).
  { unfold is_relationship. destruct (obj_type tool); try discriminate.
    simpl in *. apply String.eqb_eq in Hty. subst. reflexivity. }
  assert (Hlook : lookup (software pd) k = Some tool).
  { rewrite Hsw, lookup_dict_union by (apply store_wf; constructor).
    rewrite (store_last (JStr "tool") pre tool post [] k); auto.
    - rewrite key_eqb_str. exact Hty.
    - eapply Forall_impl; [|exact Hpost]. simpl. intros o Ho.
      rewrite key_eqb_str. exact Ho. }
  split; [exact Hlook|]. split.
  - rewrite Hlook. intros [= ->].
    destruct (obj_type malware); try discriminate. simpl in *.
    apply String.eqb_eq in Hty, Hmty. congruence.
  - intros Hg r. unfold relate, find_key. simpl.
    rewrite (key_eqb_hashable _ _ Hk). simpl. rewrite Hg. simpl.
    rewrite Hlook. reflexivity.
Qed.

Lemma tool_replaces_malware_witness :
  exists pd, process_stix_data sample_software_bundle = Ok pd /\
    lookup (software pd) (JStr "software--x") = Some sample_tool /\
    lookup (software pd) (JStr "software--x") <> Some sample_malware.
Proof.
  eexists. split; [reflexivity|].
  pose proof (tool_replaces_malware sample_software_bundle _
                [] sample_tool [sample_malware] sample_malware
                (JStr "software--x") eq_refl eq_refl eq_refl eq_refl eq_refl)
    as H.
  destruct H as (H1 & H2 & _).
  - repeat constructor. simpl. discriminate.
  - simpl. auto.
  - reflexivity.
  - reflexivity.
  - split; assumption.
Defined.

(** * The technique resolver *)

Lemma collect_examples_spec sentences : forall acc,
  collect_examples sentences acc =
  acc ++ map (fun fragment => (strip fragment ++ ".")%string)
             (filter mentions_keyword sentences).
Proof.
  induction sentences as [|s rest IH]; intros acc; simpl.
  - now rewrite app_nil_r.
  - rewrite IH. destruct (mentions_keyword s); simpl; [|reflexivity].
    now rewrite <- app_assoc.
Qed.

Lemma mentions_keyword_spec (fragment : string) :
  mentions_keyword fragment =
  contains "example" (lower fragment) || contains "observed" (lower fragment)
  || contains "used by" (lower fragment)
  || contains "employed by" (lower fragment).
Proof.
  unfold mentions_keyword, keywords. cbn [existsb].
  rewrite orb_false_r, !orb_assoc. reflexivity.
Qed.

(** The shape of a resolved record. *)
Lemma extract_technique_data_Some attack_pattern pd t :
  extract_technique_data attack_pattern pd = Ok (Some t) ->
  exists rd,
    extract_technique_id
      (field attack_pattern "external_references" (JArr [])) =
      Ok (technique_id t) /\
    truthy (technique_id t) = true /\
    find_relationships (field attack_pattern "id" (JStr ""))
      (relationships pd) (mitigations pd) (groups pd) (software pd) = Ok rd /\
    field attack_pattern "description" (JStr "") = JStr (description t) /\
    procedure_examples t = extract_procedure_examples (description t) /\
    tech_mitigations t = res_mitigations rd /\
    related_groups t = res_groups rd /\
    related_software t = res_software rd.
Proof.
  unfold extract_technique_data.
  destruct (py_get attack_pattern "external_references" (JArr []))
    as [refs|] eqn:Hrefs; [|discriminate].
  apply py_get_field in Hrefs. cbn [bind].
  destruct (extract_technique_id refs) as [tid|] eqn:Htid; [|discriminate].
  cbn [bind]. destruct (truthy tid) eqn:Htruthy; [|discriminate].
  cbn [negb].
  destruct (py_get attack_pattern "id" (JStr "")) as [ap_id|] eqn:Hid;
    [|discriminate].
  apply py_get_field in Hid. cbn [bind].
  destruct (find_relationships ap_id _ _ _ _) as [rd|] eqn:Hrd; [|discriminate].
  cbn [bind].
  destruct (py_get attack_pattern "description" (JStr "")) as [d|] eqn:Hd;
    [|discriminate].
  apply py_get_field in Hd. cbn [bind].
  destruct d as [| | |s| |]; try discriminate. cbn [as_str bind].
  destruct (py_get attack_pattern "kill_chain_phases" (JArr [])) as [ph|];
    [|discriminate].
  cbn [bind]. destruct (extract_tactics ph) as [tac|]; [|discriminate].
  cbn [bind]. destruct (extract_external_references refs) as [ers|];
    [|discriminate].
  cbn [bind]. intros [= <-]. exists rd. cbn.
  subst refs ap_id. rewrite <- Hd. auto 10.
Qed.

(** C6, as amended: the list is empty unless the lowercased description
    contains "example" or "observed"; when it does, the description is
    split on the period, the fragments whose lowercase form contains
    "example", "observed", "used by" or "employed by" are retained in
    encounter order, and each retained fragment is stored stripped of its
    leading and trailing whitespace, with a period appended.  The record
    holds the list computed from its description. *)
Theorem procedure_examples_rule :
  (forall description,
     extract_procedure_examples description =
     if contains "example" (lower description)
        || contains "observed" (lower description)
     then map (fun fragment => (strip fragment ++ ".")%string)
              (filter (fun fragment =>
                         contains "example" (lower fragment)
                         || contains "observed" (lower fragment)
                         || contains "used by" (lower fragment)
                         || contains "employed by" (lower fragment))
                      (split "." description))
     else []) /\
  (forall attack_pattern pd t,
     extract_technique_data attack_pattern pd = Ok (Some t) ->
     field attack_pattern "description" (JStr "") = JStr (description t) /\
     procedure_examples t = extract_procedure_examples (description t)).
Proof.
  split.
  - intros d. unfold extract_procedure_examples.
    destruct (_ || _); [|reflexivity].
    rewrite collect_examples_spec. cbn [app]. f_equal.
    apply filter_ext. intros f. apply mentions_keyword_spec.
  - intros ap pd t H.
    destruct (extract_technique_data_Some _ _ _ H) as (rd & H'). tauto.
Qed.

Lemma procedure_examples_rule_witness :
  exists t,
    process_stix_data sample_bundle = Ok sample_processed /\
    extract_technique_data sample_technique_a sample_processed = Ok (Some t) /\
    procedure_examples t = extract_procedure_examples (description t) /\
    procedure_examples t = ["It was observed in the wild."].
Proof.
  eexists.
  split; [vm_compute; reflexivity|].
  split; [vm_compute; reflexivity|].
  split; [|reflexivity].
  refine (proj2 (proj2 procedure_examples_rule sample_technique_a
                   sample_processed _ _)).
  vm_compute. reflexivity.
Defined.

(** C6, as stated, fails: a retained fragment is not stored as it stands
    with a period appended; the code strips it first. *)
Lemma fragment_is_stripped :
  extract_procedure_examples "Adversaries use X. It was observed in the wild."
    = ["It was observed in the wild."] /\
  procedure_examples_as_specified
    "Adversaries use X. It was observed in the wild."
    = [" It was observed in the wild."] /\
  extract_procedure_examples "Adversaries use X. It was observed in the wild."
    <> procedure_examples_as_specified
         "Adversaries use X. It was observed in the wild.".
Proof.
  split; [reflexivity|]. split; [reflexivity|]. discriminate.
Qed.

(** ** Brief references *)

Lemma str_take_substring (n : nat) (s : string) :
  str_take n s = String.substring 0 n s.
Proof.
  revert s. induction n as [|n IH]; intros [|c s]; simpl; try reflexivity.
  now rewrite IH.
Qed.

Lemma str_take_length (n : nat) (s : string) :
  n <= String.length s -> String.length (str_take n s) = n.
Proof.
  revert s. induction n as [|n IH]; intros [|c s]; simpl; intros H;
    try reflexivity; try lia.
  rewrite IH; lia.
Qed.

Lemma append_length (s t : string) :
  String.length (s ++ t) = String.length s + String.length t.
Proof. induction s as [|c s IH]; simpl; [reflexivity|now rewrite IH]. Qed.

(** The brief reference of a source object whose description is a string. *)
Lemma brief_of_description d s :
  field (JObj d) "description" (JStr "") = JStr s ->
  brief_of (JObj d) =
  (id <- extract_technique_id (field (JObj d) "external_references" (JArr [])) ;;
   Ok {| brief_name := field (JObj d) "name" (JStr "");
         brief_description := JStr (truncate s);
         brief_id := id |}).
Proof.
  intros Hs. unfold brief_of. cbn [py_get bind]. cbn [field] in Hs.
  rewrite Hs. reflexivity.
Qed.

Lemma find_key_In {V : Type} (d : pydict V) k o :
  find_key d k = Ok (Some o) -> In o (values d).
Proof.
  unfold find_key. destruct (hashable k); [|discriminate].
  intros [= H]. eapply lookup_In, H.
Qed.

Lemma relate_briefs m g s r source_ref relationship_type r' :
  relate m g s r source_ref relationship_type = Ok r' ->
  briefs_from m g s r -> briefs_from m g s r'.
Proof.
  unfold relate, briefs_from. intros H (Hm & Hg & Hs).
  destruct (if eq_str relationship_type "mitigates"
            then find_key m source_ref else Ok None) as [[o|]|] eqn:Hfm;
    cbn [bind] in H; [| |discriminate].
  - destruct (brief_of o) as [b|] eqn:Hb; [|discriminate].
    injection H as <-. cbn. repeat split; auto.
    apply Forall_app. split; [exact Hm|]. constructor; [|constructor].
    exists o. split; [|exact Hb].
    destruct (eq_str relationship_type "mitigates"); [|discriminate].
    eapply find_key_In, Hfm.
  - destruct (eq_str relationship_type "uses"); [|injection H as <-; auto].
    destruct (find_key g source_ref) as [[o|]|] eqn:Hfg; cbn [bind] in H;
      [| |discriminate].
    + destruct (brief_of o) as [b|] eqn:Hb; [|discriminate].
      injection H as <-. cbn. repeat split; auto.
      apply Forall_app. split; [exact Hg|]. constructor; [|constructor].
      exists o. split; [eapply find_key_In, Hfg|exact Hb].
    + destruct (find_key s source_ref) as [[o|]|] eqn:Hfs; cbn [bind] in H;
        [| |discriminate].
      * destruct (brief_of o) as [b|] eqn:Hb; [|discriminate].
        injection H as <-. cbn. repeat split; auto.
        apply Forall_app. split; [exact Hs|]. constructor; [|constructor].
        exists o. split; [eapply find_key_In, Hfs|exact Hb].
      * injection H as <-. auto.
Qed.

Lemma find_relationships_loop_briefs rels m g s : forall r r',
  find_relationships_loop rels m g s r = Ok r' ->
  briefs_from m g s r -> briefs_from m g s r'.
Proof.
  induction rels as [|rel rels IH]; intros r r'; cbn [find_relationships_loop].
  - intros [= <-]. auto.
  - destruct (py_get rel "target_ref" (JStr "")) as [tr|]; [|discriminate].
    cbn [bind]. destruct (py_startswith tr _) as [[|]|]; cbn [bind];
      [| |discriminate].
    + destruct (py_get rel "source_ref" _) as [sr|]; [|discriminate].
      cbn [bind]. destruct (py_get rel "relationship_type" _) as [rt|];
        [|discriminate].
      cbn [bind]. destruct (relate m g s r sr rt) as [r1|] eqn:Hrel;
        [|discriminate].
      cbn [bind]. intros H Hr. eapply IH; [exact H|].
      eapply relate_briefs; eassumption.
    + apply IH.
Qed.

Lemma find_relationships_briefs tid rels m g s r :
  find_relationships tid rels m g s = Ok r -> briefs_from m g s r.
Proof.
  intros H. eapply find_relationships_loop_briefs; [exact H|].
  repeat split; constructor.
Qed.

(** C4: a source object whose description is a string of length L yields a
    brief reference whose description is, for L > 200, the first 200
    characters followed by "..." (203 characters), and for L <= 200 the
    string itself, the empty string included; building the reference fails
    only where the identifier extraction does.  Every entry of the three
    lists [find_relationships] returns is built this way from an object of
    the matching bucket. *)
Theorem truncation_law :
  (forall d s,
     field (JObj d) "description" (JStr "") = JStr s ->
     brief_of (JObj d) =
     (id <- extract_technique_id
              (field (JObj d) "external_references" (JArr [])) ;;
      Ok {| brief_name := field (JObj d) "name" (JStr "");
            brief_description :=
              JStr (if (200 <? String.length s)%nat
                    then (String.substring 0 200 s ++ "...")%string else s);
            brief_id := id |}) /\
     (200 < String.length s ->
      String.length (String.substring 0 200 s ++ "...") = 203)) /\
  (forall tid rels m g s r,
     find_relationships tid rels m g s = Ok r ->
     Forall (made_from m) (res_mitigations r) /\
     Forall (made_from g) (res_groups r) /\
     Forall (made_from s) (res_software r)).
Proof.
  split.
  - intros d s Hs. split.
    + rewrite (brief_of_description d s Hs). unfold truncate.
      rewrite str_take_substring. reflexivity.
    + intros HL. rewrite <- str_take_substring, append_length.
      rewrite str_take_length by lia. reflexivity.
  - intros tid rels m g s r H. apply (find_relationships_briefs _ _ _ _ _ _ H).
Qed.

Lemma truncation_law_witness :
  brief_of sample_long_mitigation =
    Ok {| brief_name := JStr "Long";
          brief_description :=
            JStr (String.substring 0 200 long_text ++ "...");
          brief_id := JNull |} /\
  String.length (String.substring 0 200 long_text ++ "...") = 203.
Proof.
  destruct (proj1 truncation_law
              [("type", JStr "course-of-action");
               ("id", JStr "course-of-action--l");
               ("name", JStr "Long"); ("description", JStr long_text)]
              long_text eq_refl) as [H1 H2].
  split.
  - exact H1.
  - apply H2. vm_compute. lia.
Defined.

(** * Sorting *)

Section StringOrder.

Lemma string_compare_refl (s : string) : String.compare s s = Eq.
Proof.
  induction s as [|c s IH]; simpl; [reflexivity|].
  unfold Ascii.compare. rewrite N.compare_refl. exact IH.
Qed.

Lemma string_compare_lt_trans (a b c : string) :
  String.compare a b = Lt -> String.compare b c = Lt ->
  String.compare a c = Lt.
Proof.
  revert b c. induction a as [|x a IH]; intros [|y b] [|z c]; simpl;
    try congruence.
  unfold Ascii.compare.
  destruct (N.compare_spec (N_of_ascii x) (N_of_ascii y)) as [Hxy|Hxy|Hxy];
    destruct (N.compare_spec (N_of_ascii y) (N_of_ascii z)) as [Hyz|Hyz|Hyz];
    try congruence; intros Hab Hbc.
  - rewrite Hxy, Hyz, N.compare_refl. eapply IH; eassumption.
  - rewrite Hxy. apply N.compare_lt_iff in Hyz. now rewrite Hyz.
  - rewrite <- Hyz. apply N.compare_lt_iff in Hxy. now rewrite Hxy.
  - assert (H : (N_of_ascii x < N_of_ascii z)%N) by lia.
    apply N.compare_lt_iff in H. now rewrite H.
Qed.

Lemma string_ltb_asym (a b : string) :
  (a <? b)%string = true -> (b <? a)%string = false.
Proof.
  unfold String.ltb. rewrite (String.compare_antisym b a).
  destruct (String.compare a b); simpl; congruence.
Qed.

Lemma string_ltb_total (a b : string) :
  (a <? b)%string = false -> (b <? a)%string = false -> a = b.
Proof.
  unfold String.ltb. rewrite (String.compare_antisym b a).
  destruct (String.compare a b) eqn:H; simpl; try congruence.
  intros _ _. apply String.compare_eq_iff, H.
Qed.

(** [a <= b <= c] gives [a <= c], with [x <= y] read as "not [y < x]". *)
Lemma string_le_trans (a b c : string) :
  (b <? a)%string = false -> (c <? b)%string = false ->
  (c <? a)%string = false.
Proof.
  intros Hab Hbc. destruct (c <? a)%string eqn:Hca; [|reflexivity].
  destruct (a <? b)%string eqn:Hab'.
  - unfold String.ltb in *.
    destruct (String.compare c a) eqn:H1; try discriminate.
    destruct (String.compare a b) eqn:H2; try discriminate.
    rewrite (string_compare_lt_trans _ _ _ H1 H2) in Hbc. discriminate.
  - rewrite (string_ltb_total a b Hab' Hab) in Hca. congruence.
Qed.

End StringOrder.

Section InsertionSort.

Context {A : Type} (ltb : A -> A -> bool) (P : A -> Prop).

Let le (a b : A) : Prop := ltb b a = false.

Hypothesis ltb_asym :
  forall a b, P a -> P b -> ltb a b = true -> ltb b a = false.
Hypothesis le_trans :
  forall a b c, P a -> P b -> P c -> le a b -> le b c -> le a c.

Lemma insert_perm (x : A) (l : list A) : Permutation (insert ltb x l) (x :: l).
Proof.
  induction l as [|y l IH]; simpl; [reflexivity|].
  destruct (ltb y x); [|reflexivity].
  rewrite IH. apply perm_swap.
Qed.

Lemma stable_sort_perm (l : list A) : Permutation (stable_sort ltb l) l.
Proof.
  induction l as [|x l IH]; simpl; [reflexivity|].
  rewrite insert_perm. now constructor.
Qed.

Lemma insert_sorted (x : A) (l : list A) :
  P x -> Forall P l -> StronglySorted le l ->
  StronglySorted le (insert ltb x l).
Proof.
  intros Hx HP Hl. induction Hl as [|y l Hl IH Hy]; simpl.
  - constructor; constructor.
  - inversion HP as [|? ? Py Pl]; subst.
    destruct (ltb y x) eqn:Hyx.
    + constructor; [apply IH, Pl|].
      eapply Permutation_Forall; [symmetry; apply insert_perm|].
      constructor; [|exact Hy]. apply ltb_asym; assumption.
    + constructor; [constructor; assumption|].
      constructor; [exact Hyx|].
      rewrite Forall_forall in Hy, Pl |- *. intros z Hz.
      apply (le_trans x y z); auto.
Qed.

Lemma stable_sort_sorted (l : list A) :
  Forall P l -> StronglySorted le (stable_sort ltb l).
Proof.
  induction 1 as [|x l Hx Hl IH]; simpl; [constructor|].
  apply insert_sorted; [exact Hx| |exact IH].
  eapply Permutation_Forall; [symmetry; apply stable_sort_perm|exact Hl].
Qed.

End InsertionSort.

(** Two sorted lists with the same elements are the same list, when the
    order is antisymmetric. *)
Lemma sorted_perm_unique {A : Type} (le : A -> A -> Prop) :
  (forall a, le a a) ->
  (forall a b, le a b -> le b a -> a = b) ->
  forall l1 l2, StronglySorted le l1 -> StronglySorted le l2 ->
  Permutation l1 l2 -> l1 = l2.
Proof.
  intros le_refl le_antisym l1.
  induction l1 as [|a l1 IH]; intros l2 H1 H2 Hp.
  - apply Permutation_nil in Hp. congruence.
  - destruct l2 as [|b l2].
    { symmetry in Hp. apply Permutation_nil in Hp. discriminate. }
    apply StronglySorted_inv in H1 as [H1 Ha].
    apply StronglySorted_inv in H2 as [H2 Hb].
    assert (a = b) as <-.
    { apply le_antisym.
      - assert (Hin : In b (a :: l1)).
        { eapply Permutation_in; [symmetry; exact Hp|now left]. }
        destruct Hin as [->|Hin]; [apply le_refl|].
        rewrite Forall_forall in Ha. apply Ha, Hin.
      - assert (Hin : In a (b :: l2)).
        { eapply Permutation_in; [exact Hp|now left]. }
        destruct Hin as [->|Hin]; [apply le_refl|].
        rewrite Forall_forall in Hb. apply Hb, Hin. }
    f_equal. apply IH; auto. eapply Permutation_cons_inv, Hp.
Qed.

(** [json_files.sort()] does not depend on the order [glob] lists the
    paths in. *)
Lemma sort_paths_perm (l1 l2 : list string) :
  Permutation l1 l2 ->
  stable_sort String.ltb l1 = stable_sort String.ltb l2.
Proof.
  intros Hp.
  apply (sorted_perm_unique (fun a b => (b <? a)%string = false)).
  - intros a. unfold String.ltb. now rewrite string_compare_refl.
  - intros a b Hab Hba. symmetry. apply string_ltb_total; assumption.
  - apply (stable_sort_sorted String.ltb (fun _ => True)).
    + intros a b _ _. apply string_ltb_asym.
    + intros a b c _ _ _. apply string_le_trans.
    + apply Forall_forall. auto.
  - apply (stable_sort_sorted String.ltb (fun _ => True)).
    + intros a b _ _. apply string_ltb_asym.
    + intros a b c _ _ _. apply string_le_trans.
    + apply Forall_forall. auto.
  - rewrite (stable_sort_perm String.ltb l1), Hp.
    symmetry. apply stable_sort_perm.
Qed.

(** * Identifier extraction *)

Lemma extract_technique_id_loop_none (refs : list (list (string * json))) :
  Forall (fun d => ~ carries_mitre_id d) refs ->
  extract_technique_id_loop (map JObj refs) = Ok JNull.
Proof.
  induction 1 as [|d refs Hd _ IH]; cbn [map extract_technique_id_loop];
    [reflexivity|].
  cbn [py_get bind has_key]. unfold carries_mitre_id in Hd.
  destruct (dict_get d "source_name") as [sn|] eqn:Hsn; cbn [eq_str];
    [|exact IH].
  destruct (eq_str sn "mitre-attack") eqn:Heq; [|exact IH].
  destruct (dict_get d "external_id") as [x|] eqn:Hx; [|exact IH].
  exfalso. apply Hd. split; [|eauto].
  destruct sn; try discriminate. simpl in Heq.
  apply String.eqb_eq in Heq. congruence.
Qed.

Lemma extract_technique_id_loop_skip (pre : list (list (string * json))) rest :
  Forall (fun d => dict_get d "source_name" <> Some (JStr "mitre-attack")) pre ->
  extract_technique_id_loop (map JObj pre ++ rest) =
  extract_technique_id_loop rest.
Proof.
  induction 1 as [|d pre Hd _ IH]; cbn [map app extract_technique_id_loop];
    [reflexivity|].
  cbn [py_get bind].
  destruct (dict_get d "source_name") as [sn|] eqn:Hsn; cbn [eq_str];
    [|exact IH].
  destruct (eq_str sn "mitre-attack") eqn:Heq; [|exact IH].
  exfalso. apply Hd. destruct sn; try discriminate. simpl in Heq.
  apply String.eqb_eq in Heq. congruence.
Qed.

(** A falsy identifier ends the resolution with [None]. *)
Lemma extract_technique_data_falsy d refs tid pd :
  field (JObj d) "external_references" (JArr []) = refs ->
  extract_technique_id refs = Ok tid ->
  truthy tid = false ->
  extract_technique_data (JObj d) pd = Ok None.
Proof.
  intros Hrefs Htid Hfalsy. unfold extract_technique_data.
  cbn [py_get bind]. cbn [field] in Hrefs. rewrite Hrefs, Htid.
  cbn [bind]. rewrite Hfalsy. reflexivity.
Qed.

(** C1, on the code: [sample_edge] targets technique b, yet the record of
    technique a lists its mitigation; the identifier handed to
    [find_relationships] changes nothing. *)
Theorem edge_to_other_technique_is_attached :
  field sample_edge "target_ref" (JStr "") = JStr "attack-pattern--b" /\
  obj_id sample_technique_a = JStr "attack-pattern--a" /\
  process_stix_data sample_bundle = Ok sample_processed /\
  (exists t,
     extract_technique_data sample_technique_a sample_processed = Ok (Some t) /\
     tech_mitigations t =
       [{| brief_name := JStr "Patch"; brief_description := JStr "Patch it.";
           brief_id := JStr "M1051" |}]) /\
  (forall tid tid' rels m g s,
     find_relationships tid rels m g s = find_relationships tid' rels m g s).
Proof.
  split; [reflexivity|]. split; [reflexivity|]. split; [reflexivity|].
  split; [|reflexivity].
  eexists. split; vm_compute; reflexivity.
Qed.

(** ** The order on technique identifiers *)

Lemma comparable_cases (a b : json) :
  comparable a b = true ->
  (exists s t, a = JStr s /\ b = JStr t) \/
  (exists m n, num_value a = Some m /\ num_value b = Some n).
Proof.
  destruct a, b; simpl; try discriminate; intros _; eauto.
Qed.

Lemma same_class (x a b : json) :
  comparable x a = true -> comparable x b = true ->
  (exists s t, a = JStr s /\ b = JStr t) \/
  (exists m n, num_value a = Some m /\ num_value b = Some n).
Proof.
  intros Ha Hb.
  destruct (comparable_cases _ _ Ha) as [(s & t & -> & ->)|(m & n & Hm & Hn)];
    destruct (comparable_cases _ _ Hb) as [(s' & t' & Hx & ->)|(m' & n' & Hm' & Hn')];
    eauto; try discriminate.
  subst x. discriminate.
Qed.

Lemma key_ltb_num (a b : json) (m n : Z) :
  num_value a = Some m -> num_value b = Some n -> key_ltb a b = (m <? n)%Z.
Proof.
  destruct a, b; simpl; try discriminate; intros [= <-] [= <-]; reflexivity.
Qed.

Lemma key_eqb_num (a b : json) (m n : Z) :
  num_value a = Some m -> num_value b = Some n -> key_eqb a b = (m =? n)%Z.
Proof.
  destruct a, b; simpl; try discriminate; intros [= <-] [= <-]; reflexivity.
Qed.

Lemma key_ltb_irrefl (k : json) : key_ltb k k = false.
Proof.
  destruct k; simpl; try reflexivity; try apply Z.ltb_irrefl.
  unfold String.ltb. now rewrite string_compare_refl.
Qed.

Section KeyOrder.

Variable x : json.

Let P (t : technique) : Prop := comparable x (technique_id t) = true.
Let ltb (a b : technique) : bool := key_ltb (technique_id a) (technique_id b).

Lemma id_ltb_asym (a b : technique) :
  P a -> P b -> ltb a b = true -> ltb b a = false.
Proof.
  unfold P, ltb. intros Ha Hb.
  destruct (same_class _ _ _ Ha Hb) as [(s & t & -> & ->)|(m & n & Hm & Hn)].
  - apply string_ltb_asym.
  - rewrite (key_ltb_num _ _ _ _ Hm Hn), (key_ltb_num _ _ _ _ Hn Hm). lia.
Qed.

Lemma id_le_trans (a b c : technique) :
  P a -> P b -> P c ->
  ltb b a = false -> ltb c b = false -> ltb c a = false.
Proof.
  unfold P, ltb. intros Ha Hb Hc.
  destruct (same_class _ _ _ Ha Hb) as [(s & t & Ea & Eb)|(m & n & Hm & Hn)];
    destruct (same_class _ _ _ Hb Hc) as [(t' & u & Eb' & Ec)|(n' & o & Hn' & Ho)];
    try (rewrite Eb in Hn'; discriminate);
    try (rewrite Eb' in Hn; discriminate).
  - rewrite Ea, Eb, Ec. apply string_le_trans.
  - rewrite (key_ltb_num _ _ _ _ Hn Hm), (key_ltb_num _ _ _ _ Ho Hn),
      (key_ltb_num _ _ _ _ Ho Hm). lia.
Qed.

Lemma id_ltb_total (a b : technique) :
  P a -> P b -> ltb a b = false -> ltb b a = false ->
  key_eqb (technique_id a) (technique_id b) = true.
Proof.
  unfold P, ltb. intros Ha Hb.
  destruct (same_class _ _ _ Ha Hb) as [(s & t & -> & ->)|(m & n & Hm & Hn)].
  - intros H1 H2. rewrite (string_ltb_total _ _ H1 H2). simpl.
    apply String.eqb_refl.
  - rewrite (key_ltb_num _ _ _ _ Hm Hn), (key_ltb_num _ _ _ _ Hn Hm),
      (key_eqb_num _ _ _ _ Hm Hn). lia.
Qed.

(** Sorted without inversions and with pairwise different identifiers is
    strictly ascending. *)
Lemma sorted_distinct_strict (l : list technique) :
  Forall P l -> distinct_ids l ->
  StronglySorted (fun a b => ltb b a = false) l -> StronglySorted id_lt l.
Proof.
  intros HP [Hnd Hd] Hs. induction Hs as [|a l Hs IH Ha]; [constructor|].
  inversion HP as [|? ? Pa Pl]; subst. inversion Hnd as [|? ? Hnotin Hnd']; subst.
  constructor.
  - apply IH; auto. intros u v Hu Hv. apply Hd; now right.
  - rewrite Forall_forall in Ha, Pl |- *. intros b Hb. unfold id_lt.
    destruct (key_ltb (technique_id a) (technique_id b)) eqn:Hab; [reflexivity|].
    exfalso. apply Hnotin.
    rewrite (Hd a b) ; [exact Hb|now left|now right|].
    apply id_ltb_total; auto.
Qed.

End KeyOrder.

Lemma distinct_ids_perm (l l' : list technique) :
  Permutation l l' -> distinct_ids l -> distinct_ids l'.
Proof.
  intros Hp [Hnd Hd]. split.
  - eapply Permutation_NoDup; eassumption.
  - intros a b Ha Hb. apply Hd; eapply Permutation_in; try eassumption;
      symmetry; exact Hp.
Qed.

(** A successful sort returns the records in strictly ascending order of
    identifier, when their identifiers are pairwise different. *)
Lemma sort_by_technique_id_ok (l l' : list technique) :
  sort_by_technique_id l = Ok l' -> distinct_ids l ->
  Permutation l' l /\ StronglySorted id_lt l'.
Proof.
  destruct l as [|x [|y l]]; cbn [sort_by_technique_id].
  - intros [= <-] _. split; [reflexivity|constructor].
  - intros [= <-] _. split; [reflexivity|]. repeat constructor.
  - destruct (forallb _ _) eqn:Hall; [|discriminate].
    intros [= <-] Hd.
    set (ltb := fun a b => key_ltb (technique_id a) (technique_id b)).
    assert (Hperm : Permutation (stable_sort ltb (x :: y :: l)) (x :: y :: l))
      by apply stable_sort_perm.
    split; [exact Hperm|].
    rewrite forallb_forall in Hall.
    apply (sorted_distinct_strict (technique_id x)).
    + apply Forall_forall. intros t Ht. apply Hall.
      eapply Permutation_in; eassumption.
    + eapply distinct_ids_perm; [symmetry; exact Hperm|exact Hd].
    + change (StronglySorted (fun a b => ltb b a = false)
                (stable_sort ltb (x :: y :: l))).
      apply (stable_sort_sorted ltb
               (fun t => comparable (technique_id x) (technique_id t) = true)).
      * apply id_ltb_asym.
      * intros a b c. apply id_le_trans.
      * apply Forall_forall. exact Hall.
Qed.

Lemma strict_sorted_NoDup (l : list technique) :
  StronglySorted id_lt l -> NoDup (map technique_id l).
Proof.
  induction 1 as [|a l Hs IH Ha]; simpl; constructor; [|exact IH].
  intros Hin. apply in_map_iff in Hin as (b & Hb & Hin).
  rewrite Forall_forall in Ha. specialize (Ha b Hin). unfold id_lt in Ha.
  rewrite Hb, key_ltb_irrefl in Ha. discriminate.
Qed.

(** * The output accumulator *)

Lemma mem_eqv (ids : pyset) (a b : json) :
  key_eqb a b = true -> mem ids a = mem ids b.
Proof.
  intros H. unfold mem. induction ids as [|k ids IH]; simpl; [reflexivity|].
  rewrite IH. f_equal.
  rewrite (key_eqb_sym k a), (key_eqb_sym k b). apply key_eqb_eqv, H.
Qed.

Lemma set_mem_inv (ids : pyset) (k : json) (b : bool) :
  set_mem ids k = Ok b -> hashable k = true /\ mem ids k = b.
Proof.
  unfold set_mem, mem. destruct (hashable k); [|discriminate].
  intros [= <-]. auto.
Qed.

Lemma mem_set_add_mono (ids : pyset) (k' k : json) :
  mem ids k = true -> mem (set_add ids k') k = true.
Proof.
  unfold set_add, mem. intros H.
  destruct (existsb (fun x => key_eqb x k') ids); [exact H|].
  rewrite existsb_app, H. reflexivity.
Qed.

Lemma mem_set_add_self (ids : pyset) (k : json) :
  hashable k = true -> mem (set_add ids k) k = true.
Proof.
  intros Hk. unfold set_add, mem.
  destruct (existsb (fun k' => key_eqb k' k) ids) eqn:H; [exact H|].
  rewrite existsb_app. simpl. rewrite (key_eqb_refl _ Hk).
  now rewrite orb_true_r.
Qed.

Lemma tracked_mono (ids ids' : pyset) (l : list technique) :
  (forall k, mem ids k = true -> mem ids' k = true) ->
  tracked ids l -> tracked ids' l.
Proof.
  intros Hm [Hd Hf]. split; [exact Hd|].
  eapply Forall_impl; [|exact Hf]. simpl. intros t [H1 H2]. auto.
Qed.

Lemma tracked_prefix (ids : pyset) (l l' : list technique) :
  tracked ids (l ++ l') -> tracked ids l.
Proof.
  intros [[Hnd Hd] Hf]. split; [split|].
  - eapply NoDup_app_remove_r, Hnd.
  - intros a b Ha Hb. apply Hd; apply in_or_app; auto.
  - apply Forall_app in Hf. tauto.
Qed.

Lemma tracked_perm (ids : pyset) (l l' : list technique) :
  Permutation l l' -> tracked ids l -> tracked ids l'.
Proof.
  intros Hp [Hd Hf]. split.
  - eapply distinct_ids_perm; eassumption.
  - eapply Permutation_Forall; eassumption.
Qed.

Lemma tracked_add (ids : pyset) (l : list technique) (t : technique) :
  tracked ids l -> hashable (technique_id t) = true ->
  mem ids (technique_id t) = false ->
  tracked (set_add ids (technique_id t)) (l ++ [t]).
Proof.
  intros [[Hnd Hd] Hf] Hh Hm.
  assert (Hfresh : forall a, In a l ->
            key_eqb (technique_id a) (technique_id t) = false).
  { intros a Ha. rewrite Forall_forall in Hf. destruct (Hf a Ha) as [_ Hma].
    destruct (key_eqb (technique_id a) (technique_id t)) eqn:E; [|reflexivity].
    rewrite (mem_eqv ids _ _ E) in Hma. congruence. }
  assert (Hnotin : ~ In t l).
  { intros Ht. specialize (Hfresh t Ht).
    rewrite (key_eqb_refl _ Hh) in Hfresh. discriminate. }
  split; [split|].
  - apply NoDup_app; [exact Hnd|repeat constructor; auto|].
    intros a Ha [<-|[]]. auto.
  - intros a b Ha Hb Hab.
    apply in_app_or in Ha as [Ha|[<-|[]]]; apply in_app_or in Hb as [Hb|[<-|[]]].
    + apply Hd; auto.
    + rewrite (Hfresh a Ha) in Hab. discriminate.
    + rewrite key_eqb_sym, (Hfresh b Hb) in Hab. discriminate.
    + reflexivity.
  - apply Forall_app. split.
    + eapply Forall_impl; [|exact Hf]. simpl. intros a [H1 H2].
      split; [exact H1|]. apply mem_set_add_mono, H2.
    + constructor; [|constructor]. split; [exact Hh|].
      apply mem_set_add_self, Hh.
Qed.

Lemma resolve_tracked aps pd base : forall ids acc ids' outcome,
  resolve_attack_patterns aps pd ids acc = (ids', outcome) ->
  tracked ids (base ++ acc) ->
  (forall k, mem ids k = true -> mem ids' k = true) /\
  match outcome with
  | Ok file_techniques => tracked ids' (base ++ file_techniques)
  | Raise => True
  end.
Proof.
  induction aps as [|ap aps IH]; intros ids acc ids' outcome;
    cbn [resolve_attack_patterns].
  - intros [= <- <-] H. auto.
  - destruct (extract_technique_data ap pd) as [[t|]|].
    + destruct (set_mem ids (technique_id t)) as [[|]|] eqn:Hmem.
      * apply IH.
      * intros Hres Htr. apply set_mem_inv in Hmem as [Hh Hm].
        apply IH in Hres as [Hmono Hout].
        -- split; [|exact Hout]. intros k Hk. apply Hmono, mem_set_add_mono, Hk.
        -- rewrite app_assoc. apply tracked_add; auto.
      * intros [= <- <-] _. auto.
    + apply IH.
    + intros [= <- <-] _. auto.
Qed.

Lemma resolve_provenance aps pd (Q : technique -> Prop) :
  (forall ap t, In ap aps -> extract_technique_data ap pd = Ok (Some t) -> Q t) ->
  forall ids acc ids' outcome,
  resolve_attack_patterns aps pd ids acc = (ids', outcome) ->
  Forall Q acc ->
  Forall (fun k => exists t, Q t /\ technique_id t = k) ids ->
  Forall (fun k => exists t, Q t /\ technique_id t = k) ids' /\
  match outcome with
  | Ok file_techniques => Forall Q file_techniques
  | Raise => True
  end.
Proof.
  induction aps as [|ap aps IH]; intros HQ ids acc ids' outcome;
    cbn [resolve_attack_patterns].
  - intros [= <- <-] H1 H2. auto.
  - assert (HQ' : forall ap' t, In ap' aps ->
              extract_technique_data ap' pd = Ok (Some t) -> Q t).
    { intros ap' t Hin. apply HQ. now right. }
    destruct (extract_technique_data ap pd) as [[t|]|] eqn:Hex.
    + destruct (set_mem ids (technique_id t)) as [[|]|] eqn:Hmem.
      * apply IH, HQ'.
      * intros Hres Hacc Hids. apply (IH HQ') in Hres; auto.
        -- apply Forall_app. split; [exact Hacc|].
           constructor; [|constructor]. apply (HQ ap); [now left|exact Hex].
        -- unfold set_add. destruct (existsb _ ids); [exact Hids|].
           apply Forall_app. split; [exact Hids|].
           constructor; [|constructor]. exists t. split; [|reflexivity].
           apply (HQ ap); [now left|exact Hex].
      * intros [= <- <-] _ H. auto.
    + apply IH, HQ'.
    + intros [= <- <-] _ H. auto.
Qed.

Lemma resolved_from_incl (l l' : list string) read t :
  incl l l' -> resolved_from l read t -> resolved_from l' read t.
Proof.
  intros Hi (path & stix & pd & ap & H1 & H2). exists path, stix, pd, ap.
  split; [apply Hi, H1|exact H2].
Qed.

Lemma registered_from_incl (l l' : list string) read k :
  incl l l' -> registered_from l read k -> registered_from l' read k.
Proof.
  intros Hi (t & Ht & Hk). exists t. split; [|exact Hk].
  eapply resolved_from_incl; eassumption.
Qed.

Lemma append_techniques_to_file_spec data new_techniques :
  distinct_ids (techniques data ++ new_techniques) ->
  StronglySorted id_lt (techniques data) ->
  let data' := append_techniques_to_file data new_techniques in
  StronglySorted id_lt (techniques data') /\
  (techniques data' = techniques data \/
   Permutation (techniques data') (techniques data ++ new_techniques)).
Proof.
  intros Hd Hs. unfold append_techniques_to_file.
  destruct (sort_by_technique_id _) as [sorted|] eqn:Hsort; cbn.
  - destruct (sort_by_technique_id_ok _ _ Hsort Hd) as [Hp Hs']. auto.
  - auto.
Qed.

Lemma folder_inv_incl done done' read st :
  incl done done' -> folder_inv done read st -> folder_inv done' read st.
Proof.
  intros Hi (H1 & H2 & H3 & H4). repeat split; try apply H1; auto.
  - eapply Forall_impl; [|exact H3]. intros t. now apply resolved_from_incl.
  - eapply Forall_impl; [|exact H4]. intros k. now apply registered_from_incl.
Qed.

(** What one file does to the set and to the output file. *)
Lemma process_file_cases read st path :
  let st' := process_file read st path in
  st' = st \/
  exists stix_data pd ids outcome,
    read path = Ok stix_data /\ process_stix_data stix_data = Ok pd /\
    resolve_attack_patterns (values (attack_patterns pd)) pd
      (all_technique_ids st) [] = (ids, outcome) /\
    all_technique_ids st' = ids /\
    match outcome with
    | Raise => on_disk st' = on_disk st
    | Ok file_techniques =>
        on_disk st' =
        match file_techniques with
        | [] => on_disk st
        | _ => append_techniques_to_file (on_disk st) file_techniques
        end
    end.
Proof.
  unfold process_file.
  destruct (read path) as [stix|] eqn:Hread; cbn [bind]; [|now left].
  destruct (process_stix_data stix) as [pd|] eqn:Hpd; [|now left].
  destruct (resolve_attack_patterns _ pd _ []) as [ids outcome] eqn:Hres.
  right. exists stix, pd, ids, outcome.
  repeat split; auto; destruct outcome as [[|t fts]|]; reflexivity.
Qed.

Lemma process_file_inv done read st path :
  folder_inv done read st ->
  folder_inv (done ++ [path]) read (process_file read st path).
Proof.
  intros Hinv.
  assert (Hinv' : folder_inv (done ++ [path]) read st).
  { eapply folder_inv_incl; [|exact Hinv]. apply incl_appl, incl_refl. }
  destruct (process_file_cases read st path)
    as [->|(stix & pd & ids & outcome & Hread & Hpd & Hres & Hids & Hout)];
    [exact Hinv'|].
  destruct Hinv' as (Htr & Hs & Hprov & Hreg).
  set (disk := techniques (on_disk st)) in *.
  destruct (resolve_tracked _ pd disk _ [] _ _ Hres) as [Hmono Htr'].
  { rewrite app_nil_r. exact Htr. }
  assert (HQ : forall ap t, In ap (values (attack_patterns pd)) ->
            extract_technique_data ap pd = Ok (Some t) ->
            resolved_from (done ++ [path]) read t).
  { intros ap t Hin Hex. exists path, stix, pd, ap.
    repeat split; auto. apply in_or_app. right. now left. }
  destruct (resolve_provenance _ pd _ HQ _ _ _ _ Hres) as [Hreg' Hprov'];
    [constructor|exact Hreg|].
  assert (Hbase : tracked ids disk /\ StronglySorted id_lt disk /\
                  Forall (resolved_from (done ++ [path]) read) disk).
  { split; [|auto]. eapply tracked_mono; eassumption. }
  unfold folder_inv. rewrite Hids.
  destruct outcome as [fts|]; [|rewrite Hout; tauto].
  destruct fts as [|t fts]; [rewrite Hout; tauto|].
  rewrite Hout.
  destruct (append_techniques_to_file_spec (on_disk st) (t :: fts))
    as [Hs' Hcase]; [apply Htr'|exact Hs|].
  split; [|split; [exact Hs'|split; [|exact Hreg']]].
  - destruct Hcase as [->|Hp]; [apply Hbase|].
    eapply tracked_perm; [symmetry; exact Hp|exact Htr'].
  - destruct Hcase as [->|Hp]; [apply Hbase|].
    eapply Permutation_Forall; [symmetry; exact Hp|].
    apply Forall_app. split; [exact Hprov|exact Hprov'].
Qed.

Lemma process_files_inv read files : forall done st,
  folder_inv done read st ->
  folder_inv (done ++ files) read (fold_left (process_file read) files st).
Proof.
  induction files as [|path files IH]; intros done st Hinv; cbn [fold_left].
  - now rewrite app_nil_r.
  - replace (done ++ path :: files) with ((done ++ [path]) ++ files)
      by now rewrite <- app_assoc.
    apply IH, process_file_inv, Hinv.
Qed.

Lemma folder_inv_init read folder_path :
  folder_inv [] read
    {| all_technique_ids := []; total := 0; processed := [];
       on_disk := initial_data folder_path |}.
Proof.
  unfold folder_inv, tracked, distinct_ids. cbn.
  repeat split; try constructor. intros a b [].
Qed.

(** The document a run writes, for a folder that exists and holds a file. *)
Lemma process_folder_run folder_path json_files read output_file :
  json_files <> [] ->
  exists st,
    st = fold_left (process_file read) (stable_sort String.ltb json_files)
           {| all_technique_ids := []; total := 0; processed := [];
              on_disk := initial_data folder_path |} /\
    process_folder true folder_path json_files read output_file =
      Some (update_metadata (on_disk st) (total st) (processed st)) /\
    folder_inv json_files read st.
Proof.
  intros Hne. eexists. split; [reflexivity|]. split.
  - unfold process_folder. cbn [negb]. destruct json_files; [congruence|].
    reflexivity.
  - eapply folder_inv_incl;
      [|apply (process_files_inv read _ [] _ (folder_inv_init read folder_path))].
    cbn [app]. intros p Hp.
    eapply Permutation_in; [apply stable_sort_perm|exact Hp].
Qed.

(** C2: the document written for a folder lists its records in strictly
    ascending order of [technique_id]; no identifier occurs twice, and no
    two records carry identifiers equal for Python, whichever files they
    were resolved from. *)
Theorem techniques_sorted_and_unique folder_path json_files read output_file :
  json_files <> [] ->
  exists doc,
    process_folder true folder_path json_files read output_file = Some doc /\
    StronglySorted id_lt (techniques doc) /\
    NoDup (map technique_id (techniques doc)) /\
    (forall a b, In a (techniques doc) -> In b (techniques doc) ->
       key_eqb (technique_id a) (technique_id b) = true -> a = b).
Proof.
  intros Hne.
  destruct (process_folder_run folder_path json_files read output_file Hne)
    as (st & _ & Hrun & ([_ Hd] & _) & Hs & _).
  eexists. split; [exact Hrun|]. cbn. split; [exact Hs|]. split.
  - apply strict_sorted_NoDup, Hs.
  - exact Hd.
Qed.

Lemma techniques_sorted_and_unique_witness :
  exists doc,
    process_folder true "data" ["data/b.json"; "data/a.json"]
      read_sound_folder None = Some doc /\
    StronglySorted id_lt (techniques doc) /\
    NoDup (map technique_id (techniques doc)).
Proof.
  destruct (techniques_sorted_and_unique "data" ["data/b.json"; "data/a.json"]
              read_sound_folder None) as (doc & H1 & H2 & H3 & _).
  - discriminate.
  - exists doc. auto.
Defined.

(** C9: a run leaves the same output document whatever the output file held
    before and in whatever order the folder lists its files; run again on
    the unchanged folder, it writes the document of the first run again.
    (The document is written by [json.dump], a function of its value.) *)
Theorem rerun_is_identical folder_exists folder_path json_files json_files'
  read output_file :
  Permutation json_files json_files' ->
  process_folder folder_exists folder_path json_files' read
    (process_folder folder_exists folder_path json_files read output_file) =
  process_folder folder_exists folder_path json_files read output_file.
Proof.
  intros Hp. unfold process_folder.
  destruct folder_exists; cbn [negb]; [|reflexivity].
  destruct json_files as [|p l].
  - apply Permutation_nil in Hp. subst. reflexivity.
  - destruct json_files' as [|p' l'].
    + symmetry in Hp. apply Permutation_nil in Hp. discriminate.
    + rewrite (sort_paths_perm _ _ Hp). reflexivity.
Qed.

Lemma rerun_is_identical_witness :
  process_folder true "data" ["data/a.json"; "data/b.json"] read_sound_folder
    (process_folder true "data" ["data/b.json"; "data/a.json"]
       read_sound_folder None) =
  process_folder true "data" ["data/b.json"; "data/a.json"]
    read_sound_folder None.
Proof.
  apply (rerun_is_identical true "data" ["data/b.json"; "data/a.json"]
           ["data/a.json"; "data/b.json"] read_sound_folder None).
  apply perm_swap.
Defined.

(** Every record of the output was resolved from an attack pattern of one
    of the files, and carries a truthy identifier. *)
Lemma output_provenance folder_path json_files read output_file doc t :
  json_files <> [] ->
  process_folder true folder_path json_files read output_file = Some doc ->
  In t (techniques doc) -> resolved_from json_files read t.
Proof.
  intros Hne Hrun Hin.
  destruct (process_folder_run folder_path json_files read output_file Hne)
    as (st & _ & Hrun' & _ & _ & Hprov & _).
  rewrite Hrun in Hrun'. injection Hrun' as ->. cbn in Hin.
  rewrite Forall_forall in Hprov. apply Hprov, Hin.
Qed.

(** C7: an attack pattern whose external references hold no entry that has
    the source name "mitre-attack" and an [external_id] resolves to [None],
    without an exception, and no record of an output document comes from
    it: every record was resolved from some other attack pattern. *)
Theorem no_identifier_no_record d refs :
  field (JObj d) "external_references" (JArr []) = JArr (map JObj refs) ->
  Forall (fun r => ~ carries_mitre_id r) refs ->
  extract_technique_id (JArr (map JObj refs)) = Ok JNull /\
  (forall pd, extract_technique_data (JObj d) pd = Ok None) /\
  (forall folder_path json_files read output_file doc t,
     json_files <> [] ->
     process_folder true folder_path json_files read output_file = Some doc ->
     In t (techniques doc) ->
     exists path stix_data pd attack_pattern,
       In path json_files /\ read path = Ok stix_data /\
       process_stix_data stix_data = Ok pd /\
       In attack_pattern (values (attack_patterns pd)) /\
       extract_technique_data attack_pattern pd = Ok (Some t) /\
       attack_pattern <> JObj d).
Proof.
  intros Hrefs Hnone.
  assert (Hid : extract_technique_id (JArr (map JObj refs)) = Ok JNull).
  { unfold extract_technique_id. cbn [py_iter bind].
    apply extract_technique_id_loop_none, Hnone. }
  assert (Hdata : forall pd, extract_technique_data (JObj d) pd = Ok None).
  { intros pd. eapply extract_technique_data_falsy; eauto. }
  split; [exact Hid|]. split; [exact Hdata|].
  intros fp files read out doc t Hne Hrun Hin.
  destruct (output_provenance _ _ _ _ _ _ Hne Hrun Hin)
    as (path & stix & pd & ap & H1 & H2 & H3 & H4 & H5).
  exists path, stix, pd, ap. repeat split; auto.
  intros ->. rewrite Hdata in H5. discriminate.
Qed.

Lemma no_identifier_no_record_witness :
  extract_technique_data
    (JObj [("type", JStr "attack-pattern"); ("id", JStr "attack-pattern--n");
           ("external_references",
            JArr [JObj [("source_name", JStr "capec");
                        ("external_id", JStr "CAPEC-1")];
                  JObj [("source_name", JStr "mitre-attack")]])])
    sample_processed = Ok None.
Proof.
  refine (proj1 (proj2 (no_identifier_no_record
            [("type", JStr "attack-pattern"); ("id", JStr "attack-pattern--n");
             ("external_references",
              JArr [JObj [("source_name", JStr "capec");
                          ("external_id", JStr "CAPEC-1")];
                    JObj [("source_name", JStr "mitre-attack")]])]
            [[("source_name", JStr "capec"); ("external_id", JStr "CAPEC-1")];
             [("source_name", JStr "mitre-attack")]] eq_refl _)) _).
  repeat constructor; unfold carries_mitre_id; simpl.
  - intros [H _]. discriminate.
  - intros [_ [x H]]. discriminate.
Defined.

(** C10: when the first external reference with the source name
    "mitre-attack" carries the [external_id] "", identifier extraction
    returns that empty string, resolution still answers [None], and no
    record of an output document comes from the attack pattern. *)
Theorem empty_identifier_is_no_identifier d pre entry post :
  field (JObj d) "external_references" (JArr []) =
    JArr (map JObj pre ++ JObj entry :: post) ->
  Forall (fun r => dict_get r "source_name" <> Some (JStr "mitre-attack")) pre ->
  dict_get entry "source_name" = Some (JStr "mitre-attack") ->
  dict_get entry "external_id" = Some (JStr "") ->
  extract_technique_id (JArr (map JObj pre ++ JObj entry :: post)) =
    Ok (JStr "") /\
  (forall pd, extract_technique_data (JObj d) pd = Ok None) /\
  (forall folder_path json_files read output_file doc t,
     json_files <> [] ->
     process_folder true folder_path json_files read output_file = Some doc ->
     In t (techniques doc) ->
     exists path stix_data pd attack_pattern,
       In path json_files /\ read path = Ok stix_data /\
       process_stix_data stix_data = Ok pd /\
       In attack_pattern (values (attack_patterns pd)) /\
       extract_technique_data attack_pattern pd = Ok (Some t) /\
       attack_pattern <> JObj d).
Proof.
  intros Hrefs Hpre Hsn Hid.
  assert (Hext : extract_technique_id
                   (JArr (map JObj pre ++ JObj entry :: post)) = Ok (JStr "")).
  { unfold extract_technique_id. cbn [py_iter bind].
    rewrite (extract_technique_id_loop_skip pre _ Hpre).
    cbn [extract_technique_id_loop py_get bind has_key subscript].
    rewrite Hsn, Hid. reflexivity. }
  assert (Hdata : forall pd, extract_technique_data (JObj d) pd = Ok None).
  { intros pd. eapply extract_technique_data_falsy; eauto. }
  split; [exact Hext|]. split; [exact Hdata|].
  intros fp files read out doc t Hne Hrun Hin.
  destruct (output_provenance _ _ _ _ _ _ Hne Hrun Hin)
    as (path & stix & pd & ap & H1 & H2 & H3 & H4 & H5).
  exists path, stix, pd, ap. repeat split; auto.
  intros ->. rewrite Hdata in H5. discriminate.
Qed.

Lemma empty_identifier_is_no_identifier_witness :
  extract_technique_id
    (JArr [JObj [("source_name", JStr "capec")];
           JObj [("source_name", JStr "mitre-attack"); ("external_id", JStr "")];
           mitre_ref "T1001"]) = Ok (JStr "") /\
  extract_technique_data
    (JObj [("type", JStr "attack-pattern"); ("id", JStr "attack-pattern--e");
           ("external_references",
            JArr [JObj [("source_name", JStr "capec")];
                  JObj [("source_name", JStr "mitre-attack");
                        ("external_id", JStr "")];
                  mitre_ref "T1001"])])
    sample_processed = Ok None.
Proof.
  destruct (empty_identifier_is_no_identifier
              [("type", JStr "attack-pattern"); ("id", JStr "attack-pattern--e");
               ("external_references",
                JArr [JObj [("source_name", JStr "capec")];
                      JObj [("source_name", JStr "mitre-attack");
                            ("external_id", JStr "")];
                      mitre_ref "T1001"])]
              [[("source_name", JStr "capec")]]
              [("source_name", JStr "mitre-attack"); ("external_id", JStr "")]
              [mitre_ref "T1001"] eq_refl) as (H1 & H2 & _).
  - repeat constructor. simpl. discriminate.
  - reflexivity.
  - reflexivity.
  - split; [exact H1|apply H2].
Defined.

(** ** First file wins *)

Lemma mem_false (ids : pyset) (x : json) :
  Forall (fun k => key_eqb k x = false) ids -> mem ids x = false.
Proof.
  induction 1 as [|k ids Hk _ IH]; simpl; [reflexivity|].
  unfold mem in *. simpl. now rewrite Hk, IH.
Qed.

Lemma mem_set_add_other (ids : pyset) (k' k : json) :
  key_eqb k' k = false -> mem (set_add ids k') k = mem ids k.
Proof.
  intros H. unfold set_add, mem.
  destruct (existsb (fun x => key_eqb x k') ids); [reflexivity|].
  rewrite existsb_app. simpl. rewrite H. now rewrite !orb_false_r.
Qed.

Lemma sort_by_technique_id_perm (l l' : list technique) :
  sort_by_technique_id l = Ok l' -> Permutation l' l.
Proof.
  destruct l as [|x [|y l]]; cbn [sort_by_technique_id];
    try (intros [= <-]; reflexivity).
  destruct (forallb _ _); [|discriminate].
  intros [= <-].
  exact (stable_sort_perm
           (fun a b => key_ltb (technique_id a) (technique_id b))
           (x :: y :: l)).
Qed.

(** Records whose identifiers are all strings can always be sorted. *)
Lemma sort_strings_ok (l : list technique) :
  Forall (fun t => exists s, technique_id t = JStr s) l ->
  exists l', sort_by_technique_id l = Ok l'.
Proof.
  intros H. destruct l as [|x [|y l]]; cbn [sort_by_technique_id]; eauto.
  assert (Hall : forallb (fun t => comparable (technique_id x) (technique_id t))
                   (x :: y :: l) = true).
  { apply forallb_forall. intros t Ht. rewrite Forall_forall in H.
    destruct (H x (or_introl eq_refl)) as [s ->].
    destruct (H t Ht) as [s' ->]. reflexivity. }
  rewrite Hall. eauto.
Qed.

Lemma append_keeps (data : document) (new_techniques : list technique) r :
  In r (techniques data) ->
  In r (techniques (append_techniques_to_file data new_techniques)).
Proof.
  intros Hr. unfold append_techniques_to_file.
  destruct (sort_by_technique_id _) as [sorted|] eqn:Hsort; cbn; [|exact Hr].
  eapply Permutation_in; [symmetry; eapply sort_by_technique_id_perm, Hsort|].
  apply in_or_app. now left.
Qed.

(** The loop over the attack patterns ends normally when no resolution
    raises and every identifier is hashable. *)
Lemma resolve_total pd aps : forall ids acc,
  Forall (fun a => extract_technique_data a pd <> Raise) aps ->
  (forall a t, In a aps -> extract_technique_data a pd = Ok (Some t) ->
     hashable (technique_id t) = true) ->
  exists ids' file_techniques,
    resolve_attack_patterns aps pd ids acc = (ids', Ok file_techniques) /\
    incl acc file_techniques /\
    (forall k, mem ids k = true -> mem ids' k = true).
Proof.
  induction aps as [|a aps IH]; intros ids acc Hok Hh;
    cbn [resolve_attack_patterns].
  - exists ids, acc. repeat split; auto. apply incl_refl.
  - inversion Hok as [|? ? Ha Hok']; subst.
    assert (Hh' : forall a' t, In a' aps ->
              extract_technique_data a' pd = Ok (Some t) ->
              hashable (technique_id t) = true).
    { intros a' t Hin. apply Hh. now right. }
    destruct (extract_technique_data a pd) as [[t|]|] eqn:Hex; [| |congruence].
    + unfold set_mem. rewrite (Hh a t (or_introl eq_refl) Hex).
      destruct (existsb _ ids) eqn:Hmem; [apply IH; auto|].
      destruct (IH (set_add ids (technique_id t)) (acc ++ [t]) Hok' Hh')
        as (ids' & fts & H1 & H2 & H3).
      exists ids', fts. repeat split; auto.
      * intros x Hx. apply H2, in_or_app. now left.
      * intros k Hk. apply H3, mem_set_add_mono, Hk.
    + apply IH; auto.
Qed.

(** The first attack pattern of a file that resolves to an identifier not
    yet in the set puts its record in the batch of the file. *)
Lemma resolve_first pd ap aps2 r aps1 : forall ids acc,
  Forall (fun a => extract_technique_data a pd <> Raise) (aps1 ++ ap :: aps2) ->
  (forall a t, In a (aps1 ++ ap :: aps2) ->
     extract_technique_data a pd = Ok (Some t) ->
     hashable (technique_id t) = true) ->
  extract_technique_data ap pd = Ok (Some r) ->
  (forall a t, In a aps1 -> extract_technique_data a pd = Ok (Some t) ->
     key_eqb (technique_id t) (technique_id r) = false) ->
  mem ids (technique_id r) = false ->
  exists ids' file_techniques,
    resolve_attack_patterns (aps1 ++ ap :: aps2) pd ids acc =
      (ids', Ok file_techniques) /\
    In r file_techniques /\ mem ids' (technique_id r) = true.
Proof.
  induction aps1 as [|a aps1 IH]; intros ids acc Hok Hh Hr Hfirst Hmem;
    cbn [app resolve_attack_patterns].
  - rewrite Hr. unfold set_mem.
    assert (Hhr : hashable (technique_id r) = true).
    { apply (Hh ap r); [now left|exact Hr]. }
    rewrite Hhr. fold (mem ids (technique_id r)). rewrite Hmem.
    inversion Hok as [|? ? _ Hok']; subst.
    destruct (resolve_total pd aps2 (set_add ids (technique_id r)) (acc ++ [r])
                Hok') as (ids' & fts & H1 & H2 & H3).
    { intros a t Hin. apply Hh. now right. }
    exists ids', fts. split; [exact H1|]. split.
    + apply H2, in_or_app. right. now left.
    + apply H3, mem_set_add_self, Hhr.
  - inversion Hok as [|? ? Ha Hok']; subst.
    assert (Hh' : forall a' t, In a' (aps1 ++ ap :: aps2) ->
              extract_technique_data a' pd = Ok (Some t) ->
              hashable (technique_id t) = true).
    { intros a' t Hin. apply Hh. now right. }
    assert (Hfirst' : forall a' t, In a' aps1 ->
              extract_technique_data a' pd = Ok (Some t) ->
              key_eqb (technique_id t) (technique_id r) = false).
    { intros a' t Hin. apply Hfirst. now right. }
    destruct (extract_technique_data a pd) as [[t|]|] eqn:Hex; [| |congruence].
    + unfold set_mem. rewrite (Hh a t (or_introl eq_refl) Hex).
      destruct (existsb _ ids) eqn:Hm; [apply IH; auto|].
      apply IH; auto.
      rewrite mem_set_add_other; [exact Hmem|].
      apply (Hfirst a t); [now left|exact Hex].
    + apply IH; auto.
Qed.

(** Once a record is on disk and its identifier in the set, both stay. *)
Lemma process_file_keeps read st path r :
  In r (techniques (on_disk st)) ->
  mem (all_technique_ids st) (technique_id r) = true ->
  In r (techniques (on_disk (process_file read st path))) /\
  mem (all_technique_ids (process_file read st path)) (technique_id r) = true.
Proof.
  intros Hr Hm.
  destruct (process_file_cases read st path)
    as [->|(stix & pd & ids & outcome & _ & _ & Hres & Hids & Hout)];
    [auto|].
  rewrite Hids. split.
  - destruct outcome as [[|t fts]|]; rewrite Hout; auto.
    apply append_keeps, Hr.
  - assert (H := resolve_tracked _ pd [] _ [] _ _ Hres).
    destruct H as [Hmono _]; [|auto].
    repeat split; try constructor. intros a b [].
Qed.

Lemma process_files_keep read r files : forall st,
  In r (techniques (on_disk st)) ->
  mem (all_technique_ids st) (technique_id r) = true ->
  In r (techniques (on_disk (fold_left (process_file read) files st))).
Proof.
  induction files as [|path files IH]; intros st Hr Hm; cbn [fold_left];
    [exact Hr|].
  destruct (process_file_keeps read st path r Hr Hm) as [Hr' Hm'].
  apply IH; assumption.
Qed.

(** What the first sound file holding an identifier leaves behind. *)
Lemma process_file_first read pre st path stix_data pd aps1 ap aps2 r :
  folder_inv pre read st ->
  read path = Ok stix_data ->
  process_stix_data stix_data = Ok pd ->
  values (attack_patterns pd) = aps1 ++ ap :: aps2 ->
  extract_technique_data ap pd = Ok (Some r) ->
  Forall (fun a => extract_technique_data a pd <> Raise)
         (values (attack_patterns pd)) ->
  (forall t, resolved_from (pre ++ [path]) read t ->
     exists s, technique_id t = JStr s) ->
  (forall a t, In a aps1 -> extract_technique_data a pd = Ok (Some t) ->
     key_eqb (technique_id t) (technique_id r) = false) ->
  (forall t, resolved_from pre read t ->
     key_eqb (technique_id t) (technique_id r) = false) ->
  In r (techniques (on_disk (process_file read st path))) /\
  mem (all_technique_ids (process_file read st path)) (technique_id r) = true.
Proof.
  intros (Htr & Hs & Hprov & Hreg) Hread Hpd Haps Hr Hok Hstr Hfirst Hpre.
  assert (HQ : forall a t, In a (values (attack_patterns pd)) ->
            extract_technique_data a pd = Ok (Some t) ->
            resolved_from (pre ++ [path]) read t).
  { intros a t Hin Hex. exists path, stix_data, pd, a.
    repeat split; auto. apply in_or_app. right. now left. }
  assert (Hmem : mem (all_technique_ids st) (technique_id r) = false).
  { apply mem_false. eapply Forall_impl; [|exact Hreg].
    intros k (t & Ht & <-). apply Hpre, Ht. }
  destruct (resolve_first pd ap aps2 r aps1 (all_technique_ids st) [])
    as (ids & fts & Hres & Hin & Hmem'); auto.
  { rewrite <- Haps. exact Hok. }
  { rewrite <- Haps. intros a t Hin Hex.
    destruct (Hstr t (HQ a t Hin Hex)) as [s ->]. reflexivity. }
  destruct (resolve_provenance _ pd _ HQ _ _ _ _
              ltac:(rewrite Haps; exact Hres)) as [_ Hfts].
  { constructor. }
  { eapply Forall_impl; [|exact Hreg]. intros k (t & Ht & Hk).
    exists t. split; [|exact Hk].
    eapply resolved_from_incl; [|exact Ht]. apply incl_appl, incl_refl. }
  unfold process_file. rewrite Hread. cbn [bind]. rewrite Hpd, Haps, Hres.
  destruct fts as [|t0 fts0] eqn:Efts; [destruct Hin|]. rewrite <- Efts in *.
  cbn [all_technique_ids on_disk]. split; [|exact Hmem'].
  destruct (sort_strings_ok (techniques (on_disk st) ++ fts)) as [l' Hsort].
  { apply Forall_app. split.
    - eapply Forall_impl; [|exact Hprov]. intros t Ht. apply Hstr.
      eapply resolved_from_incl; [|exact Ht]. apply incl_appl, incl_refl.
    - eapply Forall_impl; [|exact Hfts]. intros t Ht. apply Hstr, Ht. }
  unfold append_techniques_to_file. rewrite Hsort. cbn.
  eapply Permutation_in; [symmetry; eapply sort_by_technique_id_perm, Hsort|].
  apply in_or_app. now right.
Qed.

(** C3, as amended: let [path] be the first file, in the sorted order of
    the paths, that holds an attack pattern resolving to an identifier, and
    [ap] the first such attack pattern of that file.  If that file is
    processed without a failure (it parses, no resolution in it raises, and
    the identifiers resolved so far are strings, so that the batch can be
    sorted in), the output document holds the record resolved from [ap],
    and no other record with that identifier: every later duplicate is
    dropped. *)
Theorem first_file_wins folder_path json_files read output_file
  pre path post stix_data pd aps1 ap aps2 r :
  stable_sort String.ltb json_files = pre ++ path :: post ->
  read path = Ok stix_data ->
  process_stix_data stix_data = Ok pd ->
  values (attack_patterns pd) = aps1 ++ ap :: aps2 ->
  extract_technique_data ap pd = Ok (Some r) ->
  Forall (fun a => extract_technique_data a pd <> Raise)
         (values (attack_patterns pd)) ->
  (forall t, resolved_from (pre ++ [path]) read t ->
     exists s, technique_id t = JStr s) ->
  (forall a t, In a aps1 -> extract_technique_data a pd = Ok (Some t) ->
     key_eqb (technique_id t) (technique_id r) = false) ->
  (forall t, resolved_from pre read t ->
     key_eqb (technique_id t) (technique_id r) = false) ->
  exists doc,
    process_folder true folder_path json_files read output_file = Some doc /\
    In r (techniques doc) /\
    (forall t, In t (techniques doc) ->
       key_eqb (technique_id t) (technique_id r) = true -> t = r).
Proof.
  intros Hsorted Hread Hpd Haps Hr Hok Hstr Hfirst Hpre.
  assert (Hne : json_files <> []).
  { intros ->. cbn in Hsorted. destruct pre; discriminate. }
  destruct (process_folder_run folder_path json_files read output_file Hne)
    as (st & Hst & Hrun & Hinv).
  rewrite Hsorted, fold_left_app in Hst. cbn [fold_left] in Hst.
  set (st1 := fold_left (process_file read) pre _) in Hst.
  assert (Hinv1 : folder_inv pre read st1).
  { apply (process_files_inv read pre [] _ (folder_inv_init read folder_path)). }
  destruct (process_file_first read pre st1 path stix_data pd aps1 ap aps2 r)
    as [Hin Hmem]; auto.
  assert (Hfinal : In r (techniques (on_disk st))).
  { rewrite Hst. apply process_files_keep; assumption. }
  eexists. split; [exact Hrun|]. cbn. split; [exact Hfinal|].
  intros t Ht Hk. destruct Hinv as ([[_ Hd] _] & _). apply Hd; assumption.
Qed.

Lemma first_file_wins_witness :
  exists doc,
    process_folder true "data" ["data/b.json"; "data/a.json"]
      read_sound_folder None = Some doc /\
    In sample_record_a (techniques doc) /\
    (forall t, In t (techniques doc) ->
       key_eqb (technique_id t) (technique_id sample_record_a) = true ->
       t = sample_record_a).
Proof.
  apply (first_file_wins "data" ["data/b.json"; "data/a.json"]
           read_sound_folder None [] "data/a.json" ["data/b.json"]
           sample_bundle sample_processed [] sample_technique_a
           [sample_technique_b] sample_record_a);
    try reflexivity.
  - repeat constructor; vm_compute; discriminate.
  - intros t (p & stix & pd & a & Hp & Hrd & Hpd & Ha & Hex).
    destruct Hp as [<-|[]]. cbn in Hrd. injection Hrd as <-.
    change (process_stix_data sample_bundle) with (Ok sample_processed) in Hpd.
    injection Hpd as <-.
    destruct Ha as [<-|[<-|[]]]; vm_compute in Hex; injection Hex as <-;
      eexists; reflexivity.
  - intros a t [].
  - intros t (p & _ & _ & _ & [] & _).
Defined.

(** C3, as stated, fails: both files hold an attack pattern resolving to
    T1001, the first file raises after that identifier was registered, and
    the output document holds no record at all. *)
Lemma failed_first_file_blocks_identifier :
  (exists pd t,
     process_stix_data sample_failing_bundle = Ok pd /\
     In sample_technique_a (values (attack_patterns pd)) /\
     extract_technique_data sample_technique_a pd = Ok (Some t) /\
     technique_id t = JStr "T1001") /\
  (exists pd t,
     process_stix_data sample_second_bundle = Ok pd /\
     In sample_technique_a2 (values (attack_patterns pd)) /\
     extract_technique_data sample_technique_a2 pd = Ok (Some t) /\
     technique_id t = JStr "T1001") /\
  exists doc,
    process_folder true "data" ["data/a.json"; "data/b.json"]
      read_failing_folder None = Some doc /\
    techniques doc = [].
Proof.
  split; [|split].
  - eexists. eexists. split; [vm_compute; reflexivity|].
    split; [simpl; auto|]. split; vm_compute; reflexivity.
  - eexists. eexists. split; [vm_compute; reflexivity|].
    split; [simpl; auto|]. split; vm_compute; reflexivity.
  - eexists. split; vm_compute; reflexivity.
Qed.

(** * Further properties of the resolver *)

(** ** extract_technique_id *)

Lemma extract_technique_id_loop_pass (pre : list (list (string * json))) rest :
  Forall (fun d => ~ carries_mitre_id d) pre ->
  extract_technique_id_loop (map JObj pre ++ rest) =
  extract_technique_id_loop rest.
Proof.
  induction 1 as [|d pre Hd _ IH]; cbn [map app extract_technique_id_loop];
    [reflexivity|].
  cbn [py_get bind has_key]. unfold carries_mitre_id in Hd.
  destruct (dict_get d "source_name") as [sn|] eqn:Hsn; cbn [eq_str];
    [|exact IH].
  destruct (eq_str sn "mitre-attack") eqn:Heq; [|exact IH].
  destruct (dict_get d "external_id") as [x|] eqn:Hx; [|exact IH].
  exfalso. apply Hd. split; [|eauto].
  destruct sn; try discriminate. simpl in Heq.
  apply String.eqb_eq in Heq. congruence.
Qed.

(** X1: the identifier is the [external_id] of the first entry that has the
    source name "mitre-attack" and an [external_id] key, whatever value it
    holds; entries before it that lack one of the two are passed over, and
    nothing after it is looked at, not even an entry that is no object. *)
Theorem extract_technique_id_first_match pre entry post x :
  Forall (fun d => ~ carries_mitre_id d) pre ->
  dict_get entry "source_name" = Some (JStr "mitre-attack") ->
  dict_get entry "external_id" = Some x ->
  extract_technique_id (JArr (map JObj pre ++ JObj entry :: post)) = Ok x.
Proof.
  intros Hpre Hsn Hid. unfold extract_technique_id. cbn [py_iter bind].
  rewrite (extract_technique_id_loop_pass pre _ Hpre).
  cbn [extract_technique_id_loop py_get bind has_key subscript].
  rewrite Hsn, Hid. reflexivity.
Qed.

Lemma extract_technique_id_first_match_witness :
  extract_technique_id
    (JArr [JObj [("source_name", JStr "mitre-attack")];
           JObj [("source_name", JStr "capec"); ("external_id", JStr "CAPEC-1")];
           mitre_ref "T1001"; JNum 7]) = Ok (JStr "T1001").
Proof.
  apply (extract_technique_id_first_match
           [[("source_name", JStr "mitre-attack")];
            [("source_name", JStr "capec"); ("external_id", JStr "CAPEC-1")]]
           [("source_name", JStr "mitre-attack"); ("external_id", JStr "T1001")]
           [JNum 7] (JStr "T1001")); try reflexivity.
  repeat constructor; unfold carries_mitre_id; simpl.
  - intros [_ [x H]]. discriminate.
  - intros [H _]. discriminate.
Defined.

Lemma dict_keys_nonempty (d : list (string * json)) :
  d <> [] -> dict_keys d [] <> [].
Proof. destruct d as [|[k v] d]; [congruence|]. simpl. discriminate. Qed.

(** X2: identifier extraction raises when the references are [null], a
    boolean or a number (not iterable), a non-empty string or a non-empty
    object (their elements have no [.get]), or a list in which an entry that
    is not an object comes before any entry carrying the MITRE identifier.
    An empty string and an empty object are iterated without effect and
    give [None]. *)
Theorem extract_technique_id_raises :
  extract_technique_id JNull = Raise /\
  (forall b, extract_technique_id (JBool b) = Raise) /\
  (forall z, extract_technique_id (JNum z) = Raise) /\
  (forall s, s <> "" -> extract_technique_id (JStr s) = Raise) /\
  (forall d, d <> [] -> extract_technique_id (JObj d) = Raise) /\
  (forall pre bad post,
     Forall (fun d => ~ carries_mitre_id d) pre ->
     (forall d, bad <> JObj d) ->
     extract_technique_id (JArr (map JObj pre ++ bad :: post)) = Raise) /\
  extract_technique_id (JStr "") = Ok JNull /\
  extract_technique_id (JObj []) = Ok JNull.
Proof.
  repeat split; try reflexivity.
  - intros [|c s] Hs; [congruence|]. reflexivity.
  - intros d Hd. unfold extract_technique_id. cbn [py_iter bind].
    destruct (dict_keys d []) as [|k ks] eqn:Hk;
      [now apply dict_keys_nonempty in Hd|].
    reflexivity.
  - intros pre bad post Hpre Hbad. unfold extract_technique_id.
    cbn [py_iter bind]. rewrite (extract_technique_id_loop_pass pre _ Hpre).
    cbn [extract_technique_id_loop]. destruct bad; try reflexivity.
    now destruct (Hbad d).
Qed.

Lemma extract_technique_id_raises_witness :
  extract_technique_id (JStr "T1001") = Raise /\
  extract_technique_id (JObj [("source_name", JStr "mitre-attack")]) = Raise /\
  extract_technique_id
    (JArr [JObj [("source_name", JStr "capec")]; JStr "T1001";
           mitre_ref "T1001"]) = Raise.
Proof.
  destruct extract_technique_id_raises as (_ & _ & _ & H1 & H2 & H3 & _).
  split; [apply H1; discriminate|]. split; [apply H2; discriminate|].
  apply (H3 [[("source_name", JStr "capec")]] (JStr "T1001") [mitre_ref "T1001"]).
  - repeat constructor. unfold carries_mitre_id. simpl. intros [H _].
    discriminate.
  - discriminate.
Defined.

(** ** extract_tactics *)

Lemma extract_tactics_loop_spec phases : forall acc,
  Forall (fun d => in_mitre_chain d = true ->
                   exists s, field (JObj d) "phase_name" (JStr "") = JStr s)
         phases ->
  extract_tactics_loop (map JObj phases) acc =
  Ok (acc ++ filter (fun t => negb (t =? ""))
               (map (fun d => tactic_name (phase_name_of d))
                    (filter in_mitre_chain phases))).
Proof.
  induction phases as [|d phases IH]; intros acc Hall;
    cbn [map filter extract_tactics_loop].
  - now rewrite app_nil_r.
  - inversion Hall as [|? ? Hd Hall']; subst.
    change (py_get (JObj d) "kill_chain_name" JNull)
      with (Ok (field (JObj d) "kill_chain_name" JNull)).
    cbn [bind].
    change (eq_str (field (JObj d) "kill_chain_name" JNull) "mitre-attack")
      with (in_mitre_chain d).
    destruct (in_mitre_chain d) eqn:Hchain; [|apply IH, Hall'].
    destruct (Hd eq_refl) as [s Hs].
    change (py_get (JObj d) "phase_name" (JStr ""))
      with (Ok (field (JObj d) "phase_name" (JStr ""))).
    assert (Hname : phase_name_of d = s) by (unfold phase_name_of; now rewrite Hs).
    rewrite Hs. cbn [bind map filter]. rewrite Hname.
    fold (tactic_name s). rewrite (IH _ Hall').
    destruct (tactic_name s =? "") eqn:He; cbn [negb]; [reflexivity|].
    rewrite <- app_assoc. reflexivity.
Qed.

(** X3: on a list of kill-chain phases, [extract_tactics] keeps the phases
    of the chain "mitre-attack", in their order and with repetitions, turns
    each phase name into a tactic name (hyphens to spaces, then title case)
    and leaves out the names that come out empty; phases of other chains
    may hold anything. *)
Theorem extract_tactics_spec phases :
  Forall (fun d => in_mitre_chain d = true ->
                   exists s, field (JObj d) "phase_name" (JStr "") = JStr s)
         phases ->
  extract_tactics (JArr (map JObj phases)) =
  Ok (filter (fun t => negb (t =? ""))
        (map (fun d => tactic_name (phase_name_of d))
             (filter in_mitre_chain phases))).
Proof.
  intros Hall. unfold extract_tactics. cbn [py_iter bind].
  now rewrite (extract_tactics_loop_spec phases [] Hall).
Qed.

Lemma extract_tactics_spec_witness :
  extract_tactics
    (JArr [JObj [("kill_chain_name", JStr "mitre-attack");
                 ("phase_name", JStr "privilege-escalation")];
           JObj [("kill_chain_name", JStr "lockheed"); ("phase_name", JNum 3)];
           JObj [("kill_chain_name", JStr "mitre-attack")];
           JObj [("kill_chain_name", JStr "mitre-attack");
                 ("phase_name", JStr "privilege-escalation")]]) =
  Ok ["Privilege Escalation"; "Privilege Escalation"].
Proof.
  apply (extract_tactics_spec
           [[("kill_chain_name", JStr "mitre-attack");
             ("phase_name", JStr "privilege-escalation")];
            [("kill_chain_name", JStr "lockheed"); ("phase_name", JNum 3)];
            [("kill_chain_name", JStr "mitre-attack")];
            [("kill_chain_name", JStr "mitre-attack");
             ("phase_name", JStr "privilege-escalation")]]).
  repeat constructor; intros H; try discriminate H; eexists; reflexivity.
Defined.

Lemma case_maps_avoid_hyphen (c : ascii) :
  c <> "-"%char -> lower_char c <> "-"%char /\ upper_char c <> "-"%char.
Proof.
  destruct c as [[] [] [] [] [] [] [] []]; intros H; split;
    vm_compute; congruence.
Qed.

Lemma title_from_chars (b : bool) (s : string) :
  Forall (fun c => c <> "-"%char) (chars s) ->
  Forall (fun c => c <> "-"%char) (chars (title_from b s)).
Proof.
  revert b. induction s as [|c s IH]; intros b H; cbn [title_from chars];
    [constructor|].
  inversion H as [|? ? Hc Hs]; subst.
  constructor; [|apply IH, Hs].
  destruct (case_maps_avoid_hyphen c Hc). destruct b; assumption.
Qed.

Lemma replace_hyphen_chars (s : string) :
  Forall (fun c => c <> "-"%char) (chars (replace "-" " " s)).
Proof.
  unfold replace. induction s as [|c s IH]; cbn [str_map chars];
    constructor; [|exact IH].
  destruct (Ascii.eqb_spec c "-"); [discriminate|assumption].
Qed.

Lemma contains_char (a : ascii) (s : string) :
  Forall (fun c => c <> a) (chars s) -> contains (String a "") s = false.
Proof.
  induction s as [|c s IH]; cbn [chars contains String.prefix]; intros H;
    [reflexivity|].
  inversion H as [|? ? Hc Hs]; subst.
  destruct (ascii_dec a c) as [->|_]; [congruence|]. simpl. apply IH, Hs.
Qed.

Lemma tactic_name_no_hyphen (s : string) :
  contains "-" (tactic_name s) = false.
Proof.
  apply contains_char. unfold tactic_name, title.
  apply title_from_chars, replace_hyphen_chars.
Qed.

Lemma extract_tactics_loop_names phases (Q : string -> Prop) :
  (forall s, tactic_name s <> "" -> Q (tactic_name s)) ->
  forall acc tactics,
  extract_tactics_loop phases acc = Ok tactics ->
  Forall Q acc -> Forall Q tactics.
Proof.
  intros HQ. induction phases as [|p phases IH]; intros acc tactics;
    cbn [extract_tactics_loop].
  - intros [= <-]. auto.
  - destruct (py_get p "kill_chain_name" JNull) as [chain|]; [|discriminate].
    cbn [bind]. destruct (eq_str chain "mitre-attack"); [|apply IH].
    destruct (py_get p "phase_name" (JStr "")) as [pn|]; [|discriminate].
    cbn [bind]. destruct pn as [| | |s| |]; try discriminate.
    fold (tactic_name s). intros H Hacc. eapply IH; [exact H|].
    destruct (tactic_name s =? "") eqn:He; [exact Hacc|].
    apply Forall_app. split; [exact Hacc|]. constructor; [|constructor].
    apply HQ. now apply String.eqb_neq.
Qed.

(** X4: whatever the input, a tactic name that [extract_tactics] returns is
    never empty and never contains a hyphen. *)
Theorem tactics_are_clean kill_chain_phases tactics :
  extract_tactics kill_chain_phases = Ok tactics ->
  Forall (fun t => t <> "" /\ contains "-" t = false) tactics.
Proof.
  unfold extract_tactics.
  destruct (py_iter kill_chain_phases) as [phases|]; [|discriminate].
  cbn [bind]. intros H.
  eapply (extract_tactics_loop_names phases); [|exact H|constructor].
  intros s Hs. split; [exact Hs|apply tactic_name_no_hyphen].
Qed.

Lemma tactics_are_clean_witness :
  Forall (fun t => t <> "" /\ contains "-" t = false)
    ["Command And Control"].
Proof.
  apply (tactics_are_clean
           (JArr [JObj [("kill_chain_name", JStr "mitre-attack");
                        ("phase_name", JStr "command-and-control")];
                  JObj [("kill_chain_name", JStr "mitre-attack");
                        ("phase_name", JStr "")]])).
  reflexivity.
Defined.

(** ** extract_external_references *)

Lemma extract_external_references_loop_spec refs : forall acc,
  extract_external_references_loop (map JObj refs) acc =
  Ok (acc ++ map reference_of (filter (fun d => negb (is_mitre_entry d)) refs)).
Proof.
  induction refs as [|d refs IH]; intros acc;
    cbn [map filter extract_external_references_loop].
  - now rewrite app_nil_r.
  - cbn [py_get bind]. unfold is_mitre_entry. cbn [field].
    destruct (eq_str _ "mitre-attack"); cbn [negb]; [apply IH|].
    rewrite IH. cbn [map]. rewrite <- app_assoc. reflexivity.
Qed.

(** X5: on a list of reference objects, [extract_external_references]
    returns, in order, one entry for each reference whose source name is
    not "mitre-attack" (a reference without source name included), with ""
    for a missing source name, description or url; no returned entry has
    the source name "mitre-attack", and the call does not raise. *)
Theorem extract_external_references_spec refs :
  extract_external_references (JArr (map JObj refs)) =
    Ok (map reference_of (filter (fun d => negb (is_mitre_entry d)) refs)) /\
  Forall (fun r => eq_str (ref_source_name r) "mitre-attack" = false)
    (map reference_of (filter (fun d => negb (is_mitre_entry d)) refs)).
Proof.
  split.
  - unfold extract_external_references. cbn [py_iter bind].
    now rewrite extract_external_references_loop_spec.
  - apply Forall_forall. intros r Hr.
    apply in_map_iff in Hr as (d & <- & Hd).
    apply filter_In in Hd as [_ Hd]. unfold is_mitre_entry in Hd.
    cbn [reference_of ref_source_name field] in *.
    destruct (dict_get d "source_name") as [sn|]; [|reflexivity].
    now apply negb_true_iff in Hd.
Qed.

(** ** find_relationships *)

Lemma find_relationships_loop_filter rels m g s : forall r,
  Forall well_targeted rels ->
  find_relationships_loop rels m g s r =
  find_relationships_loop (filter targets_attack_pattern rels) m g s r.
Proof.
  induction rels as [|rel rels IH]; intros r Hall; [reflexivity|].
  inversion Hall as [|? ? ([d ->] & [t Ht]) Hall']; subst.
  cbn [filter]. unfold targets_attack_pattern at 1. rewrite Ht.
  cbn [find_relationships_loop].
  change (py_get (JObj d) "target_ref" (JStr ""))
    with (Ok (field (JObj d) "target_ref" (JStr ""))).
  rewrite Ht. cbn [bind py_startswith].
  destruct (startswith t "attack-pattern--") eqn:Hst.
  - cbn [find_relationships_loop].
    change (py_get (JObj d) "target_ref" (JStr ""))
      with (Ok (field (JObj d) "target_ref" (JStr ""))).
    rewrite Ht. cbn [bind py_startswith]. rewrite Hst.
    destruct (py_get (JObj d) "source_ref" (JStr "")) as [sr|]; [|reflexivity].
    cbn [bind].
    destruct (py_get (JObj d) "relationship_type" (JStr "")) as [rt|];
      [|reflexivity].
    cbn [bind]. destruct (relate m g s r sr rt); [|reflexivity].
    cbn [bind]. apply IH, Hall'.
  - apply IH, Hall'.
Qed.

(** X6: edges whose [target_ref] does not start with "attack-pattern--"
    change nothing: [find_relationships] returns what it returns on the
    edges that pass the prefix test alone, an exception included. *)
Theorem find_relationships_skips_other_targets tid rels m g s :
  Forall well_targeted rels ->
  find_relationships tid rels m g s =
  find_relationships tid (filter targets_attack_pattern rels) m g s.
Proof. intros H. apply find_relationships_loop_filter, H. Qed.

Lemma find_relationships_skips_other_targets_witness :
  find_relationships (JStr "attack-pattern--a")
    [JObj [("relationship_type", JStr "mitigates");
           ("source_ref", JStr "course-of-action--m");
           ("target_ref", JStr "malware--x")];
     sample_edge]
    (mitigations sample_processed) [] [] =
  find_relationships (JStr "attack-pattern--a") [sample_edge]
    (mitigations sample_processed) [] [].
Proof.
  apply (find_relationships_skips_other_targets (JStr "attack-pattern--a")
           [JObj [("relationship_type", JStr "mitigates");
                  ("source_ref", JStr "course-of-action--m");
                  ("target_ref", JStr "malware--x")];
            sample_edge]).
  repeat constructor; eexists; reflexivity.
Defined.

Lemma relate_counts m g s r source_ref relationship_type r' :
  relate m g s r source_ref relationship_type = Ok r' ->
  List.length (res_mitigations r') <=
    List.length (res_mitigations r)
    + (if eq_str relationship_type "mitigates" then 1 else 0) /\
  List.length (res_groups r') + List.length (res_software r') <=
    List.length (res_groups r) + List.length (res_software r)
    + (if eq_str relationship_type "uses" then 1 else 0).
Proof.
  unfold relate.
  destruct (eq_str relationship_type "mitigates") eqn:Hmit.
  - assert (Huses : eq_str relationship_type "uses" = false).
    { destruct relationship_type; try reflexivity. simpl in *.
      apply String.eqb_eq in Hmit. subst. reflexivity. }
    rewrite Huses.
    destruct (find_key m source_ref) as [[o|]|]; cbn [bind];
      [| |discriminate].
    + destruct (brief_of o); [|discriminate]. cbn [bind].
      intros [= <-]. cbn. rewrite !length_app. cbn. lia.
    + intros [= <-]. lia.
  - cbn [bind]. destruct (eq_str relationship_type "uses");
      [|intros [= <-]; lia].
    destruct (find_key g source_ref) as [[o|]|]; cbn [bind];
      [| |discriminate].
    + destruct (brief_of o); [|discriminate]. cbn [bind].
      intros [= <-]. cbn. rewrite !length_app. cbn. lia.
    + destruct (find_key s source_ref) as [[o|]|]; cbn [bind];
        [| |discriminate].
      * destruct (brief_of o); [|discriminate]. cbn [bind].
        intros [= <-]. cbn. rewrite !length_app. cbn. lia.
      * intros [= <-]. lia.
Qed.

Lemma find_relationships_loop_counts rels m g s : forall r r',
  find_relationships_loop rels m g s r = Ok r' ->
  List.length (res_mitigations r') <=
    List.length (res_mitigations r)
    + List.length (filter (has_relationship_type "mitigates") rels) /\
  List.length (res_groups r') + List.length (res_software r') <=
    List.length (res_groups r) + List.length (res_software r)
    + List.length (filter (has_relationship_type "uses") rels).
Proof.
  induction rels as [|rel rels IH]; intros r r';
    cbn [find_relationships_loop filter].
  - intros [= <-]. cbn. lia.
  - assert (Hskip : find_relationships_loop rels m g s r = Ok r' ->
      List.length (res_mitigations r') <=
        List.length (res_mitigations r)
        + List.length (if has_relationship_type "mitigates" rel
                       then rel :: filter (has_relationship_type "mitigates") rels
                       else filter (has_relationship_type "mitigates") rels) /\
      List.length (res_groups r') + List.length (res_software r') <=
        List.length (res_groups r) + List.length (res_software r)
        + List.length (if has_relationship_type "uses" rel
                       then rel :: filter (has_relationship_type "uses") rels
                       else filter (has_relationship_type "uses") rels)).
    { intros H. apply IH in H as [H1 H2].
      destruct (has_relationship_type "mitigates" rel),
               (has_relationship_type "uses" rel); cbn [List.length]; lia. }
    destruct (py_get rel "target_ref" (JStr "")) as [tr|]; [|discriminate].
    cbn [bind]. destruct (py_startswith tr _) as [[|]|]; cbn [bind];
      [| exact Hskip |discriminate].
    destruct (py_get rel "source_ref" (JStr "")) as [sr|]; [|discriminate].
    cbn [bind].
    destruct (py_get rel "relationship_type" (JStr "")) as [rt|] eqn:Hrt;
      [|discriminate].
    apply py_get_field in Hrt. cbn [bind].
    destruct (relate m g s r sr rt) as [r1|] eqn:Hrel; [|discriminate].
    cbn [bind]. intros H. apply IH in H as [H1 H2].
    apply relate_counts in Hrel as (Hm & Hu).
    assert (E1 : has_relationship_type "mitigates" rel = eq_str rt "mitigates")
      by now rewrite Hrt.
    assert (E2 : has_relationship_type "uses" rel = eq_str rt "uses")
      by now rewrite Hrt.
    rewrite E1, E2.
    destruct (eq_str rt "mitigates"), (eq_str rt "uses");
      cbn [List.length]; lia.
Qed.

(** X7: an edge adds at most one entry, and only by its type: the
    mitigation list is no longer than the number of [mitigates] edges, the
    group and software lists together no longer than the number of [uses]
    edges; edges of any other type add nothing. *)
Theorem one_entry_per_edge tid rels m g s r :
  find_relationships tid rels m g s = Ok r ->
  List.length (res_mitigations r) <=
    List.length (filter (has_relationship_type "mitigates") rels) /\
  List.length (res_groups r) + List.length (res_software r) <=
    List.length (filter (has_relationship_type "uses") rels).
Proof.
  intros H. apply find_relationships_loop_counts in H. cbn in H. exact H.
Qed.

Lemma one_entry_per_edge_witness :
  exists r,
    find_relationships (JStr "attack-pattern--a")
      (relationships sample_processed) (mitigations sample_processed)
      (groups sample_processed) (software sample_processed) = Ok r /\
    List.length (res_mitigations r) <= 1 /\
    List.length (res_groups r) + List.length (res_software r) <= 0.
Proof.
  eexists. split; [vm_compute; reflexivity|].
  refine (one_entry_per_edge (JStr "attack-pattern--a")
            (relationships sample_processed) (mitigations sample_processed)
            (groups sample_processed) (software sample_processed) _ _).
  vm_compute. reflexivity.
Defined.

Lemma relate_shadow m g s s' r source_ref relationship_type :
  (forall k, lookup g k = None -> lookup s k = lookup s' k) ->
  relate m g s r source_ref relationship_type =
  relate m g s' r source_ref relationship_type.
Proof.
  intros Hs. unfold relate.
  destruct (if eq_str relationship_type "mitigates"
            then find_key m source_ref else Ok None) as [[o|]|];
    cbn [bind]; try reflexivity.
  destruct (eq_str relationship_type "uses"); [|reflexivity].
  unfold find_key. destruct (hashable source_ref); [|reflexivity].
  cbn [bind]. destruct (lookup g source_ref) eqn:Hg; [reflexivity|].
  rewrite (Hs _ Hg). reflexivity.
Qed.

(** X8: on a [uses] edge the group bucket is consulted first, so a software
    object whose identifier a group also carries is never referenced: two
    software buckets that agree on the identifiers no group has give the
    same result. *)
Theorem groups_shadow_software tid rels m g s s' :
  (forall k, lookup g k = None -> lookup s k = lookup s' k) ->
  find_relationships tid rels m g s = find_relationships tid rels m g s'.
Proof.
  intros Hs. unfold find_relationships.
  generalize {| res_mitigations := []; res_groups := []; res_software := [] |}.
  induction rels as [|rel rels IH]; intros r; cbn [find_relationships_loop];
    [reflexivity|].
  destruct (py_get rel "target_ref" (JStr "")) as [tr|]; [|reflexivity].
  cbn [bind]. destruct (py_startswith tr _) as [[|]|]; cbn [bind];
    [| apply IH |reflexivity].
  destruct (py_get rel "source_ref" (JStr "")) as [sr|]; [|reflexivity].
  cbn [bind].
  destruct (py_get rel "relationship_type" (JStr "")) as [rt|]; [|reflexivity].
  cbn [bind]. rewrite (relate_shadow m g s s' r sr rt Hs).
  destruct (relate m g s' r sr rt); [|reflexivity]. cbn [bind]. apply IH.
Qed.

Lemma groups_shadow_software_witness :
  find_relationships JNull
    [JObj [("relationship_type", JStr "uses"); ("source_ref", JStr "x");
           ("target_ref", JStr "attack-pattern--a")]]
    [] [(JStr "x", JObj [("name", JStr "a group")])]
    [(JStr "x", JObj [("name", JStr "a tool")])] =
  find_relationships JNull
    [JObj [("relationship_type", JStr "uses"); ("source_ref", JStr "x");
           ("target_ref", JStr "attack-pattern--a")]]
    [] [(JStr "x", JObj [("name", JStr "a group")])] [].
Proof.
  apply (groups_shadow_software JNull _ []
           [(JStr "x", JObj [("name", JStr "a group")])]
           [(JStr "x", JObj [("name", JStr "a tool")])] []).
  intros k. cbn [lookup]. destruct (key_eqb (JStr "x") k); [discriminate|].
  reflexivity.
Defined.

(** ** process_stix_data *)

(** X9: the edge sequence of the bundle is the list of the input's
    [relationship] objects, all of them, in file order, repetitions
    included. *)
Theorem edges_in_file_order stix_data objs pd :
  objects_of stix_data = Ok objs ->
  process_stix_data stix_data = Ok pd ->
  relationships pd = filter is_relationship objs.
Proof.
  intros Hobjs Hpd.
  destruct (process_stix_data_spec _ _ Hpd) as (objs' & Hobjs' & H).
  rewrite Hobjs in Hobjs'. injection Hobjs' as <-. apply H.
Qed.

Lemma edges_in_file_order_witness :
  relationships sample_processed = [sample_edge].
Proof.
  apply (edges_in_file_order sample_bundle
           [sample_technique_a; sample_technique_b; sample_mitigation;
            sample_edge] sample_processed); reflexivity.
Defined.

(** An object that is stored had a hashable type and identifier: the
    partitioner raises otherwise. *)
Lemma partition_loop_hashable objs : forall st st',
  partition_loop objs st = Ok st' ->
  Forall (fun o => is_relationship o = false -> truthy (obj_id o) = true ->
                   hashable (obj_type o) = true /\ hashable (obj_id o) = true)
         objs.
Proof.
  induction objs as [|obj objs IH]; intros [obt rels] st';
    cbn [partition_loop]; [constructor|].
  destruct (partition_step (obt, rels) obj) as [st1|] eqn:Hstep;
    cbn [bind]; [|discriminate].
  intros H. constructor; [|eapply IH, H].
  unfold partition_step in Hstep.
  destruct (py_get obj "type" JNull) as [ty|] eqn:Hty; [|discriminate].
  destruct (py_get obj "id" JNull) as [id|] eqn:Hid; [|discriminate].
  apply py_get_field in Hty, Hid. cbn [bind] in Hstep.
  unfold is_relationship, obj_type, obj_id. rewrite <- Hty, <- Hid.
  intros Hrel Htruthy. rewrite Hrel, Htruthy in Hstep.
  destruct (hashable ty), (hashable id); try discriminate. auto.
Qed.

Lemma process_stix_data_hashable stix_data objs pd :
  objects_of stix_data = Ok objs ->
  process_stix_data stix_data = Ok pd ->
  Forall (fun o => is_relationship o = false -> truthy (obj_id o) = true ->
                   hashable (obj_type o) = true /\ hashable (obj_id o) = true)
         objs.
Proof.
  unfold objects_of, process_stix_data.
  destruct (py_get stix_data "objects" (JArr [])) as [objects|];
    [|discriminate].
  cbn [bind]. intros ->. cbn [bind].
  destruct (partition_loop objs ([], [])) as [st|] eqn:Hloop; [|discriminate].
  intros _. eapply partition_loop_hashable, Hloop.
Qed.

Lemma keyed_dict_set (b : pydict json) (obj : json) :
  hashable (obj_id obj) = true -> keyed_by_id b ->
  keyed_by_id (dict_set b (obj_id obj) obj).
Proof.
  intros Hh. unfold keyed_by_id.
  induction 1 as [|[k v] b Hkv Hb IH]; cbn [dict_set].
  - constructor; [|constructor]. apply key_eqb_refl, Hh.
  - destruct (key_eqb k (obj_id obj)) eqn:Hk.
    + constructor; [exact Hk|exact Hb].
    + constructor; [exact Hkv|exact IH].
Qed.

Lemma store_keyed t objs : forall b,
  Forall (fun o => is_relationship o = false -> truthy (obj_id o) = true ->
                   hashable (obj_type o) = true /\ hashable (obj_id o) = true)
         objs ->
  keyed_by_id b -> keyed_by_id (fold_left (store t) objs b).
Proof.
  induction objs as [|obj objs IH]; intros b Hall Hb; cbn [fold_left];
    [exact Hb|].
  inversion Hall as [|? ? Hobj Hall']; subst. apply IH; [exact Hall'|].
  unfold store. destruct (is_relationship obj) eqn:Hrel; cbn [negb andb];
    [exact Hb|].
  destruct (truthy (obj_id obj)) eqn:Hid; cbn [andb]; [|exact Hb].
  destruct (key_eqb (obj_type obj) t); [|exact Hb].
  apply keyed_dict_set; [|exact Hb]. apply (Hobj eq_refl eq_refl).
Qed.

Lemma keyed_lookup (b : pydict json) (k : json) (v : json) :
  keyed_by_id b -> lookup b k = Some v -> key_eqb (obj_id v) k = true.
Proof.
  unfold keyed_by_id. induction 1 as [|[k0 v0] b Hkv _ IH]; cbn [lookup];
    [discriminate|].
  destruct (key_eqb k0 k) eqn:Hk; [|exact IH].
  intros [= ->]. cbn in Hkv. rewrite key_eqb_sym in Hkv.
  eapply key_eqb_trans; eassumption.
Qed.

(** X10: storing then looking up.  In a bundle that was partitioned, the
    last object of type attack-pattern, course-of-action or intrusion-set
    that carries a given truthy identifier is what the bucket of its type
    returns for that identifier: a later object of the same type and
    identifier replaces an earlier one. *)
Theorem bucket_lookup_last stix_data pd pre obj post t b k :
  process_stix_data stix_data = Ok pd ->
  objects_of stix_data = Ok (pre ++ obj :: post) ->
  typed_bucket pd t = Some b ->
  eq_str (obj_type obj) t = true ->
  truthy (obj_id obj) = true ->
  key_eqb (obj_id obj) k = true ->
  Forall (fun o => eq_str (obj_type o) t = true ->
                   key_eqb (obj_id o) k = false) post ->
  lookup b k = Some obj.
Proof.
  intros Hpd Hobjs Hb Hty Hid Hk Hpost.
  destruct (process_stix_data_spec _ _ Hpd) as (objs & Hobjs' & H).
  rewrite Hobjs in Hobjs'. injection Hobjs' as <-.
  destruct H as (Hap & Hmit & Hgr & _).
  assert (Hrel : is_relationship obj = false).
  { unfold is_relationship. unfold typed_bucket in Hb.
    destruct (obj_type obj) as [| | |s| |]; try discriminate. cbn in *.
    apply String.eqb_eq in Hty. subst s.
    destruct (String.eqb_spec t "relationship") as [->|]; [|reflexivity].
    discriminate. }
  assert (Hfound : lookup (fold_left (store (JStr t)) (pre ++ obj :: post) []) k
                   = Some obj).
  { apply store_last; auto.
    - rewrite key_eqb_str. exact Hty.
    - eapply Forall_impl; [|exact Hpost]. cbn. intros o Ho.
      rewrite key_eqb_str. exact Ho. }
  unfold typed_bucket in Hb.
  destruct (String.eqb_spec t "attack-pattern") as [->|_];
    [injection Hb as <-; now rewrite Hap|].
  destruct (String.eqb_spec t "course-of-action") as [->|_];
    [injection Hb as <-; now rewrite Hmit|].
  destruct (String.eqb_spec t "intrusion-set") as [->|_];
    [injection Hb as <-; now rewrite Hgr|].
  discriminate.
Qed.

Lemma bucket_lookup_last_witness :
  lookup (mitigations sample_processed) (JStr "course-of-action--m") =
  Some sample_mitigation.
Proof.
  apply (bucket_lookup_last sample_bundle sample_processed
           [sample_technique_a; sample_technique_b] sample_mitigation
           [sample_edge] "course-of-action"); try reflexivity.
  repeat constructor.
Defined.

Lemma wf_dict_union {V : Type} (a b : pydict V) :
  wf_dict a -> wf_dict (dict_union a b).
Proof.
  unfold dict_union. revert a.
  induction b as [|[k v] b IH]; intros a Ha; cbn [fold_left]; [exact Ha|].
  apply IH, wf_dict_set, Ha.
Qed.

(** X11: what the buckets of a partitioned bundle hold.  No bucket has two
    keys that are equal for Python, and what a bucket returns for an
    identifier is an object of the input carrying that identifier (up to
    Python equality), a truthy one, and the type of the bucket; for the
    software bucket the type is malware or tool. *)
Theorem buckets_are_keyed_by_id stix_data objs pd :
  objects_of stix_data = Ok objs ->
  process_stix_data stix_data = Ok pd ->
  (wf_dict (attack_patterns pd) /\ wf_dict (mitigations pd) /\
   wf_dict (groups pd) /\ wf_dict (software pd)) /\
  (forall t b k v,
     typed_bucket pd t = Some b -> lookup b k = Some v ->
     In v objs /\ eq_str (obj_type v) t = true /\
     truthy (obj_id v) = true /\ key_eqb (obj_id v) k = true) /\
  (forall k v,
     lookup (software pd) k = Some v ->
     In v objs /\
     (eq_str (obj_type v) "malware" = true \/ eq_str (obj_type v) "tool" = true) /\
     truthy (obj_id v) = true /\ key_eqb (obj_id v) k = true).
Proof.
  intros Hobjs Hpd.
  pose proof (process_stix_data_hashable _ _ _ Hobjs Hpd) as Hh.
  destruct (process_stix_data_spec _ _ Hpd) as (objs' & Hobjs' & H).
  rewrite Hobjs in Hobjs'. injection Hobjs' as <-.
  destruct H as (Hap & Hmit & Hgr & Hsw & _).
  assert (Hwf : forall t, wf_dict (fold_left (store (JStr t)) objs []))
    by (intros t; apply store_wf; constructor).
  assert (Hkeyed : forall t, keyed_by_id (fold_left (store (JStr t)) objs []))
    by (intros t; apply store_keyed; [exact Hh|constructor]).
  assert (Hget : forall t k v,
            lookup (fold_left (store (JStr t)) objs []) k = Some v ->
            In v objs /\ eq_str (obj_type v) t = true /\
            truthy (obj_id v) = true /\ key_eqb (obj_id v) k = true).
  { intros t k v Hl. pose proof (keyed_lookup _ _ _ (Hkeyed t) Hl) as Hk.
    apply lookup_In, bucket_values_typed in Hl. tauto. }
  split; [|split].
  - rewrite Hap, Hmit, Hgr, Hsw. repeat split; auto. apply wf_dict_union, Hwf.
  - intros t b k v Hb Hl. unfold typed_bucket in Hb.
    destruct (String.eqb_spec t "attack-pattern") as [->|_];
      [injection Hb as <-; rewrite Hap in Hl; now apply Hget|].
    destruct (String.eqb_spec t "course-of-action") as [->|_];
      [injection Hb as <-; rewrite Hmit in Hl; now apply Hget|].
    destruct (String.eqb_spec t "intrusion-set") as [->|_];
      [injection Hb as <-; rewrite Hgr in Hl; now apply Hget|].
    discriminate.
  - intros k v Hl. rewrite Hsw, lookup_dict_union in Hl by apply Hwf.
    destruct (lookup (fold_left (store (JStr "tool")) objs []) k) eqn:Ht.
    + injection Hl as <-. apply Hget in Ht. tauto.
    + apply Hget in Hl. tauto.
Qed.

Lemma buckets_are_keyed_by_id_witness :
  wf_dict (software sample_processed) /\
  forall k v, lookup (attack_patterns sample_processed) k = Some v ->
    key_eqb (obj_id v) k = true.
Proof.
  destruct (buckets_are_keyed_by_id sample_bundle
              [sample_technique_a; sample_technique_b; sample_mitigation;
               sample_edge] sample_processed eq_refl eq_refl)
    as ((_ & _ & _ & Hwf) & Hget & _).
  split; [exact Hwf|]. intros k v Hl.
  apply (Hget "attack-pattern" _ k v eq_refl Hl).
Defined.

Lemma partition_loop_app pre post : forall st,
  partition_loop (pre ++ post) st =
  (st' <- partition_loop pre st ;; partition_loop post st').
Proof.
  induction pre as [|obj pre IH]; intros st; cbn [app partition_loop bind];
    [reflexivity|].
  destruct (partition_step st obj); cbn [bind]; [apply IH|reflexivity].
Qed.

(** An object the partitioner cannot take: not a JSON object at all, or one
    that is no edge and has a truthy identifier, where the type or the
    identifier is a list or an object. *)
Lemma partition_step_raises st obj :
  (forall d, obj <> JObj d) \/
  (is_relationship obj = false /\ truthy (obj_id obj) = true /\
   hashable (obj_type obj) && hashable (obj_id obj) = false) ->
  partition_step st obj = Raise.
Proof.
  destruct st as [obt rels]. intros [Hno|(Hrel & Hid & Hh)].
  - destruct obj; try reflexivity. now destruct (Hno d).
  - unfold partition_step.
    destruct (py_get obj "type" JNull) as [ty|] eqn:Hty; [|reflexivity].
    destruct (py_get obj "id" JNull) as [id|] eqn:Hi; [|reflexivity].
    apply py_get_field in Hty, Hi. cbn [bind].
    unfold is_relationship, obj_type, obj_id in *.
    rewrite <- Hty in *. rewrite <- Hi in *. now rewrite Hrel, Hid, Hh.
Qed.

(** X12: the partitioner has no partial result.  It raises when the parsed
    file is not a JSON object, and when some element of ['objects'] is not
    a JSON object or is a non-edge object with a truthy identifier whose
    type or identifier is a list or an object, whatever the other elements
    are; a file without the key ['objects'] gives the empty bundle. *)
Theorem partitioner_all_or_nothing :
  (forall v, (forall d, v <> JObj d) -> process_stix_data v = Raise) /\
  (forall d, dict_get d "objects" = None ->
     process_stix_data (JObj d) = Ok empty_bundle) /\
  (forall d pre bad post,
     dict_get d "objects" = Some (JArr (pre ++ bad :: post)) ->
     ((forall o, bad <> JObj o) \/
      (is_relationship bad = false /\ truthy (obj_id bad) = true /\
       hashable (obj_type bad) && hashable (obj_id bad) = false)) ->
     process_stix_data (JObj d) = Raise).
Proof.
  split; [|split].
  - intros v Hv. destruct v; try reflexivity. now destruct (Hv d).
  - intros d Hd. unfold process_stix_data. cbn [py_get bind]. rewrite Hd.
    reflexivity.
  - intros d pre bad post Hd Hbad. unfold process_stix_data.
    cbn [py_get bind]. rewrite Hd. cbn [py_iter bind].
    rewrite partition_loop_app.
    destruct (partition_loop pre ([], [])) as [st|]; cbn [bind];
      [|reflexivity].
    cbn [partition_loop]. rewrite (partition_step_raises st bad Hbad).
    reflexivity.
Qed.

Lemma partitioner_all_or_nothing_witness :
  process_stix_data (JArr [sample_technique_a]) = Raise /\
  process_stix_data (JObj [("type", JStr "bundle")]) = Ok empty_bundle /\
  process_stix_data
    (JObj [("objects",
            JArr [sample_technique_a;
                  JObj [("type", JStr "attack-pattern");
                        ("id", JArr [JStr "attack-pattern--b"])];
                  sample_edge])]) = Raise.
Proof.
  destruct partitioner_all_or_nothing as (H1 & H2 & H3).
  split; [apply H1; discriminate|]. split; [apply H2; reflexivity|].
  apply (H3 [("objects",
              JArr [sample_technique_a;
                    JObj [("type", JStr "attack-pattern");
                          ("id", JArr [JStr "attack-pattern--b"])];
                    sample_edge])]
           [sample_technique_a]
           (JObj [("type", JStr "attack-pattern");
                  ("id", JArr [JStr "attack-pattern--b"])])
           [sample_edge] eq_refl).
  right. repeat split; reflexivity.
Defined.

(** ** extract_technique_data *)

(** X13: an attack pattern that has a truthy identifier and whose
    [description] key holds anything but a string (JSON [null] included)
    makes the resolution raise: the key being present, the default ""
    does not apply and [description.lower()] fails. *)
Theorem non_string_description_raises d pd tid v :
  extract_technique_id (field (JObj d) "external_references" (JArr [])) =
    Ok tid ->
  truthy tid = true ->
  dict_get d "description" = Some v ->
  (forall s, v <> JStr s) ->
  extract_technique_data (JObj d) pd = Raise.
Proof.
  intros Htid Htruthy Hd Hv. unfold extract_technique_data.
  cbn [py_get bind]. cbn [field] in Htid. rewrite Htid. cbn [bind].
  rewrite Htruthy. cbn [negb].
  destruct (find_relationships _ _ _ _ _); cbn [bind]; [|reflexivity].
  rewrite Hd. destruct v; try reflexivity. now destruct (Hv s).
Qed.

Lemma non_string_description_raises_witness :
  extract_technique_data sample_broken_technique sample_processed = Raise.
Proof.
  apply (non_string_description_raises
           [("type", JStr "attack-pattern"); ("id", JStr "attack-pattern--z");
            ("external_references", JArr [mitre_ref "T1003"]);
            ("description", JNull)]
           sample_processed (JStr "T1003") JNull); try reflexivity.
  discriminate.
Defined.

Lemma extract_external_references_loop_clean refs : forall acc l,
  extract_external_references_loop refs acc = Ok l ->
  Forall (fun r => eq_str (ref_source_name r) "mitre-attack" = false) acc ->
  Forall (fun r => eq_str (ref_source_name r) "mitre-attack" = false) l.
Proof.
  induction refs as [|ref refs IH]; intros acc l;
    cbn [extract_external_references_loop].
  - intros [= <-]. auto.
  - destruct ref as [| | | | |d]; try discriminate. cbn [py_get bind].
    destruct (eq_str _ "mitre-attack") eqn:Hm; [apply IH|].
    intros H Hacc. eapply IH; [exact H|].
    apply Forall_app. split; [exact Hacc|]. constructor; [|constructor].
    cbn. destruct (dict_get d "source_name"); [exact Hm|reflexivity].
Qed.

(** The parts of a resolved record that the claims leave aside. *)
Lemma extract_technique_data_parts attack_pattern pd t :
  extract_technique_data attack_pattern pd = Ok (Some t) ->
  extract_tactics (field attack_pattern "kill_chain_phases" (JArr [])) =
    Ok (tactics t) /\
  extract_external_references
    (field attack_pattern "external_references" (JArr [])) =
    Ok (external_references t) /\
  name t = field attack_pattern "name" (JStr "").
Proof.
  unfold extract_technique_data.
  destruct (py_get attack_pattern "external_references" (JArr []))
    as [refs|] eqn:Hrefs; [|discriminate].
  apply py_get_field in Hrefs. cbn [bind].
  destruct (extract_technique_id refs) as [tid|]; [|discriminate].
  cbn [bind]. destruct (truthy tid); [|discriminate]. cbn [negb].
  destruct (py_get attack_pattern "id" (JStr "")) as [ap_id|]; [|discriminate].
  cbn [bind].
  destruct (find_relationships ap_id _ _ _ _) as [rd|]; [|discriminate].
  cbn [bind].
  destruct (py_get attack_pattern "description" (JStr "")) as [d|];
    [|discriminate].
  cbn [bind]. destruct (as_str d) as [s|]; [|discriminate]. cbn [bind].
  destruct (py_get attack_pattern "kill_chain_phases" (JArr [])) as [ph|] eqn:Hph;
    [|discriminate].
  apply py_get_field in Hph. cbn [bind].
  destruct (extract_tactics ph) as [tac|] eqn:Htac; [|discriminate].
  cbn [bind]. destruct (extract_external_references refs) as [ers|] eqn:Hers;
    [|discriminate].
  cbn [bind]. intros [= <-]. cbn. subst. auto.
Qed.

(** X14: whatever the input, a record that the resolver returns has a
    truthy identifier, tactic names that are neither empty nor hyphenated,
    and no external reference with the source name "mitre-attack". *)
Theorem resolved_record_is_clean attack_pattern pd t :
  extract_technique_data attack_pattern pd = Ok (Some t) ->
  truthy (technique_id t) = true /\
  Forall (fun n => n <> "" /\ contains "-" n = false) (tactics t) /\
  Forall (fun r => eq_str (ref_source_name r) "mitre-attack" = false)
    (external_references t).
Proof.
  intros H.
  destruct (extract_technique_data_Some _ _ _ H) as (rd & _ & Htruthy & _).
  destruct (extract_technique_data_parts _ _ _ H) as (Htac & Hers & _).
  split; [exact Htruthy|]. split.
  - unfold extract_tactics in Htac.
    destruct (py_iter _) as [phases|]; [|discriminate]. cbn [bind] in Htac.
    eapply (extract_tactics_loop_names phases); [|exact Htac|constructor].
    intros s Hs. split; [exact Hs|apply tactic_name_no_hyphen].
  - unfold extract_external_references in Hers.
    destruct (py_iter _) as [refs|]; [|discriminate]. cbn [bind] in Hers.
    eapply extract_external_references_loop_clean; [exact Hers|constructor].
Qed.

Lemma resolved_record_is_clean_witness :
  truthy (technique_id sample_record_a) = true /\
  Forall (fun n => n <> "" /\ contains "-" n = false) (tactics sample_record_a) /\
  Forall (fun r => eq_str (ref_source_name r) "mitre-attack" = false)
    (external_references sample_record_a).
Proof.
  apply (resolved_record_is_clean sample_technique_a sample_processed).
  reflexivity.
Defined.

(** ** Input that follows the STIX layout never raises *)

Lemma extract_technique_id_loop_sound refs :
  Forall (fun r => forall x, dict_get r "external_id" = Some x ->
                   exists s, x = JStr s) refs ->
  exists x, extract_technique_id_loop (map JObj refs) = Ok x /\
            (x = JNull \/ exists s, x = JStr s).
Proof.
  induction 1 as [|d refs Hd _ IH]; cbn [map extract_technique_id_loop];
    [eauto|].
  cbn [py_get bind has_key subscript].
  destruct (eq_str _ "mitre-attack"); cbn [andb]; [|exact IH].
  destruct (dict_get d "external_id") as [x|] eqn:Hx; [|exact IH].
  exists x. split; [reflexivity|]. right. apply Hd. reflexivity.
Qed.

Lemma extract_technique_id_sound v :
  sound_references v ->
  exists x, extract_technique_id v = Ok x /\
            (x = JNull \/ exists s, x = JStr s).
Proof.
  intros (refs & -> & Hrefs). unfold extract_technique_id. cbn [py_iter bind].
  apply extract_technique_id_loop_sound, Hrefs.
Qed.

Lemma brief_of_sound obj : sound_object obj -> exists b, brief_of obj = Ok b.
Proof.
  intros ([d ->] & _ & _ & [s Hs] & _ & _ & Hrefs & _).
  rewrite (brief_of_description d s Hs).
  destruct (extract_technique_id_sound _ Hrefs) as (x & -> & _).
  cbn [bind]. eauto.
Qed.

Lemma find_key_sound (b : pydict json) k :
  hashable k = true -> Forall sound_object (values b) ->
  exists o, find_key b k = Ok o /\
            match o with Some v => sound_object v | None => True end.
Proof.
  intros Hk Hb. unfold find_key. rewrite Hk.
  exists (lookup b k). split; [reflexivity|].
  destruct (lookup b k) as [v|] eqn:Hl; [|exact I].
  rewrite Forall_forall in Hb. eapply Hb, lookup_In, Hl.
Qed.

Lemma relate_sound m g s r source_ref relationship_type :
  hashable source_ref = true ->
  Forall sound_object (values m) -> Forall sound_object (values g) ->
  Forall sound_object (values s) ->
  exists r', relate m g s r source_ref relationship_type = Ok r'.
Proof.
  intros Hk Hm Hg Hs. unfold relate.
  destruct (find_key_sound m source_ref Hk Hm) as (om & Hfm & Hom).
  destruct (find_key_sound g source_ref Hk Hg) as (og & Hfg & Hog).
  destruct (find_key_sound s source_ref Hk Hs) as (os & Hfs & Hos).
  rewrite Hfg, Hfs.
  assert (Hcase : exists o,
            (if eq_str relationship_type "mitigates"
             then find_key m source_ref else Ok None) = Ok o /\
            match o with Some v => sound_object v | None => True end).
  { destruct (eq_str relationship_type "mitigates"); eauto. exists None. auto. }
  destruct Hcase as (o & -> & Ho). cbn [bind].
  destruct o as [v|].
  - destruct (brief_of_sound v Ho) as [b ->]. cbn [bind]. eauto.
  - destruct (eq_str relationship_type "uses"); [|eauto].
    destruct og as [v|]; cbn [bind].
    + destruct (brief_of_sound v Hog) as [b ->]. cbn [bind]. eauto.
    + destruct os as [v|]; [|eauto].
      destruct (brief_of_sound v Hos) as [b ->]. cbn [bind]. eauto.
Qed.

Lemma find_relationships_sound tid rels m g s :
  Forall sound_object rels ->
  Forall sound_object (values m) -> Forall sound_object (values g) ->
  Forall sound_object (values s) ->
  exists r, find_relationships tid rels m g s = Ok r.
Proof.
  intros Hrels Hm Hg Hs. unfold find_relationships.
  generalize {| res_mitigations := []; res_groups := []; res_software := [] |}.
  induction Hrels as [|rel rels Hrel _ IH]; intros r;
    cbn [find_relationships_loop]; [eauto|].
  destruct Hrel as ([d ->] & _ & _ & _ & [t Ht] & Hsrc & _).
  change (py_get (JObj d) "target_ref" (JStr ""))
    with (Ok (field (JObj d) "target_ref" (JStr ""))).
  rewrite Ht. cbn [bind py_startswith].
  destruct (startswith t "attack-pattern--"); [|apply IH].
  cbn [py_get bind]. cbn [field] in Hsrc.
  destruct (relate_sound m g s r _
              (match dict_get d "relationship_type" with
               | Some x => x | None => JStr "" end) Hsrc Hm Hg Hs) as [r' ->].
  cbn [bind]. apply IH.
Qed.

(** The buckets and edges of a sound file hold sound objects. *)
Lemma sound_file_bundle stix_data objs pd :
  objects_of stix_data = Ok objs -> Forall sound_object objs ->
  process_stix_data stix_data = Ok pd ->
  Forall sound_object (values (attack_patterns pd)) /\
  Forall sound_object (values (mitigations pd)) /\
  Forall sound_object (values (groups pd)) /\
  Forall sound_object (values (software pd)) /\
  Forall sound_object (relationships pd).
Proof.
  intros Hobjs Hsound Hpd.
  destruct (process_stix_data_spec _ _ Hpd) as (objs' & Hobjs' & H).
  rewrite Hobjs in Hobjs'. injection Hobjs' as <-.
  destruct H as (Hap & Hmit & Hgr & Hsw & Hrel).
  rewrite Forall_forall in Hsound.
  assert (Hb : forall t v, In v (values (fold_left (store (JStr t)) objs [])) ->
                           sound_object v).
  { intros t v Hv. apply bucket_values_typed in Hv as [Hin _]. auto. }
  rewrite Hap, Hmit, Hgr, Hsw, Hrel.
  repeat split; apply Forall_forall; intros v Hv; eauto.
  - apply values_dict_union in Hv as [Hv|Hv]; eauto.
  - apply filter_In in Hv as [Hv _]. auto.
Qed.

Lemma sound_object_plain obj : sound_object obj -> plain_object obj.
Proof. intros (H1 & H2 & H3 & _). repeat split; assumption. Qed.

Lemma extract_technique_data_sound ap pd :
  sound_object ap ->
  Forall sound_object (values (mitigations pd)) ->
  Forall sound_object (values (groups pd)) ->
  Forall sound_object (values (software pd)) ->
  Forall sound_object (relationships pd) ->
  exists o, extract_technique_data ap pd = Ok o /\
    match o with
    | Some t => exists s, technique_id t = JStr s
    | None => True
    end.
Proof.
  intros ([d ->] & _ & _ & [s Hs] & _ & _ & Hrefs & Hphases) Hm Hg Hsw Hrel.
  unfold extract_technique_data. cbn [py_get bind].
  change (match dict_get d "external_references" with
          | Some x => x | None => JArr [] end)
    with (field (JObj d) "external_references" (JArr [])).
  destruct (extract_technique_id_sound _ Hrefs) as (tid & -> & Htid).
  cbn [bind]. destruct (truthy tid) eqn:Htruthy; cbn [negb];
    [|exists None; auto].
  destruct (find_relationships_sound
              (match dict_get d "id" with Some x => x | None => JStr "" end)
              _ _ _ _ Hrel Hm Hg Hsw) as [rd ->].
  cbn [bind]. cbn [field] in Hs. rewrite Hs. cbn [as_str bind].
  destruct Hphases as (phases & Hph & Hall). cbn [field] in Hph.
  rewrite Hph. unfold extract_tactics. cbn [py_iter bind].
  rewrite (extract_tactics_loop_spec phases [] Hall). cbn [bind].
  destruct Hrefs as (refs & Href & _). rewrite Href.
  unfold extract_external_references. cbn [py_iter bind].
  rewrite extract_external_references_loop_spec. cbn [bind].
  eexists. split; [reflexivity|]. cbn.
  destruct Htid as [->|[s' ->]]; [discriminate|eauto].
Qed.

(** X15: a file that follows the STIX layout is resolved without an
    exception.  When every object of the file is a JSON object whose
    fields, where present, have the expected types, the partitioner returns
    a bundle and every attack pattern of it resolves to [None] or to a
    record whose identifier is a string. *)
Theorem sound_file_never_raises stix_data objs :
  objects_of stix_data = Ok objs -> Forall sound_object objs ->
  exists pd,
    process_stix_data stix_data = Ok pd /\
    Forall (fun ap =>
              exists o, extract_technique_data ap pd = Ok o /\
                match o with
                | Some t => exists s, technique_id t = JStr s
                | None => True
                end)
           (values (attack_patterns pd)).
Proof.
  intros Hobjs Hsound.
  destruct (process_stix_data_total stix_data objs Hobjs) as [pd Hpd].
  { eapply Forall_impl; [|exact Hsound]. apply sound_object_plain. }
  exists pd. split; [exact Hpd|].
  destruct (sound_file_bundle _ _ _ Hobjs Hsound Hpd)
    as (Hap & Hm & Hg & Hsw & Hrel).
  eapply Forall_impl; [|exact Hap]. intros ap Hap'.
  now apply extract_technique_data_sound.
Qed.

Lemma mitre_ref_sound (id : string) :
  sound_references (JArr [mitre_ref id]).
Proof.
  exists [[("source_name", JStr "mitre-attack"); ("external_id", JStr id)]].
  split; [reflexivity|]. repeat constructor.
  intros x H. cbn in H. injection H as <-. eauto.
Qed.

Lemma no_references_sound : sound_references (JArr []).
Proof. exists []. split; [reflexivity|constructor]. Qed.

Lemma no_phases_sound : sound_phases (JArr []).
Proof. exists []. split; [reflexivity|constructor]. Qed.

Lemma sample_bundle_sound :
  Forall sound_object
    [sample_technique_a; sample_technique_b; sample_mitigation; sample_edge].
Proof.
  repeat constructor; try (eexists; reflexivity);
    try apply mitre_ref_sound; try apply no_references_sound;
    apply no_phases_sound.
Qed.

Lemma sound_file_never_raises_witness :
  exists pd,
    process_stix_data sample_bundle = Ok pd /\
    Forall (fun ap =>
              exists o, extract_technique_data ap pd = Ok o /\
                match o with
                | Some t => exists s, technique_id t = JStr s
                | None => True
                end)
           (values (attack_patterns pd)).
Proof.
  apply (sound_file_never_raises sample_bundle
           [sample_technique_a; sample_technique_b; sample_mitigation;
            sample_edge] eq_refl).
  apply sample_bundle_sound.
Defined.

(** * Further properties of the output accumulator *)

Lemma resolve_outcome pd aps : forall ids acc,
  match snd (resolve_attack_patterns aps pd ids acc) with
  | Ok _ => true
  | Raise => false
  end =
  forallb (fun ap =>
             match extract_technique_data ap pd with
             | Raise => false
             | Ok None => true
             | Ok (Some t) => hashable (technique_id t)
             end) aps.
Proof.
  induction aps as [|ap aps IH]; intros ids acc;
    cbn [resolve_attack_patterns forallb]; [reflexivity|].
  destruct (extract_technique_data ap pd) as [[t|]|]; [| |reflexivity].
  - unfold set_mem. destruct (hashable (technique_id t)); [|reflexivity].
    cbn [andb]. destruct (existsb _ ids); apply IH.
  - cbn [andb]. apply IH.
Qed.

Lemma process_file_processed read st path :
  processed (process_file read st path) =
  processed st ++ (if file_succeeds read path then [basename path] else []).
Proof.
  unfold process_file, file_succeeds.
  destruct (stix_data <- read path;; process_stix_data stix_data) as [pd|];
    [|now rewrite app_nil_r].
  unfold resolves_cleanly.
  rewrite <- (resolve_outcome pd _ (all_technique_ids st) []).
  destruct (resolve_attack_patterns _ pd _ []) as [ids [[|t fts]|]];
    cbn; try reflexivity. now rewrite app_nil_r.
Qed.

Lemma process_files_processed read files : forall st,
  processed (fold_left (process_file read) files st) =
  processed st ++ map basename (filter (file_succeeds read) files).
Proof.
  induction files as [|path files IH]; intros st; cbn [fold_left filter].
  - now rewrite app_nil_r.
  - rewrite IH, process_file_processed, <- app_assoc.
    destruct (file_succeeds read path); reflexivity.
Qed.

(** X16: the [processed_files] of the document are the base names of the
    files whose processing ran to its end (the file parsed, was
    partitioned, and every attack pattern resolved without an exception to
    nothing or to a record with a hashable identifier), in the sorted order
    of their paths; a file that raised anywhere is not listed. *)
Theorem processed_files_are_the_successes folder_path json_files read
  output_file :
  json_files <> [] ->
  exists doc,
    process_folder true folder_path json_files read output_file = Some doc /\
    processed_files (doc_metadata doc) =
      map basename
        (filter (file_succeeds read) (stable_sort String.ltb json_files)).
Proof.
  intros Hne.
  destruct (process_folder_run folder_path json_files read output_file Hne)
    as (st & Hst & Hrun & _).
  eexists. split; [exact Hrun|]. cbn.
  rewrite Hst, process_files_processed. reflexivity.
Qed.

Lemma processed_files_are_the_successes_witness :
  exists doc,
    process_folder true "data" ["data/b.json"; "data/a.json"]
      read_failing_folder None = Some doc /\
    processed_files (doc_metadata doc) = ["b.json"].
Proof.
  destruct (processed_files_are_the_successes "data"
              ["data/b.json"; "data/a.json"] read_failing_folder None)
    as (doc & H1 & H2); [discriminate|].
  exists doc. split; [exact H1|]. rewrite H2. vm_compute. reflexivity.
Defined.

Lemma append_length_le data new_techniques :
  List.length (techniques (append_techniques_to_file data new_techniques)) <=
  List.length (techniques data) + List.length new_techniques.
Proof.
  unfold append_techniques_to_file.
  destruct (sort_by_technique_id _) as [sorted|] eqn:Hsort; cbn; [|lia].
  apply sort_by_technique_id_perm, Permutation_length in Hsort.
  rewrite Hsort, length_app. lia.
Qed.

Lemma process_file_total_le read st path :
  List.length (techniques (on_disk st)) <= total st ->
  List.length (techniques (on_disk (process_file read st path))) <=
  total (process_file read st path).
Proof.
  intros H. unfold process_file.
  destruct (stix_data <- read path;; process_stix_data stix_data) as [pd|];
    [|exact H].
  destruct (resolve_attack_patterns _ pd _ []) as [ids [[|t fts]|]];
    cbn [on_disk total]; try exact H.
  pose proof (append_length_le (on_disk st) (t :: fts)). lia.
Qed.

(** X17: the [total_techniques] of the document is never smaller than the
    number of records the document holds (it counts every batch, also one
    that could not be sorted into the file). *)
Theorem total_counts_at_least_the_records folder_path json_files read
  output_file :
  json_files <> [] ->
  exists doc,
    process_folder true folder_path json_files read output_file = Some doc /\
    List.length (techniques doc) <= total_techniques (doc_metadata doc).
Proof.
  intros Hne.
  destruct (process_folder_run folder_path json_files read output_file Hne)
    as (st & Hst & Hrun & _).
  eexists. split; [exact Hrun|]. cbn. subst st.
  generalize (stable_sort String.ltb json_files). intros files.
  assert (H : forall st0,
            List.length (techniques (on_disk st0)) <= total st0 ->
            List.length
              (techniques (on_disk (fold_left (process_file read) files st0)))
            <= total (fold_left (process_file read) files st0)).
  { induction files as [|p files IH]; intros st0 H0; cbn [fold_left];
      [exact H0|].
    apply IH, process_file_total_le, H0. }
  apply H. cbn. lia.
Qed.

Lemma total_counts_at_least_the_records_witness :
  exists doc,
    process_folder true "data" ["data/b.json"; "data/a.json"]
      read_sound_folder None = Some doc /\
    List.length (techniques doc) <= total_techniques (doc_metadata doc).
Proof.
  apply (total_counts_at_least_the_records "data"
           ["data/b.json"; "data/a.json"] read_sound_folder None).
  discriminate.
Defined.

(** X18: every record of the document carries an identifier that is truthy
    and hashable: no record without identifier, with an empty one, or with
    a list or object for identifier is ever written. *)
Theorem written_identifiers_are_usable folder_path json_files read
  output_file doc t :
  json_files <> [] ->
  process_folder true folder_path json_files read output_file = Some doc ->
  In t (techniques doc) ->
  truthy (technique_id t) = true /\ hashable (technique_id t) = true.
Proof.
  intros Hne Hrun Hin.
  destruct (process_folder_run folder_path json_files read output_file Hne)
    as (st & _ & Hrun' & ([_ Hh] & _ & Hprov & _)).
  rewrite Hrun in Hrun'. injection Hrun' as ->. cbn in Hin.
  rewrite Forall_forall in Hh, Hprov. split.
  - destruct (Hprov t Hin) as (_ & _ & pd & ap & _ & _ & _ & _ & Hex).
    destruct (extract_technique_data_Some _ _ _ Hex) as (_ & _ & H & _).
    exact H.
  - apply Hh, Hin.
Qed.

Lemma written_identifiers_are_usable_witness :
  truthy (technique_id sample_record_a) = true /\
  hashable (technique_id sample_record_a) = true.
Proof.
  apply (written_identifiers_are_usable "data" ["data/b.json"; "data/a.json"]
           read_sound_folder None sample_document sample_record_a).
  - discriminate.
  - vm_compute. reflexivity.
  - simpl. auto.
Defined.

(** ** A sound folder loses nothing *)

Lemma mem_set_add_inv (ids : pyset) (x k : json) :
  mem (set_add ids x) k = true -> mem ids k = true \/ key_eqb x k = true.
Proof.
  unfold set_add, mem. destruct (existsb (fun k' => key_eqb k' x) ids); [auto|].
  rewrite existsb_app. cbn. rewrite orb_false_r.
  intros H. apply orb_true_iff in H. exact H.
Qed.

(** What a normal end of the loop over the attack patterns leaves. *)
Lemma resolve_complete pd aps : forall ids acc ids' fts,
  resolve_attack_patterns aps pd ids acc = (ids', Ok fts) ->
  incl acc fts /\
  (forall k, mem ids k = true -> mem ids' k = true) /\
  (forall k, mem ids' k = true ->
     mem ids k = true \/
     exists t, In t fts /\ key_eqb (technique_id t) k = true) /\
  (forall ap t, In ap aps -> extract_technique_data ap pd = Ok (Some t) ->
     mem ids' (technique_id t) = true).
Proof.
  induction aps as [|ap aps IH]; intros ids acc ids' fts;
    cbn [resolve_attack_patterns].
  - intros [= <- <-]. repeat split; auto; try apply incl_refl;
      try (intros ? ? []).
  - destruct (extract_technique_data ap pd) as [[t|]|] eqn:Hex;
      [| |discriminate].
    + destruct (set_mem ids (technique_id t)) as [[|]|] eqn:Hmem;
        [| |discriminate];
        apply set_mem_inv in Hmem as [Hh Hm]; intros Hres;
        apply IH in Hres as (Hincl & Hmono & Hnew & Hall).
      * repeat split; auto.
        intros ap' t' [<-|Hin] Hex'; [|eauto].
        rewrite Hex in Hex'. injection Hex' as <-. auto.
      * repeat split.
        -- intros x Hx. apply Hincl, in_or_app. now left.
        -- intros k Hk. apply Hmono, mem_set_add_mono, Hk.
        -- intros k Hk. destruct (Hnew k Hk) as [Hk'|Hk']; [|auto].
           apply mem_set_add_inv in Hk' as [Hk'|Hk']; [auto|].
           right. exists t. split; [|exact Hk'].
           apply Hincl, in_or_app. right. now left.
        -- intros ap' t' [<-|Hin] Hex'; [|eauto].
           rewrite Hex in Hex'. injection Hex' as <-.
           apply Hmono, mem_set_add_self, Hh.
    + intros Hres. apply IH in Hres as (Hincl & Hmono & Hnew & Hall).
      repeat split; auto.
      intros ap' t' [<-|Hin] Hex'; [congruence|eauto].
Qed.

(** A sound file is processed to its end, and its batch is written. *)
Lemma process_file_sound done read st path stix_data :
  read path = Ok stix_data -> sound_file stix_data ->
  folder_inv done read st ->
  (forall t, resolved_from done read t -> exists s, technique_id t = JStr s) ->
  sound_inv done read st ->
  sound_inv (done ++ [path]) read (process_file read st path) /\
  (forall t, resolved_from (done ++ [path]) read t ->
     exists s, technique_id t = JStr s).
Proof.
  intros Hread (objs & Hobjs & Hsound) (_ & _ & Hprov & Hreg) Hstr
    (K1 & K2 & K3 & K4).
  destruct (process_stix_data_total stix_data objs Hobjs) as [pd Hpd].
  { eapply Forall_impl; [|exact Hsound]. apply sound_object_plain. }
  destruct (sound_file_bundle _ _ _ Hobjs Hsound Hpd)
    as (Hap & Hm & Hg & Hsw & Hrel).
  assert (Hres_ok : forall ap, In ap (values (attack_patterns pd)) ->
            exists o, extract_technique_data ap pd = Ok o /\
              match o with
              | Some t => exists s, technique_id t = JStr s
              | None => True
              end).
  { intros ap Hin. rewrite Forall_forall in Hap.
    apply extract_technique_data_sound; auto. }
  assert (Hstr' : forall t, resolved_from (done ++ [path]) read t ->
            exists s, technique_id t = JStr s).
  { intros t (p & stix & pd' & ap & Hp & Hrd & Hpd' & Hin & Hex).
    apply in_app_or in Hp as [Hp|[<-|[]]].
    - apply Hstr. exists p, stix, pd', ap. auto.
    - rewrite Hread in Hrd. injection Hrd as <-.
      rewrite Hpd in Hpd'. injection Hpd' as <-.
      destruct (Hres_ok ap Hin) as (o & Ho & Hs). rewrite Hex in Ho.
      injection Ho as <-. exact Hs. }
  split; [|exact Hstr'].
  destruct (resolve_total pd (values (attack_patterns pd))
              (all_technique_ids st) [])
    as (ids & fts & Hres & _ & _).
  { apply Forall_forall. intros ap Hin.
    destruct (Hres_ok ap Hin) as (o & -> & _). discriminate. }
  { intros ap t Hin Hex. destruct (Hres_ok ap Hin) as (o & Ho & Hs).
    rewrite Hex in Ho. injection Ho as <-. destruct Hs as [s ->]. reflexivity. }
  destruct (resolve_complete _ _ _ _ _ _ Hres) as (_ & Hmono & Hnew & Hall).
  assert (Hfts : Forall (resolved_from (done ++ [path]) read) fts).
  { assert (HQ : forall ap t, In ap (values (attack_patterns pd)) ->
              extract_technique_data ap pd = Ok (Some t) ->
              resolved_from (done ++ [path]) read t).
    { intros ap t Hin Hex. exists path, stix_data, pd, ap.
      repeat split; auto. apply in_or_app. right. now left. }
    destruct (resolve_provenance _ pd _ HQ _ _ _ _ Hres) as [_ H];
      [constructor| |exact H].
    eapply Forall_impl; [|exact Hreg]. intros k (t & Ht & Hk).
    exists t. split; [|exact Hk].
    eapply resolved_from_incl; [|exact Ht]. apply incl_appl, incl_refl. }
  assert (Hdisk : exists disk',
            on_disk (process_file read st path) =
              {| doc_metadata := doc_metadata (on_disk st);
                 techniques := disk' |} /\
            Permutation disk' (techniques (on_disk st) ++ fts) /\
            all_technique_ids (process_file read st path) = ids /\
            total (process_file read st path) = total st + List.length fts /\
            processed (process_file read st path) =
              processed st ++ [basename path]).
  { unfold process_file. rewrite Hread. cbn [bind]. rewrite Hpd, Hres.
    destruct fts as [|t0 fts0] eqn:Efts.
    - exists (techniques (on_disk st)). cbn. rewrite app_nil_r, Nat.add_0_r.
      destruct (on_disk st). auto.
    - rewrite <- Efts in *. cbn [on_disk all_technique_ids total processed].
      destruct (sort_strings_ok (techniques (on_disk st) ++ fts)) as [l' Hsort].
      { apply Forall_app. split.
        - eapply Forall_impl; [|exact Hprov]. intros t Ht. apply Hstr, Ht.
        - eapply Forall_impl; [|exact Hfts]. intros t Ht. apply Hstr', Ht. }
      exists l'. unfold append_techniques_to_file. rewrite Hsort.
      repeat split; auto. eapply sort_by_technique_id_perm, Hsort. }
  destruct Hdisk as (disk' & Hd & Hperm & Hids & Htot & Hproc).
  unfold sound_inv. rewrite Hd, Hids, Htot, Hproc. cbn [techniques].
  repeat split.
  - intros k Hk. destruct (Hnew k Hk) as [Hk'|(t & Ht & Hk')].
    + destruct (K1 k Hk') as (t & Ht & Htk). exists t. split; [|exact Htk].
      eapply Permutation_in; [symmetry; exact Hperm|].
      apply in_or_app. now left.
    + exists t. split; [|exact Hk'].
      eapply Permutation_in; [symmetry; exact Hperm|].
      apply in_or_app. now right.
  - intros t (p & stix & pd' & ap & Hp & Hrd & Hpd' & Hin & Hex).
    apply in_app_or in Hp as [Hp|[<-|[]]].
    + apply Hmono, K2. exists p, stix, pd', ap. auto.
    + rewrite Hread in Hrd. injection Hrd as <-.
      rewrite Hpd in Hpd'. injection Hpd' as <-. eapply Hall; eassumption.
  - rewrite (Permutation_length Hperm), length_app, K3. reflexivity.
  - rewrite K4, map_app. reflexivity.
Qed.

Lemma process_files_sound read files : forall done st,
  (forall path, In path files ->
     exists stix_data, read path = Ok stix_data /\ sound_file stix_data) ->
  folder_inv done read st ->
  (forall t, resolved_from done read t -> exists s, technique_id t = JStr s) ->
  sound_inv done read st ->
  sound_inv (done ++ files) read (fold_left (process_file read) files st) /\
  (forall t, resolved_from (done ++ files) read t ->
     exists s, technique_id t = JStr s).
Proof.
  induction files as [|path files IH]; intros done st Hsound Hinv Hstr Hk;
    cbn [fold_left].
  - rewrite app_nil_r. auto.
  - destruct (Hsound path (or_introl eq_refl)) as (stix & Hread & Hfile).
    destruct (process_file_sound done read st path stix Hread Hfile Hinv Hstr Hk)
      as [Hk' Hstr'].
    replace (done ++ path :: files) with ((done ++ [path]) ++ files)
      by now rewrite <- app_assoc.
    apply IH; auto.
    + intros p Hp. apply Hsound. now right.
    + apply process_file_inv, Hinv.
Qed.

(** X19: a folder whose files all parse and follow the STIX layout loses
    nothing.  Every file is listed in [processed_files], in the sorted
    order of the paths; [total_techniques] is the number of records of the
    document; and every identifier that some attack pattern of some file
    resolves to has a record in the document. *)
Theorem sound_folder_loses_nothing folder_path json_files read output_file :
  json_files <> [] ->
  sound_folder json_files read ->
  exists doc,
    process_folder true folder_path json_files read output_file = Some doc /\
    processed_files (doc_metadata doc) =
      map basename (stable_sort String.ltb json_files) /\
    total_techniques (doc_metadata doc) = List.length (techniques doc) /\
    (forall t, resolved_from json_files read t ->
       exists t', In t' (techniques doc) /\ technique_id t' = technique_id t).
Proof.
  intros Hne Hsound.
  destruct (process_folder_run folder_path json_files read output_file Hne)
    as (st & Hst & Hrun & Hinv).
  assert (Hperm : Permutation (stable_sort String.ltb json_files) json_files)
    by apply stable_sort_perm.
  destruct (process_files_sound read (stable_sort String.ltb json_files) []
              {| all_technique_ids := []; total := 0; processed := [];
                 on_disk := initial_data folder_path |})
    as [(K1 & K2 & K3 & K4) Hstr].
  { intros p Hp. apply Hsound. eapply Permutation_in; eassumption. }
  { apply folder_inv_init. }
  { intros t (p & _ & _ & _ & [] & _). }
  { repeat split; cbn; try discriminate. intros t (p & _ & _ & _ & [] & _). }
  cbn [app] in *. rewrite <- Hst in *.
  eexists. split; [exact Hrun|]. cbn. repeat split; auto.
  intros t Ht.
  assert (Ht' : resolved_from (stable_sort String.ltb json_files) read t).
  { eapply resolved_from_incl; [|exact Ht]. intros p Hp.
    eapply Permutation_in; [symmetry; exact Hperm|exact Hp]. }
  destruct (K1 _ (K2 t Ht')) as (t' & Hin & Hkey).
  exists t'. split; [exact Hin|].
  destruct Hinv as (_ & _ & Hprov & _). rewrite Forall_forall in Hprov.
  destruct (Hstr t Ht') as [s Hs].
  destruct (Hstr t') as [s' Hs'].
  { eapply resolved_from_incl; [|apply Hprov, Hin]. intros p Hp.
    eapply Permutation_in; [symmetry; exact Hperm|exact Hp]. }
  rewrite Hs, Hs' in *. cbn in Hkey. apply String.eqb_eq in Hkey.
  now subst.
Qed.

Lemma sound_second_bundle :
  sound_file sample_second_bundle.
Proof.
  exists [sample_technique_a2]. split; [reflexivity|].
  repeat constructor; try (eexists; reflexivity);
    try apply mitre_ref_sound; apply no_phases_sound.
Qed.

Lemma sound_folder_loses_nothing_witness :
  exists doc,
    process_folder true "data" ["data/b.json"; "data/a.json"]
      read_sound_folder None = Some doc /\
    processed_files (doc_metadata doc) = ["a.json"; "b.json"] /\
    total_techniques (doc_metadata doc) = List.length (techniques doc).
Proof.
  destruct (sound_folder_loses_nothing "data" ["data/b.json"; "data/a.json"]
              read_sound_folder None) as (doc & H1 & H2 & H3 & _).
  - discriminate.
  - intros p [<-|[<-|[]]].
    + exists sample_second_bundle. split; [reflexivity|].
      apply sound_second_bundle.
    + exists sample_bundle. split; [reflexivity|].
      eexists. split; [reflexivity|apply sample_bundle_sound].
  - exists doc. split; [exact H1|]. split; [|exact H3].
    rewrite H2. reflexivity.
Defined.

(** ** append_techniques_to_file *)

Lemma sort_by_technique_id_sorted (l l' : list technique) :
  sort_by_technique_id l = Ok l' -> StronglySorted id_le l'.
Proof.
  destruct l as [|x [|y l]]; cbn [sort_by_technique_id].
  - intros [= <-]. constructor.
  - intros [= <-]. repeat constructor.
  - destruct (forallb _ _) eqn:Hall; [|discriminate]. intros [= <-].
    set (ltb := fun a b => key_ltb (technique_id a) (technique_id b)).
    change (StronglySorted (fun a b => ltb b a = false)
              (stable_sort ltb (x :: y :: l))).
    apply (stable_sort_sorted ltb
             (fun t => comparable (technique_id x) (technique_id t) = true)).
    + apply id_ltb_asym.
    + intros a b c. apply id_le_trans.
    + apply Forall_forall. apply forallb_forall, Hall.
Qed.

(** X20: appending a batch never touches the metadata and never loses a
    record already in the file.  The file afterwards holds either what it
    held (the sort raised) or the old and new records together, in
    ascending order of identifier; when all identifiers are strings it is
    the second. *)
Theorem append_keeps_or_merges data new_techniques :
  doc_metadata (append_techniques_to_file data new_techniques) =
    doc_metadata data /\
  (forall t, In t (techniques data) ->
     In t (techniques (append_techniques_to_file data new_techniques))) /\
  (techniques (append_techniques_to_file data new_techniques) =
     techniques data \/
   (Permutation (techniques (append_techniques_to_file data new_techniques))
      (techniques data ++ new_techniques) /\
    StronglySorted id_le
      (techniques (append_techniques_to_file data new_techniques)))) /\
  (Forall (fun t => exists s, technique_id t = JStr s)
     (techniques data ++ new_techniques) ->
   Permutation (techniques (append_techniques_to_file data new_techniques))
     (techniques data ++ new_techniques) /\
   StronglySorted id_le
     (techniques (append_techniques_to_file data new_techniques))).
Proof.
  split; [|split; [|split]].
  - unfold append_techniques_to_file.
    destruct (sort_by_technique_id _); reflexivity.
  - intros t. apply append_keeps.
  - unfold append_techniques_to_file.
    destruct (sort_by_technique_id _) as [l'|] eqn:Hsort; cbn; [|now left].
    right. split; [eapply sort_by_technique_id_perm, Hsort|].
    eapply sort_by_technique_id_sorted, Hsort.
  - intros Hstr. destruct (sort_strings_ok _ Hstr) as [l' Hsort].
    unfold append_techniques_to_file. rewrite Hsort. cbn.
    split; [eapply sort_by_technique_id_perm, Hsort|].
    eapply sort_by_technique_id_sorted, Hsort.
Qed.

Lemma append_keeps_or_merges_witness :
  Permutation
    (techniques (append_techniques_to_file (initial_data "data")
                   [sample_record_a]))
    [sample_record_a].
Proof.
  refine (proj1 (proj2 (proj2 (proj2
            (append_keeps_or_merges (initial_data "data") [sample_record_a])))
            _)).
  repeat constructor. eexists. reflexivity.
Defined.

(** ** The labels of the document *)

Lemma split_nonempty (sep : ascii) (s : string) : split sep s <> [].
Proof.
  destruct s as [|c s]; cbn [split]; [discriminate|].
  destruct (Ascii.eqb c sep); [discriminate|].
  destruct (split sep s); discriminate.
Qed.

Lemma split_app_sep (sep : ascii) (a b : string) :
  split sep (a ++ String sep b) = split sep a ++ split sep b.
Proof.
  induction a as [|c a IH]; cbn [append split].
  - rewrite Ascii.eqb_refl. reflexivity.
  - destruct (Ascii.eqb c sep); [now rewrite IH|].
    rewrite IH. destruct (split sep a) as [|f r] eqn:Ha;
      [now apply split_nonempty in Ha|].
    reflexivity.
Qed.

Lemma split_no_sep (sep : ascii) (s : string) :
  contains (String sep "") s = false -> split sep s = [s].
Proof.
  induction s as [|c s IH]; cbn [contains String.prefix split];
    [reflexivity|].
  destruct (ascii_dec sep c) as [->|Hne]; [destruct s; discriminate|].
  cbn [orb]. intros H. rewrite (IH H).
  destruct (Ascii.eqb_spec c sep); [congruence|reflexivity].
Qed.

Lemma last_app_nonempty {A : Type} (l1 l2 : list A) (d : A) :
  l2 <> [] -> last (l1 ++ l2) d = last l2 d.
Proof.
  intros H. induction l1 as [|x l1 IH]; [reflexivity|].
  cbn [app]. destruct (l1 ++ l2) eqn:E.
  - apply app_eq_nil in E as [_ ->]. congruence.
  - exact IH.
Qed.

Lemma basename_join (dir name : string) :
  contains "/" name = false ->
  basename (dir ++ String "/" name) = name.
Proof.
  intros H. unfold basename.
  rewrite split_app_sep, last_app_nonempty by apply split_nonempty.
  now rewrite (split_no_sep "/" name H).
Qed.

Lemma process_file_metadata read st path :
  doc_metadata (on_disk (process_file read st path)) =
  doc_metadata (on_disk st).
Proof.
  destruct (process_file_cases read st path)
    as [->|(stix & pd & ids & outcome & _ & _ & _ & _ & Hout)];
    [reflexivity|].
  destruct outcome as [[|t fts]|]; rewrite Hout; try reflexivity.
  unfold append_techniques_to_file.
  destruct (sort_by_technique_id _); reflexivity.
Qed.

(** X21: the document of a run carries the fixed extraction date
    "2025-07-29", whenever the run takes place, and labels built from the
    part of the folder path after its last "/": the folder name for a path
    "dir/name", and the empty string for a path that ends in "/". *)
Theorem document_labels folder_path json_files read output_file :
  json_files <> [] ->
  exists doc,
    process_folder true folder_path json_files read output_file = Some doc /\
    extraction_date (doc_metadata doc) = "2025-07-29" /\
    source (doc_metadata doc) = ("MITRE ATT&CK " ++ basename folder_path)%string /\
    meta_description (doc_metadata doc) =
      ("Comprehensive technique data extracted from " ++ basename folder_path
       ++ " MITRE ATT&CK framework")%string /\
    (forall dir name, folder_path = (dir ++ String "/" name)%string ->
       contains "/" name = false -> basename folder_path = name).
Proof.
  intros Hne.
  destruct (process_folder_run folder_path json_files read output_file Hne)
    as (st & Hst & Hrun & _).
  eexists. split; [exact Hrun|].
  assert (Hmeta : doc_metadata (on_disk st) =
                  doc_metadata (initial_data folder_path)).
  { subst st. generalize (stable_sort String.ltb json_files).
    intros files.
    assert (H : forall st0,
              doc_metadata (on_disk (fold_left (process_file read) files st0))
              = doc_metadata (on_disk st0)).
    { induction files as [|p files IH]; intros st0; cbn [fold_left];
        [reflexivity|].
      now rewrite IH, process_file_metadata. }
    apply H. }
  cbn. rewrite Hmeta. cbn. repeat split.
  intros dir name -> Hname. apply basename_join, Hname.
Qed.

Lemma document_labels_witness :
  exists doc,
    process_folder true "attack-stix-data/enterprise-attack"
      ["attack-stix-data/enterprise-attack/a.json"] (fun _ => Raise) None =
      Some doc /\
    source (doc_metadata doc) = "MITRE ATT&CK enterprise-attack".
Proof.
  destruct (document_labels "attack-stix-data/enterprise-attack"
              ["attack-stix-data/enterprise-attack/a.json"]
              (fun _ => Raise) None)
    as (doc & H1 & _ & H2 & _ & H3); [discriminate|].
  exists doc. split; [exact H1|]. rewrite H2.
  rewrite (H3 "attack-stix-data" "enterprise-attack" eq_refl eq_refl).
  reflexivity.
Defined.

(** * main and its paths *)

Lemma append_assoc_s (a b c : string) : ((a ++ b) ++ c = a ++ (b ++ c))%string.
Proof. induction a as [|x a IH]; cbn; [reflexivity|now rewrite IH]. Qed.

Lemma append_eqb_l (a x y : string) : ((a ++ x =? a ++ y) = (x =? y))%string.
Proof.
  induction a as [|c a IH]; cbn; [reflexivity|].
  now rewrite Ascii.eqb_refl.
Qed.

Lemma path_join_relative (a b : string) :
  startswith b "/" = false -> path_join a b = (dir_prefix a ++ b)%string.
Proof.
  intros H. unfold path_join, dir_prefix. rewrite H.
  destruct ((a =? "") || ends_with_slash a); [reflexivity|].
  now rewrite append_assoc_s.
Qed.

Lemma contains_app_sep (a b : string) :
  contains "/" (a ++ String "/" b) = true.
Proof.
  induction a as [|c a IH]; cbn [append contains String.prefix].
  - destruct (ascii_dec "/" "/"); [|congruence]. now destruct b.
  - rewrite IH. apply orb_true_r.
Qed.

Lemma head_part_app_sep (a b : string) :
  contains "/" b = false ->
  head_part (a ++ String "/" b) = (a ++ "/")%string.
Proof.
  intros Hb. induction a as [|c a IH]; cbn [append head_part].
  - now rewrite Hb.
  - now rewrite contains_app_sep, IH.
Qed.

Lemma all_slashes_app (a b : string) (c : ascii) :
  c <> "/"%char -> all_slashes (a ++ String c b) = false.
Proof.
  intros Hc. induction a as [|x a IH]; cbn [append all_slashes].
  - destruct (Ascii.eqb_spec c "/"); [congruence|reflexivity].
  - rewrite IH. apply andb_false_r.
Qed.

Lemma rstrip_slashes_app (a : string) (c : ascii) :
  c <> "/"%char ->
  rstrip_slashes (a ++ String c "/") = (a ++ String c "")%string.
Proof.
  intros Hc. induction a as [|x a IH]; cbn [append rstrip_slashes].
  - destruct (Ascii.eqb_spec c "/"); [congruence|reflexivity].
  - rewrite IH. destruct a; reflexivity.
Qed.

Lemma ends_with_slash_app (a : string) (c : ascii) :
  c <> "/"%char -> ends_with_slash (a ++ String c "") = false.
Proof.
  intros Hc. induction a as [|x a IH]; cbn [append ends_with_slash].
  - destruct (Ascii.eqb_spec c "/"); [congruence|reflexivity].
  - destruct (a ++ String c "")%string eqn:E; [destruct a; discriminate|].
    exact IH.
Qed.

Lemma dirname_of_child (a : string) (c : ascii) (name : string) :
  c <> "/"%char -> contains "/" name = false ->
  dirname (a ++ String c (String "/" name)) = (a ++ String c "")%string.
Proof.
  intros Hc Hname. unfold dirname.
  replace (a ++ String c (String "/" name))%string
    with ((a ++ String c "") ++ String "/" name)%string
    by now rewrite append_assoc_s.
  rewrite (head_part_app_sep _ _ Hname), append_assoc_s. cbn [append].
  rewrite (all_slashes_app a "/" c Hc).
  destruct (a ++ String c "/" =? "")%string eqn:E.
  { apply String.eqb_eq in E. destruct a; discriminate. }
  cbn [negb andb]. apply rstrip_slashes_app, Hc.
Qed.

(** Where [process_folder] writes for a folder [dir/name]. *)
Lemma output_path_of_child (a : string) (c : ascii) (name file : string) :
  c <> "/"%char -> contains "/" name = false -> startswith file "/" = false ->
  output_path (a ++ String c (String "/" name)) file =
  (a ++ String c (String "/" file))%string.
Proof.
  intros Hc Hname Hfile. unfold output_path.
  rewrite (dirname_of_child a c name Hc Hname). unfold path_join.
  rewrite Hfile, (ends_with_slash_app a c Hc).
  destruct (a ++ String c "" =? "")%string eqn:E.
  { apply String.eqb_eq in E. destruct a; discriminate. }
  cbn [orb]. now rewrite append_assoc_s.
Qed.

Lemma corpus_paths script_dir name :
  In name corpus_names ->
  path_join script_dir ("attack-stix-data/" ++ name) =
    (dir_prefix script_dir ++ "attack-stix-data/" ++ name)%string /\
  output_path (dir_prefix script_dir ++ "attack-stix-data/" ++ name)
    (name ++ ".json") =
    (dir_prefix script_dir ++ "attack-stix-data/" ++ name ++ ".json")%string /\
  path_join script_dir (name ++ ".json") =
    (dir_prefix script_dir ++ name ++ ".json")%string.
Proof.
  intros Hname.
  assert (Hout : forall n, contains "/" n = false ->
            startswith (n ++ ".json") "/" = false ->
            output_path (dir_prefix script_dir ++ "attack-stix-data/" ++ n)
              (n ++ ".json") =
            (dir_prefix script_dir ++ "attack-stix-data/" ++ n ++ ".json")%string).
  { intros n H1 H2.
    replace (dir_prefix script_dir ++ "attack-stix-data/" ++ n)%string
      with ((dir_prefix script_dir ++ "attack-stix-dat")
            ++ String "a" (String "/" n))%string
      by now rewrite append_assoc_s.
    rewrite output_path_of_child by (auto; discriminate).
    now rewrite append_assoc_s. }
  destruct Hname as [<-|[<-|[<-|[]]]];
    (split; [apply path_join_relative; reflexivity|]);
    (split; [apply Hout; reflexivity|apply path_join_relative; reflexivity]).
Qed.

Lemma main_paths_written script_dir path_exists glob read files :
  (forall name, In name corpus_names ->
     let folder_path :=
       (dir_prefix script_dir ++ "attack-stix-data/" ++ name)%string in
     let out :=
       (dir_prefix script_dir ++ "attack-stix-data/" ++ name ++ ".json")%string in
     main script_dir path_exists glob read files out =
     process_folder (path_exists folder_path) folder_path (glob folder_path)
       read (files out)) /\
  (forall p,
     (forall name, In name corpus_names ->
        p <> (dir_prefix script_dir ++ "attack-stix-data/" ++ name
              ++ ".json")%string) ->
     main script_dir path_exists glob read files p = files p).
Proof.
  assert (Hmain : forall p,
    main script_dir path_exists glob read files p =
    let out n := (dir_prefix script_dir ++ "attack-stix-data/" ++ n ++ ".json")%string in
    let folder n := (dir_prefix script_dir ++ "attack-stix-data/" ++ n)%string in
    let run n :=
      process_folder (path_exists (folder n)) (folder n) (glob (folder n))
        read (files (out n)) in
    if (p =? out "mobile-attack") then run "mobile-attack"
    else if (p =? out "ics-attack") then run "ics-attack"
    else if (p =? out "enterprise-attack") then run "enterprise-attack"
    else files p).
  { intros p. unfold main. cbn [fold_left folders_to_process fst snd].
    destruct (corpus_paths script_dir "enterprise-attack") as (E1 & E2 & _);
      [cbn; auto|].
    destruct (corpus_paths script_dir "ics-attack") as (I1 & I2 & _);
      [cbn; auto|].
    destruct (corpus_paths script_dir "mobile-attack") as (M1 & M2 & _);
      [cbn; auto|].
    cbn [append] in *. rewrite E1, I1, M1, E2, I2, M2.
    unfold write. cbv beta zeta.
    rewrite !append_eqb_l. cbn [String.eqb Ascii.eqb Bool.eqb].
    reflexivity. }
  split.
  - intros name Hname. cbv beta zeta. rewrite Hmain. cbv beta zeta.
    rewrite !append_eqb_l.
    destruct Hname as [<-|[<-|[<-|[]]]]; reflexivity.
  - intros p Hp. rewrite Hmain. cbv beta zeta.
    destruct (String.eqb_spec p
                (dir_prefix script_dir ++ "attack-stix-data/" ++ "mobile-attack"
                 ++ ".json")) as [E|_];
      [exfalso; eapply Hp; [|exact E]; cbn; auto|].
    destruct (String.eqb_spec p
                (dir_prefix script_dir ++ "attack-stix-data/" ++ "ics-attack"
                 ++ ".json")) as [E|_];
      [exfalso; eapply Hp; [|exact E]; cbn; auto|].
    destruct (String.eqb_spec p
                (dir_prefix script_dir ++ "attack-stix-data/"
                 ++ "enterprise-attack" ++ ".json")) as [E|_];
      [exfalso; eapply Hp; [|exact E]; cbn; auto|].
    reflexivity.
Qed.

(** X22: [main] writes one document per corpus, beside the corpus folder:
    for each of the three folders [attack-stix-data/<name>] under the
    script directory it leaves at [attack-stix-data/<name>.json] what
    [process_folder] makes of that folder alone (no deduplication across
    corpora), and it changes no other file. *)
Theorem main_writes_beside_the_folders script_dir path_exists glob read files :
  (forall name, In name corpus_names ->
     let folder_path :=
       (dir_prefix script_dir ++ "attack-stix-data/" ++ name)%string in
     let out :=
       (dir_prefix script_dir ++ "attack-stix-data/" ++ name ++ ".json")%string in
     main script_dir path_exists glob read files out =
     process_folder (path_exists folder_path) folder_path (glob folder_path)
       read (files out)) /\
  (forall p,
     (forall name, In name corpus_names ->
        p <> (dir_prefix script_dir ++ "attack-stix-data/" ++ name
              ++ ".json")%string) ->
     main script_dir path_exists glob read files p = files p).
Proof.
  destruct (main_paths_written script_dir path_exists glob read files)
    as [Hwritten Hother].
  split.
  - intros name Hname. apply Hwritten, Hname.
  - intros p Hp. apply Hother, Hp.
Qed.

Lemma main_writes_beside_the_folders_witness :
  main "/srv" sample_exists sample_glob read_sound_folder (fun _ => None)
    "/srv/attack-stix-data/enterprise-attack.json" =
  process_folder true "/srv/attack-stix-data/enterprise-attack"
    ["data/b.json"; "data/a.json"] read_sound_folder None.
Proof.
  apply (proj1 (main_writes_beside_the_folders "/srv" sample_exists
                  sample_glob read_sound_folder (fun _ => None))
           "enterprise-attack").
  cbn. auto.
Defined.

(** X23: the paths at which [main] then looks to report the files created,
    [<name>.json] directly under the script directory, are none of the
    paths it wrote: whatever is reported there was there before the run,
    unchanged. *)
Theorem main_reports_other_paths script_dir path_exists glob read files p :
  In p (reported_paths script_dir) ->
  (exists name, In name corpus_names /\
     p = (dir_prefix script_dir ++ name ++ ".json")%string) /\
  main script_dir path_exists glob read files p = files p.
Proof.
  intros Hp.
  assert (Hname : exists name, In name corpus_names /\
            p = (dir_prefix script_dir ++ name ++ ".json")%string).
  { unfold reported_paths in Hp. cbn [map folders_to_process snd] in Hp.
    destruct Hp as [<-|[<-|[<-|[]]]];
      [exists "enterprise-attack"|exists "ics-attack"|exists "mobile-attack"];
      (split; [cbn; auto 6|]).
    - exact (path_join_relative script_dir "enterprise-attack.json" eq_refl).
    - exact (path_join_relative script_dir "ics-attack.json" eq_refl).
    - exact (path_join_relative script_dir "mobile-attack.json" eq_refl). }
  split; [exact Hname|].
  destruct Hname as (name & Hname & ->).
  apply (proj2 (main_paths_written script_dir path_exists glob read files)).
  intros name' Hname' E.
  assert (E' : ((name ++ ".json" =? "attack-stix-data/" ++ name' ++ ".json")
                = true)%string).
  { rewrite <- (append_eqb_l (dir_prefix script_dir)). apply String.eqb_eq, E. }
  destruct Hname as [<-|[<-|[<-|[]]]];
    destruct Hname' as [<-|[<-|[<-|[]]]]; discriminate E'.
Qed.

Lemma main_reports_other_paths_witness :
  main "/srv" sample_exists sample_glob read_sound_folder (fun _ => None)
    "/srv/enterprise-attack.json" = None.
Proof.
  apply (proj2 (main_reports_other_paths "/srv" sample_exists sample_glob
                  read_sound_folder (fun _ => None)
                  "/srv/enterprise-attack.json" (or_introl eq_refl))).
Defined.

(** ** Files that fail *)

Lemma resolve_batch pd (Q : technique -> Prop) aps : forall ids acc ids' fts,
  (forall ap t, In ap aps -> extract_technique_data ap pd = Ok (Some t) -> Q t) ->
  resolve_attack_patterns aps pd ids acc = (ids', Ok fts) ->
  Forall Q acc -> Forall Q fts.
Proof.
  induction aps as [|ap aps IH]; intros ids acc ids' fts HQ;
    cbn [resolve_attack_patterns].
  - intros [= <- <-]. auto.
  - assert (HQ' : forall ap' t, In ap' aps ->
              extract_technique_data ap' pd = Ok (Some t) -> Q t).
    { intros ap' t Hin. apply HQ. now right. }
    destruct (extract_technique_data ap pd) as [[t|]|] eqn:Hex;
      [| |discriminate].
    + destruct (set_mem ids (technique_id t)) as [[|]|]; [| |discriminate].
      * apply IH, HQ'.
      * intros Hres Hacc. eapply IH; [exact HQ'|exact Hres|].
        apply Forall_app. split; [exact Hacc|]. constructor; [|constructor].
        apply (HQ ap); [now left|exact Hex].
    + apply IH, HQ'.
Qed.

Lemma process_file_from_successes read done st path :
  Forall (resolved_from (filter (file_succeeds read) done) read)
         (techniques (on_disk st)) ->
  Forall (resolved_from (filter (file_succeeds read) (done ++ [path])) read)
         (techniques (on_disk (process_file read st path))).
Proof.
  intros Hdisk.
  assert (Hdisk' :
    Forall (resolved_from (filter (file_succeeds read) (done ++ [path])) read)
           (techniques (on_disk st))).
  { eapply Forall_impl; [|exact Hdisk]. intros t.
    apply resolved_from_incl. rewrite filter_app. apply incl_appl, incl_refl. }
  destruct (process_file_cases read st path)
    as [->|(stix & pd & ids & outcome & Hread & Hpd & Hres & _ & Hout)];
    [exact Hdisk'|].
  destruct outcome as [fts|]; [|now rewrite Hout].
  destruct fts as [|t0 fts0] eqn:Efts; [now rewrite Hout|].
  rewrite <- Efts in *. rewrite Hout.
  assert (Hsucc : file_succeeds read path = true).
  { unfold file_succeeds. rewrite Hread. cbn [bind]. rewrite Hpd.
    unfold resolves_cleanly.
    rewrite <- (resolve_outcome pd _ (all_technique_ids st) []), Hres.
    reflexivity. }
  assert (Hfts : Forall
            (resolved_from (filter (file_succeeds read) (done ++ [path])) read)
            fts).
  { eapply (resolve_batch pd); [|exact Hres|constructor].
    intros ap t Hin Hex. exists path, stix, pd, ap. repeat split; auto.
    rewrite filter_app. apply in_or_app. right. cbn. rewrite Hsucc. now left. }
  unfold append_techniques_to_file.
  destruct (sort_by_technique_id _) as [l'|] eqn:Hsort; cbn; [|exact Hdisk'].
  eapply Permutation_Forall;
    [symmetry; eapply sort_by_technique_id_perm, Hsort|].
  apply Forall_app. auto.
Qed.

(** X24: a file that fails contributes no record: every record of the
    document was resolved from an attack pattern of a file whose
    processing ran to its end. *)
Theorem failed_files_contribute_nothing folder_path json_files read
  output_file doc t :
  json_files <> [] ->
  process_folder true folder_path json_files read output_file = Some doc ->
  In t (techniques doc) ->
  exists path stix_data pd attack_pattern,
    In path json_files /\ file_succeeds read path = true /\
    read path = Ok stix_data /\ process_stix_data stix_data = Ok pd /\
    In attack_pattern (values (attack_patterns pd)) /\
    extract_technique_data attack_pattern pd = Ok (Some t).
Proof.
  intros Hne Hrun Hin.
  destruct (process_folder_run folder_path json_files read output_file Hne)
    as (st & Hst & Hrun' & _).
  rewrite Hrun in Hrun'. injection Hrun' as ->. cbn in Hin.
  assert (H : forall files done st0,
            Forall (resolved_from (filter (file_succeeds read) done) read)
                   (techniques (on_disk st0)) ->
            Forall (resolved_from
                      (filter (file_succeeds read) (done ++ files)) read)
                   (techniques
                      (on_disk (fold_left (process_file read) files st0)))).
  { induction files as [|p files IH]; intros done st0 H0; cbn [fold_left].
    - now rewrite app_nil_r.
    - replace (done ++ p :: files) with ((done ++ [p]) ++ files)
        by now rewrite <- app_assoc.
      apply IH, process_file_from_successes, H0. }
  specialize (H (stable_sort String.ltb json_files) []
                {| all_technique_ids := []; total := 0; processed := [];
                   on_disk := initial_data folder_path |}).
  cbn [app] in H. rewrite <- Hst in H.
  specialize (H (Forall_nil _)). rewrite Forall_forall in H.
  destruct (H t Hin) as (path & stix & pd & ap & Hp & Hrest).
  apply filter_In in Hp as [Hp Hsucc].
  exists path, stix, pd, ap. split; [|auto].
  eapply Permutation_in; [apply stable_sort_perm|exact Hp].
Qed.

Lemma failed_files_contribute_nothing_witness :
  exists path,
    In path ["data/b.json"; "data/a.json"] /\
    file_succeeds read_sound_folder path = true /\
    exists stix_data pd attack_pattern,
      read_sound_folder path = Ok stix_data /\
      process_stix_data stix_data = Ok pd /\
      In attack_pattern (values (attack_patterns pd)) /\
      extract_technique_data attack_pattern pd = Ok (Some sample_record_a).
Proof.
  destruct (failed_files_contribute_nothing "data"
              ["data/b.json"; "data/a.json"] read_sound_folder None
              sample_document sample_record_a)
    as (path & stix & pd & ap & H1 & H2 & H3 & H4 & H5 & H6).
  - discriminate.
  - vm_compute. reflexivity.
  - simpl. auto.
  - exists path. split; [exact H1|]. split; [exact H2|].
    exists stix, pd, ap. auto.
Defined.

(** ** Descriptions that are no strings *)

(** X25: the brief reference of a source object whose [description] key
    holds [null], a boolean or a number cannot be built ([len] raises), nor
    one whose description is a list of more than 200 elements (the slice
    cannot be joined to "..."); a list of at most 200 elements is stored as
    it is. *)
Theorem brief_description_edge_cases d v :
  dict_get d "description" = Some v ->
  (v = JNull \/ (exists b, v = JBool b) \/ (exists z, v = JNum z) ->
   brief_of (JObj d) = Raise) /\
  (forall l, v = JArr l -> 200 < List.length l -> brief_of (JObj d) = Raise) /\
  (forall l b, v = JArr l -> List.length l <= 200 ->
     brief_of (JObj d) = Ok b -> brief_description b = JArr l).
Proof.
  intros Hd. unfold brief_of. cbn [py_get bind]. rewrite Hd.
  split; [|split].
  - intros [->|[[b ->]|[z ->]]]; reflexivity.
  - intros l -> Hl. cbn [truncate_description].
    apply Nat.ltb_lt in Hl. rewrite Hl. reflexivity.
  - intros l b -> Hl. cbn [truncate_description].
    assert (Hl' : (200 <? List.length l)%nat = false) by (apply Nat.ltb_ge; lia).
    rewrite Hl'. cbn [bind].
    destruct (extract_technique_id _); cbn [bind]; [|discriminate].
    intros [= <-]. reflexivity.
Qed.

Lemma brief_description_edge_cases_witness :
  brief_of (JObj [("name", JStr "Patch"); ("description", JNull)]) = Raise.
Proof.
  apply (proj1 (brief_description_edge_cases
                  [("name", JStr "Patch"); ("description", JNull)] JNull
                  eq_refl)).
  now left.
Defined.
